(** * Meta-ETL: a shallow embedding of MetaETL.py and the properties of its
    reconciliation core.

    The development follows the layout of the script: Python values and
    dictionaries, the schema validator, datetime normalisation, the backoff
    wrapper, the extractors, the warehouse statements (DDL and upserts), the
    consistency filter and the orchestrated steps of [main]. *)

From Stdlib Require Import ZArith QArith Ascii String List Bool Lia.
From stdpp Require Import base list strings gmap.

Close Scope Q_scope.
Open Scope Z_scope.
Open Scope list_scope.

(** ** Python values *)

(** The values that travel through the script: what [json] decoding
    produces, plus [datetime]/[date] objects created by the script itself.
    Containers are kept as their serialised text: the script never looks
    inside them, it only tests their type and hands them to [json.dumps]. *)
Inductive PyVal :=
| PNone
| PBool (b : bool)
| PInt (z : Z)
| PFloat (q : Q)
| PStr (s : string)
| PDate (iso : string)
| PDateTime (iso : string)
| PList (json : string)
| PDict (json : string).

#[global] Instance Q_eq_dec : EqDecision Q.
Proof. solve_decision. Defined.

#[global] Instance PyVal_eq_dec : EqDecision PyVal.
Proof. solve_decision. Defined.

Module Py.

(** [type(value).__name__] *)
Definition type_name (v : PyVal) : string :=
  match v with
  | PNone => "NoneType"
  | PBool _ => "bool"
  | PInt _ => "int"
  | PFloat _ => "float"
  | PStr _ => "str"
  | PDate _ => "date"
  | PDateTime _ => "datetime"
  | PList _ => "list"
  | PDict _ => "dict"
  end.

Definition is_none (v : PyVal) : bool :=
  match v with PNone => true | _ => false end.

(** [isinstance(value, str)] *)
Definition is_str (v : PyVal) : bool :=
  match v with PStr _ => true | _ => false end.

(** [isinstance(value, date)]; [datetime] is a subclass of [date]. *)
Definition is_date (v : PyVal) : bool :=
  match v with PDate _ | PDateTime _ => true | _ => false end.

(** [isinstance(value, list)] *)
Definition is_list (v : PyVal) : bool :=
  match v with PList _ => true | _ => false end.

(** Truthiness, as tested by [if value:] and [x if value else y]. *)
Definition truthy (v : PyVal) : bool :=
  match v with
  | PNone => false
  | PBool b => b
  | PInt z => negb (z =? 0)
  | PFloat q => negb (Qeq_bool q 0)
  | PStr s => negb (String.eqb s "")
  | PDate _ | PDateTime _ => true
  | PList j => negb (String.eqb j "[]")
  | PDict j => negb (String.eqb j "{}")
  end.

Definition chars (s : string) : list ascii := list_ascii_of_string s.
Definition str (l : list ascii) : string := string_of_list_ascii l.

(** [s.endswith(suffix)] *)
Definition endswith (s suffix : string) : bool :=
  let cs := chars s in
  let cf := chars suffix in
  (length cf <=? length cs)%nat
  && bool_decide (drop (length cs - length cf) cs = cf).

(** [s[:-n]] for a positive [n] *)
Definition drop_last (n : nat) (s : string) : string :=
  let cs := chars s in str (take (length cs - n) cs).

(** An insertion-ordered [dict] with string keys. *)
Definition dict (V : Type) := list (string * V).

Section Dict.
Context {V : Type}.

(** [d.get(k)] *)
Fixpoint get (k : string) (d : dict V) : option V :=
  match d with
  | [] => None
  | (k', v) :: d' => if String.eqb k k' then Some v else get k d'
  end.

(** [k in d] *)
Definition mem (k : string) (d : dict V) : bool :=
  match get k d with Some _ => true | None => false end.

(** [d[k] = v]: overwrite in place, or append a new key. *)
Fixpoint set (k : string) (v : V) (d : dict V) : dict V :=
  match d with
  | [] => [(k, v)]
  | (k', v') :: d' =>
      if String.eqb k k' then (k', v) :: d' else (k', v') :: set k v d'
  end.

Definition keys (d : dict V) : list string := map fst d.
End Dict.

(** [d.get(k)] on a record whose values are Python values: a missing key
    reads as [None]. *)
Definition get_or_none (k : string) (d : dict PyVal) : PyVal :=
  match get k d with Some v => v | None => PNone end.

(** [d.get(k, default)] *)
Definition get_default (k : string) (default : PyVal) (d : dict PyVal) : PyVal :=
  match get k d with Some v => v | None => default end.

End Py.

Abbreviation pyrecord := (Py.dict PyVal).

(** ** Datetime normalisation ([normalize_datetime],
    [normalize_activity_datetime]) *)

Module Normalize.
Import Py.

Definition LF : ascii := "010"%char.

(** [\d] *)
Definition is_digit (c : ascii) : bool :=
  match Ascii.is_nat c with Some _ => true | None => false end.

(** [[+-]] *)
Definition is_sign (c : ascii) : bool :=
  bool_decide (c = "+"%char) || bool_decide (c = "-"%char).

(** [.] matches every character except a line feed. *)
Definition is_dot (c : ascii) : bool := negb (bool_decide (c = LF)).

(** [re.match] of the offset pattern against [s], returning the three
    groups. The pattern is: a greedy group of any characters, a group made
    of a sign and two digits, a group of two digits, and the end anchor.
    The anchor matches at the end of the string or just before a final
    line feed; the groups are then fixed: the last five characters before
    that point are a sign and four digits, and everything before them is
    the first group, which the dot can only cover if it holds no line
    feed. The digit class is taken over the ASCII digits. *)
Definition match_offset (s : string) : option (string * string * string) :=
  let cs := chars s in
  let cs' := match reverse cs with
             | c :: r => if bool_decide (c = LF) then reverse r else cs
             | [] => cs
             end in
  let n := (length cs' - 5)%nat in
  match drop n cs' with
  | [sg; h1; h2; m1; m2] =>
      if is_sign sg && is_digit h1 && is_digit h2 && is_digit m1
         && is_digit m2 && forallb is_dot (take n cs')
      then Some (str (take n cs'), str [sg; h1; h2], str [m1; m2])
      else None
  | _ => None
  end.

Definition normalize_str (dt_str : string) : string :=
  if endswith dt_str "Z" then drop_last 1 dt_str +:+ "+00:00"
  else match match_offset dt_str with
       | Some (base, hour, minute) => base +:+ hour +:+ ":" +:+ minute
       | None => dt_str
       end.

(** The helper nested in [fetch_campaigns]. *)
Definition normalize_datetime (dt_str : PyVal) : PyVal :=
  match dt_str with
  | PStr s => PStr (normalize_str s)
  | _ => dt_str
  end.

(** The module-level twin used by [fetch_activity_history]; its body is
    written out again in the script, line for line. *)
Definition normalize_activity_datetime (dt_str : PyVal) : PyVal :=
  match dt_str with
  | PStr s =>
      if endswith s "Z" then PStr (drop_last 1 s +:+ "+00:00")
      else match match_offset s with
           | Some (base, hour, minute) =>
               PStr (base +:+ hour +:+ ":" +:+ minute)
           | None => dt_str
           end
  | _ => dt_str
  end.

(** The five characters of a no-colon offset, [±hhmm]. *)
Definition offset (sg h1 h2 m1 m2 : ascii) : string :=
  String sg (String h1 (String h2 (String m1 (String m2 EmptyString)))).

(** The same offset with a colon, [±hh:mm]. *)
Definition colon_offset (sg h1 h2 m1 m2 : ascii) : string :=
  String sg (String h1 (String h2 (String ":"%char
    (String m1 (String m2 EmptyString))))).

(** A timestamp string is a single line: it holds no line feed. *)
Definition single_line (s : string) : Prop :=
  forallb is_dot (chars s) = true.

End Normalize.

(** ** Schema validator ([validate_schema]) *)

Module Validator.
Import Py.

(** One entry of a declarative schema: [{'type': .., 'required': ..,
    'nullable': .., 'format': ..}]. [required] and [nullable] read as
    [False] when the key is absent; [format] may be absent. *)
Record FieldSchema := {
  f_type : string;
  f_required : bool;
  f_nullable : bool;
  f_format : option string
}.

Definition Schema := dict FieldSchema.

(** The error report: category to list of messages, in insertion order. *)
Definition Errors := dict (list string).

(** [errors.setdefault(category, []).append(msg)] *)
Fixpoint report (category msg : string) (errors : Errors) : Errors :=
  match errors with
  | [] => [(category, [msg])]
  | (c, msgs) :: rest =>
      if String.eqb category c then (c, msgs ++ [msg]) :: rest
      else (c, msgs) :: report category msg rest
  end.

(** [if errors:] *)
Definition has_errors (errors : Errors) : bool :=
  match errors with [] => false | _ => true end.

Section Validate.
(** [datetime.fromisoformat] as a parse test: [true] when the string
    parses, [false] when the call raises. Its grammar differs between
    Python versions, so it stays a parameter. *)
Variable fromisoformat : string -> bool.

(** First loop: one pass over the schema for missing required fields. *)
Definition check_required (data : pyrecord) (errors : Errors)
    (entry : string * FieldSchema) : Errors :=
  let '(field, field_schema) := entry in
  if f_required field_schema && negb (mem field data)
  then report "required" ("Missing required field: " +:+ field) errors
  else errors.

(** The datetime branch of the format check, on a string value. *)
Definition datetime_parses (value : string) : bool :=
  let value := if endswith value "Z"
               then drop_last 1 value +:+ "+00:00" else value in
  let value := if endswith value "+0000"
               then drop_last 5 value +:+ "+00:00" else value in
  fromisoformat value.

(** Second loop body: the checks on one field of the record. *)
Definition check_field (schema : Schema) (errors : Errors)
    (item : string * PyVal) : Errors :=
  let '(field, value) := item in
  match get field schema with
  | None => errors
  | Some field_schema =>
      let expected_type := f_type field_schema in
      if is_none value && f_nullable field_schema then errors
      else if String.eqb expected_type "string" && is_date value
      then errors
      else
        let errors :=
          if String.eqb expected_type "string" then
            if negb (is_str value)
            then report "type"
                   ("Field '" +:+ field +:+ "' should be a string, got "
                    +:+ type_name value) errors
            else errors
          else if String.eqb expected_type "array" && negb (is_list value)
          then report "type"
                 ("Field '" +:+ field +:+ "' should be an array, got "
                  +:+ type_name value) errors
          else errors in
        match value, f_format field_schema with
        | PStr s, Some format_type =>
            if String.eqb expected_type "string"
               && String.eqb format_type "datetime"
               && negb (datetime_parses s)
            then report "format"
                   ("Field '" +:+ field +:+ "' should be a valid datetime")
                   errors
            else errors
        | _, _ => errors
        end
  end.

Definition validate_schema (data : pyrecord) (schema : Schema) : Errors :=
  let errors := fold_left (check_required data) schema [] in
  fold_left (check_field schema) data errors.
End Validate.

Definition field (t : string) (required nullable : bool)
    (format : option string) : FieldSchema :=
  {| f_type := t; f_required := required; f_nullable := nullable;
     f_format := format |}.

Definition CAMPAIGN_SCHEMA : Schema :=
  [ ("id", field "string" true false None);
    ("name", field "string" true false None);
    ("status", field "string" true false None);
    ("objective", field "string" false true None);
    ("buying_type", field "string" false true None);
    ("special_ad_categories", field "array" false true None);
    ("start_time", field "string" false true (Some "datetime"));
    ("end_time", field "string" false true (Some "datetime")) ].

Definition AD_INSIGHTS_HOURLY_SNAPSHOT_SCHEMA : Schema :=
  [ ("snapshot_hour", field "string" true false (Some "datetime"));
    ("ad_id", field "string" true false None);
    ("adset_id", field "string" true false None);
    ("campaign_id", field "string" true false None);
    ("account_id", field "string" true false None);
    ("date_start", field "string" true false (Some "date"));
    ("date_stop", field "string" true false (Some "date"));
    ("clicks", field "integer" false true None);
    ("impressions", field "integer" false true None);
    ("spend", field "number" false true None);
    ("reach", field "integer" false true None);
    ("page_engagement", field "integer" false true None);
    ("post_engagement", field "integer" false true None);
    ("video_view", field "integer" false true None);
    ("landing_page_view", field "integer" false true None);
    ("purchase", field "integer" false true None);
    ("add_to_cart", field "integer" false true None);
    ("link_click", field "integer" false true None);
    ("post_reaction", field "integer" false true None);
    ("outbound_click", field "integer" false true None);
    ("purchase_value", field "number" false true None);
    ("view_content_value", field "number" false true None);
    ("add_to_cart_value", field "number" false true None);
    ("ctr", field "number" false true None);
    ("cpp", field "number" false true None);
    ("video_p25_watched", field "integer" false true None);
    ("video_thruplay_watched", field "integer" false true None) ].

End Validator.

(** ** Effects: the outside world, sleeping, logging and exceptions *)

Module Eff.

(** [requests.Response], as far as the script reads it: the status, the
    raw text, and the decoded body of a list endpoint, [{data: [...],
    paging: {next: url}}] (for the ads edge both sit under the [ads] key).
    [error_code] is [body['error']['code']] when the body has one. *)
Record Response := {
  status_code : Z;
  text : string;
  json_data : list pyrecord;
  json_next : option string;
  error_code : option Z
}.

Inductive Exn :=
| HTTPError (response : option Response)
| ValueError (msg : string)
| AttributeError (msg : string)
| DatabaseError (table : string)
| OtherException (name : string).

Inductive LogEntry :=
| RateLimitHit (attempt max_retries : nat) (delay : Q)
| RateLimitExhausted (max_retries : nat)
| FilteredOut (count : nat) (campaign_ids : list PyVal)
| SchemaValidationFailed (what : string) (id : PyVal)
    (errors : Validator.Errors)
| TypeConversionFailed (id : PyVal)
| FetchedTotal (what : string) (count : nat)
| Upserted (what : string) (count : nat)
| NothingToUpsert (what : string)
| StepStarted (step : string)
| StepCompleted (step : string)
| StepFailed (step : string) (e : Exn)
| FetchFailed (what : string) (e : Exn)
| UpsertFailed (what : string) (e : Exn).

Inductive Event :=
| Sleep (seconds : Q)
| Log (entry : LogEntry).

(** How a computation ends. [OutOfFuel] belongs to the model only: a
    [while] loop that did not finish within the bound it was given. *)
Inductive Outcome (X : Type) :=
| Returned (x : X)
| Raised (e : Exn)
| OutOfFuel.
Arguments Returned {X} x.
Arguments Raised {X} e.
Arguments OutOfFuel {X}.

Section Monad.
(** The state of everything outside the process (upstream API,
    warehouse), left abstract here. *)
Context {W : Type}.

Record St := { world : W; trace : list Event }.

(** A computation that may read and change the world, append to the
    trace, and either return or raise. *)
Definition M (X : Type) := St -> Outcome X * St.

Definition ret {X} (x : X) : M X := fun s => (Returned x, s).

Definition raise {X} (e : Exn) : M X := fun s => (Raised e, s).

Definition out_of_fuel {X} : M X := fun s => (OutOfFuel, s).

Definition bind {X Y} (m : M X) (k : X -> M Y) : M Y :=
  fun s => match m s with
           | (Returned x, s') => k x s'
           | (Raised e, s') => (Raised e, s')
           | (OutOfFuel, s') => (OutOfFuel, s')
           end.

Definition emit (ev : Event) : M unit :=
  fun s => (Returned tt, {| world := world s; trace := trace s ++ [ev] |}).

Definition log (entry : LogEntry) : M unit := emit (Log entry).

(** [time.sleep(seconds)]; a negative length raises [ValueError]. *)
Definition sleep (seconds : Q) : M unit :=
  if Qle_bool 0 seconds then emit (Sleep seconds)
  else raise (ValueError "sleep length must be non-negative").

(** [try: m except <handled> as e: handler(e)] *)
Definition try_except {X} (m : M X) (handled : Exn -> bool)
    (handler : Exn -> M X) : M X :=
  fun s => match m s with
           | (Returned x, s') => (Returned x, s')
           | (Raised e, s') =>
               if handled e then handler e s' else (Raised e, s')
           | (OutOfFuel, s') => (OutOfFuel, s')
           end.

(** [for x in l: acc = body(acc, x)] *)
Fixpoint for_each {X S} (l : list X) (body : S -> X -> M S) (acc : S)
    : M S :=
  match l with
  | [] => ret acc
  | x :: l' => bind (body acc x) (for_each l' body)
  end.
End Monad.
Arguments St W : clear implicits.
Arguments M W X : clear implicits.

Definition is_http_error (e : Exn) : bool :=
  match e with HTTPError _ => true | _ => false end.

Definition any_exception (e : Exn) : bool := true.

(** The sleeps recorded in a trace, in order. *)
Definition sleeps (tr : list Event) : list Q :=
  omap (fun ev => match ev with Sleep d => Some d | Log _ => None end) tr.

Definition logs (tr : list Event) : list LogEntry :=
  omap (fun ev => match ev with Log e => Some e | Sleep _ => None end) tr.

End Eff.

Declare Scope eff_scope.
Delimit Scope eff_scope with eff.
Notation "x <- m ;; k" := (Eff.bind m (fun x => k))
  (at level 100, m at next level, right associativity) : eff_scope.
Notation "m ;;; k" := (Eff.bind m (fun _ => k))
  (at level 100, right associativity) : eff_scope.

(** ** The backoff wrapper ([api_request_with_backoff]) *)

Module Backoff.
Import Eff.
Local Open Scope eff_scope.

Definition max_retries : nat := 5.

(** The upstream rate-limit error code. *)
Definition RATE_LIMIT_CODE : Z := 80004.

(** [e.response.json().get('error', {}).get('code')], [None] when any of
    it raises. *)
Definition code_of (response : option Response) : option Z :=
  match response with
  | Some r => error_code r
  | None => None
  end.

Section Wrapper.
Context {W A : Type}.
Variable RATE_LIMIT_INTERVAL : Q.

(** [for attempt in range(max_retries)], with [remaining] iterations
    still to run. *)
Fixpoint retry_loop (remaining attempt : nat) (delay : Q)
    (request_func : M W A) : M W (option A) :=
  match remaining with
  | O =>
      log (RateLimitExhausted max_retries) ;;;
      ret None
  | S remaining' =>
      fun s =>
        match request_func s with
        | (Returned r, s') => (Returned (Some r), s')
        | (Raised (HTTPError response), s') =>
            if bool_decide (code_of response = Some RATE_LIMIT_CODE)
            then (log (RateLimitHit (attempt + 1) max_retries delay) ;;;
                  sleep delay ;;;
                  retry_loop remaining' (attempt + 1) (delay * 2)%Q
                    request_func) s'
            else (Raised (HTTPError response), s')
        | (Raised e, s') => (Raised e, s')
        | (OutOfFuel, s') => (OutOfFuel, s')
        end
  end.

Definition api_request_with_backoff (request_func : M W A)
    : M W (option A) :=
  retry_loop max_retries 0 RATE_LIMIT_INTERVAL request_func.
End Wrapper.

(** *** A scripted request function

    The wrapper sees its request function only through the outcome of each
    call. A script lists the outcomes of the calls to come; [scripted]
    answers each call with the next one. *)
Definition Script (A : Type) := list (Outcome A).

Definition scripted {A} : M (Script A) A :=
  fun s => match world s with
           | o :: rest => (o, {| world := rest; trace := trace s |})
           | [] => (OutOfFuel, s)
           end.

(** The outcome is an [HTTPError] carrying the rate-limit code. *)
Definition is_rate_limit {A} (o : Outcome A) : bool :=
  match o with
  | Raised (HTTPError response) =>
      bool_decide (code_of response = Some RATE_LIMIT_CODE)
  | _ => false
  end.

(** [k] delays, each the double of the one before, from [d] on. *)
Fixpoint delays (k : nat) (d : Q) : list Q :=
  match k with
  | O => []
  | S k' => d :: delays k' (d * 2)%Q
  end.

(** The delay reached after [k] doublings. *)
Fixpoint doubled (k : nat) (d : Q) : Q :=
  match k with
  | O => d
  | S k' => doubled k' (d * 2)%Q
  end.

(** The rate-limit error, as the upstream API sends it. *)
Definition rate_limit_error : Outcome Z :=
  Raised (HTTPError (Some {| status_code := 400; text := "";
                             json_data := []; json_next := None;
                             error_code := Some 80004 |})).

End Backoff.

(** ** The warehouse: tables, bulk upsert statements, [execute_values] *)

Module Warehouse.

(** A Python row tuple, positional, as the extractors build it. *)
Definition Tuple := list PyVal.

(** A stored row: column name to value; [PNone] is SQL NULL. The
    surrogate [id SERIAL] columns, which no statement of the script reads
    or writes, are left out. *)
Abbreviation Row := (gmap string PyVal).

Definition Table := list Row.

(** Right-hand side of one assignment of [DO UPDATE SET]. *)
Inductive Assign :=
| Excluded (col : string)
| Now.

#[global] Instance Assign_eq_dec : EqDecision Assign.
Proof. solve_decision. Defined.

(** [INSERT INTO table (columns) VALUES %s ON CONFLICT (conflict_target)
    DO UPDATE SET set_clause], with the NOT NULL and PRIMARY KEY columns
    that the table's DDL declares. *)
Record Upsert := {
  table : string;
  columns : list string;
  conflict_target : list string;
  set_clause : list (string * Assign);
  not_null : list string
}.

#[global] Instance Upsert_eq_dec : EqDecision Upsert.
Proof. solve_decision. Defined.

Definition updated (u : Upsert) : list string := map fst (set_clause u).

(** *** Semantics of one statement *)

Definition mk_row (cols : list string) (t : Tuple) : Row :=
  list_to_map (zip cols t).

(** The value of a column; a column without value reads as NULL. *)
Definition col (r : Row) (c : string) : PyVal := default PNone (r !! c).

Definition key_of (u : Upsert) (r : Row) : list PyVal :=
  map (col r) (conflict_target u).

(** A key takes part in uniqueness only when none of its values is NULL:
    two NULLs never conflict. *)
Definition key_defined (k : list PyVal) : bool :=
  forallb (fun v => negb (Py.is_none v)) k.

Definition conflicts (u : Upsert) (new old : Row) : bool :=
  key_defined (key_of u new)
  && bool_decide (key_of u new = key_of u old).

Definition assign (now : PyVal) (excluded : Row) (old : Row)
    (a : string * Assign) : Row :=
  match a with
  | (c, Excluded c') => <[c := col excluded c']> old
  | (c, Now) => <[c := now]> old
  end.

Definition update_row (u : Upsert) (now : PyVal) (excluded old : Row) : Row :=
  fold_left (assign now excluded) (set_clause u) old.

(** Insert one proposed row, or update the stored row it conflicts with. *)
Fixpoint upsert_row (u : Upsert) (now : PyVal) (new : Row) (tbl : Table)
    : Table :=
  match tbl with
  | [] => [new]
  | old :: rest =>
      if conflicts u new old
      then update_row u now new old :: rest
      else old :: upsert_row u now new rest
  end.

Definition satisfies_not_null (u : Upsert) (r : Row) : bool :=
  forallb (fun c => negb (Py.is_none (col r c))) (not_null u).

(** No two proposed rows of one statement may share a (defined) key: the
    statement would have to touch the same stored row twice, which the
    database refuses. *)
Fixpoint distinct_keys (ks : list (list PyVal)) : bool :=
  match ks with
  | [] => true
  | k :: rest =>
      negb (key_defined k && bool_decide (k ∈ rest)) && distinct_keys rest
  end.

(** One statement over one page of tuples: [None] when the statement
    fails, in which case it changes nothing. *)
Definition exec_upsert (u : Upsert) (now : PyVal) (page : list Tuple)
    (tbl : Table) : option Table :=
  let rows := map (mk_row (columns u)) page in
  if forallb (fun t => (length t =? length (columns u))%nat) page
     && forallb (satisfies_not_null u) rows
     && distinct_keys (map (key_of u) rows)
  then Some (fold_left (fun tbl r => upsert_row u now r tbl) rows tbl)
  else None.

(** *** [psycopg2.extras.execute_values] *)

(** Its default [page_size]: the argument list is cut into pages of at
    most this many tuples, and every page is sent as a statement of its
    own. *)
Definition page_size : nat := 100.

Fixpoint paginate_fuel (fuel : nat) (n : nat) (l : list Tuple)
    : list (list Tuple) :=
  match fuel, l with
  | O, _ | _, [] => []
  | S fuel', _ => take n l :: paginate_fuel fuel' n (drop n l)
  end.

Definition paginate (n : nat) (l : list Tuple) : list (list Tuple) :=
  paginate_fuel (length l) n l.

(** The connection is in autocommit mode ([conn.autocommit = True] in
    [main]): each statement takes effect as soon as it succeeds, and
    [conn.commit()] has nothing left to do. The result is the table after
    the last statement that succeeded, and whether all of them did. *)
Fixpoint run_pages (u : Upsert) (now : PyVal) (pages : list (list Tuple))
    (tbl : Table) : bool * Table :=
  match pages with
  | [] => (true, tbl)
  | page :: rest =>
      match exec_upsert u now page tbl with
      | Some tbl' => run_pages u now rest tbl'
      | None => (false, tbl)
      end
  end.

Definition execute_values (u : Upsert) (now : PyVal)
    (argslist : list Tuple) (tbl : Table) : bool * Table :=
  run_pages u now (paginate page_size argslist) tbl.

(** *** Reading a table by key *)

(** The assignment that decides the value of column [c] after a conflict:
    the last one the SET clause lists for it, if any. *)
Fixpoint final_assign (sc : list (string * Assign)) (c : string)
    : option Assign :=
  match sc with
  | [] => None
  | (c', a) :: rest =>
      match final_assign rest c with
      | Some a' => Some a'
      | None => if String.eqb c c' then Some a else None
      end
  end.



(** No column of the conflict target is assigned by the SET clause. *)
Definition keys_stable (u : Upsert) : bool :=
  forallb (fun c => bool_decide (final_assign (set_clause u) c = None))
    (conflict_target u).


Abbreviation Database := (gmap string Table).

Definition rows_of (db : Database) (t : string) : Table :=
  default [] (db !! t).





(** A bulk write leaves the table untouched whenever it fails. *)
Definition all_or_nothing (u : Upsert) : Prop :=
  forall now batch tbl tbl',
    execute_values u now batch tbl = (false, tbl') -> tbl' = tbl.

End Warehouse.

(** ** The seven bulk statements of the script *)

Module Queries.
Import Warehouse.

(** [c=EXCLUDED.c] for each listed column. *)
Definition excluded (cols : list string) : list (string * Assign) :=
  map (fun c => (c, Excluded c)) cols.

(** The campaign statement written inline in [main]. *)
Definition campaign_upsert : Upsert := {|
  table := "dim_campaign";
  columns :=
    [ "campaign_id"; "account_id"; "campaign_name"; "objective"; "status";
      "buying_type"; "special_ad_categories"; "start_time"; "end_time";
      "budget_remaining"; "daily_budget"; "lifetime_budget"; "created_at";
      "updated_at"; "hour"; "fetched_at" ];
  conflict_target := [ "campaign_id" ];
  set_clause := excluded
    [ "account_id"; "campaign_name"; "objective"; "status"; "buying_type";
      "special_ad_categories"; "start_time"; "end_time";
      "budget_remaining"; "daily_budget"; "lifetime_budget"; "updated_at";
      "hour"; "fetched_at" ];
  not_null :=
    [ "campaign_id"; "account_id"; "campaign_name"; "created_at";
      "updated_at" ]
|}.

(** [upsert_activity_history] *)
Definition activity_upsert : Upsert := {|
  table := "ad_account_activity_history";
  columns :=
    [ "object_id"; "object_name"; "object_type"; "event_type";
      "changed_fields"; "extra_data"; "actor_id"; "actor_name";
      "event_time"; "hour"; "fetched_at" ];
  conflict_target := [ "object_id"; "event_type"; "event_time"; "hour" ];
  set_clause := excluded
    [ "object_name"; "object_type"; "changed_fields"; "extra_data";
      "actor_id"; "actor_name"; "fetched_at" ];
  not_null := []
|}.

(** [upsert_regionwise_insights] *)
Definition regionwise_upsert : Upsert := {|
  table := "ad_insights_regionwise";
  columns :=
    [ "ad_id"; "impressions"; "clicks"; "ctr"; "date_start"; "date_stop";
      "region"; "hour"; "fetched_at" ];
  conflict_target :=
    [ "ad_id"; "date_start"; "date_stop"; "region"; "hour" ];
  set_clause := excluded [ "impressions"; "clicks"; "ctr"; "fetched_at" ];
  not_null := []
|}.

(** [upsert_adcreatives] *)
Definition adcreatives_upsert : Upsert := {|
  table := "ad_creatives";
  columns :=
    [ "id"; "name"; "body"; "title"; "object_story_spec";
      "call_to_action_type"; "hour"; "fetched_at"; "raw_data" ];
  conflict_target := [ "id"; "hour" ];
  set_clause := excluded
    [ "name"; "body"; "title"; "object_story_spec"; "call_to_action_type";
      "fetched_at"; "raw_data" ];
  not_null := [ "id"; "hour" ]
|}.

(** [upsert_adsets] *)
Definition adsets_upsert : Upsert := {|
  table := "adsets";
  columns :=
    [ "id"; "name"; "campaign_id"; "account_id"; "status";
      "optimization_goal"; "billing_event"; "bid_strategy"; "bid_amount";
      "daily_budget"; "lifetime_budget"; "budget_remaining"; "start_time";
      "end_time"; "created_time"; "updated_time"; "effective_status";
      "destination_type"; "learning_stage_info"; "attribution_spec";
      "promoted_object"; "targeting"; "pacing_type"; "adlabels";
      "bid_adjustments"; "bid_constraints"; "adset_schedule";
      "issues_info"; "creative_sequence"; "daily_spend_cap";
      "lifetime_spend_cap"; "daily_min_spend_target";
      "lifetime_min_spend_target"; "is_dynamic_creative";
      "rf_prediction_id"; "time_based_ad_rotation_id_blocks";
      "time_based_ad_rotation_intervals"; "frequency_control_specs";
      "hour"; "fetched_at"; "raw_data" ];
  conflict_target := [ "id"; "hour" ];
  set_clause := excluded
    [ "name"; "campaign_id"; "account_id"; "status"; "optimization_goal";
      "billing_event"; "bid_strategy"; "bid_amount"; "daily_budget";
      "lifetime_budget"; "budget_remaining"; "start_time"; "end_time";
      "created_time"; "updated_time"; "effective_status";
      "destination_type"; "learning_stage_info"; "attribution_spec";
      "promoted_object"; "targeting"; "pacing_type"; "adlabels";
      "bid_adjustments"; "bid_constraints"; "adset_schedule";
      "issues_info"; "creative_sequence"; "daily_spend_cap";
      "lifetime_spend_cap"; "daily_min_spend_target";
      "lifetime_min_spend_target"; "is_dynamic_creative";
      "rf_prediction_id"; "time_based_ad_rotation_id_blocks";
      "time_based_ad_rotation_intervals"; "frequency_control_specs";
      "fetched_at"; "raw_data" ];
  not_null := [ "id"; "hour" ]
|}.

(** [upsert_ads] *)
Definition ads_upsert : Upsert := {|
  table := "ads";
  columns :=
    [ "id"; "name"; "adset_id"; "targeting"; "insights"; "hour";
      "fetched_at"; "raw_data" ];
  conflict_target := [ "id"; "hour" ];
  set_clause := excluded
    [ "name"; "adset_id"; "targeting"; "insights"; "fetched_at";
      "raw_data" ];
  not_null := [ "id"; "hour" ]
|}.

(** [upsert_hourly_ad_insights] *)
Definition hourly_upsert : Upsert := {|
  table := "ad_insights_hourly_snapshots";
  columns :=
    [ "snapshot_hour"; "ad_id"; "adset_id"; "campaign_id"; "account_id";
      "date_start"; "date_stop"; "clicks"; "impressions"; "spend"; "reach";
      "page_engagement"; "post_engagement"; "video_view";
      "landing_page_view"; "purchase"; "add_to_cart"; "link_click";
      "post_reaction"; "outbound_click"; "purchase_value";
      "view_content_value"; "add_to_cart_value"; "ctr"; "cpp";
      "video_p25_watched"; "video_thruplay_watched"; "created_at" ];
  conflict_target := [ "snapshot_hour"; "ad_id"; "date_start"; "date_stop" ];
  set_clause := excluded
    [ "clicks"; "impressions"; "spend"; "reach"; "page_engagement";
      "post_engagement"; "video_view"; "landing_page_view"; "purchase";
      "add_to_cart"; "link_click"; "post_reaction"; "outbound_click";
      "purchase_value"; "view_content_value"; "add_to_cart_value"; "ctr";
      "cpp"; "video_p25_watched"; "video_thruplay_watched" ]
    ++ [ ("created_at", Now) ];
  not_null := [ "snapshot_hour"; "ad_id" ]
|}.

(** One statement per entity type, in the order [main] runs them. *)
Definition all_upserts : list Upsert :=
  [ campaign_upsert; activity_upsert; regionwise_upsert;
    adcreatives_upsert; adsets_upsert; ads_upsert; hourly_upsert ].

(** No column updated on conflict belongs to the natural key. *)
Definition natural_key_excluded (u : Upsert) : Prop :=
  Forall (fun c => c ∉ conflict_target u) (updated u).

(** The row's creation timestamp is not updated on conflict. *)
Definition creation_time_write_once (u : Upsert) : Prop :=
  "created_at" ∉ updated u.

(** Every assignment takes the proposed value of its own column, but for
    the hourly statement's [created_at=NOW()]. *)
Definition takes_fetched_values (u : Upsert) : Prop :=
  Forall (fun ca : string * Assign =>
            ca.2 = Excluded ca.1
            \/ (u = hourly_upsert /\ ca = ("created_at", Now)))
         (set_clause u).


End Queries.

(** ** The world of one run: the upstream API and the warehouse *)

Module Sys.
Import Eff.

Record World (U : Type) := {
  upstream : U;
  db : Warehouse.Database
}.
Arguments upstream {U} w.
Arguments db {U} w.

(** Query parameters of a request. *)
Definition Params := list (string * string).

(** The HTTP client: [requests.get(url, params=params)] either returns a
    response, whatever its status, or raises (connection errors and the
    like); it may change the state of the upstream API. *)
Definition Client (U : Type) :=
  string -> Params -> U -> Outcome Response * U.

Section Http.
Context {U : Type}.
Variable requests_get : Client U.

Definition http_get (url : string) (params : Params)
    : M (World U) Response :=
  fun s =>
    let '(o, u) := requests_get url params (upstream (world s)) in
    (o, {| world := {| upstream := u; db := db (world s) |};
           trace := trace s |}).

(** [response.raise_for_status()] *)
Definition raise_for_status (response : Response) : M (World U) unit :=
  if (400 <=? status_code response) && (status_code response <? 600)
  then raise (HTTPError (Some response))
  else ret tt.
End Http.

Definition read_db {U} : M (World U) Warehouse.Database :=
  fun s => (Returned (db (world s)), s).

End Sys.

(** ** Entity extractors *)

Module Extract.
Import Py Eff Sys Warehouse.
Local Open Scope eff_scope.

Definition BASE_URL : string := "https://graph.facebook.com/v22.0".

(** [int(value)]; [None] stands for the [ValueError] or
    [TypeError] it raises. Python's numeral grammar is a parameter. *)
Definition py_int (int_of_str : string -> option Z) (v : PyVal) : option Z :=
  match v with
  | PInt z => Some z
  | PBool b => Some (if b then 1 else 0)
  | PFloat q => Some (Z.quot (Qnum q) (Z.pos (Qden q)))
  | PStr s => int_of_str s
  | _ => None
  end.

(** [float(value)] *)
Definition py_float (float_of_str : string -> option Q) (v : PyVal)
    : option Q :=
  match v with
  | PInt z => Some (inject_Z z)
  | PBool b => Some (if b then 1%Q else 0%Q)
  | PFloat q => Some q
  | PStr s => float_of_str s
  | _ => None
  end.

Section Extractors.
Context {U : Type}.
Variable requests_get : Client U.
Variables (ACCOUNT_ID ACCESS_TOKEN : string).
Variable RATE_LIMIT_INTERVAL : Q.
Variable fromisoformat : string -> bool.
(** [json.dumps] of a value and of a whole item; [str] of a value that is
    not a string. *)
Variable json_dumps : PyVal -> string.
Variable json_dumps_item : pyrecord -> string.
Variable repr : PyVal -> string.
Variable int_of_str : string -> option Z.
Variable float_of_str : string -> option Q.
(** [datetime.now(IST)] of the call and its truncation to the hour, both
    in ISO format. *)
Variables (now_ist hour_str : string).

Abbreviation M := (Eff.M (World U)).

Definition backoff_get (url : string) (params : Params)
    : M (option Response) :=
  Backoff.api_request_with_backoff RATE_LIMIT_INTERVAL
    (http_get requests_get url params).

(** [response.text] on the wrapper's result: the sentinel has no such
    attribute. *)
Definition need_response (response : option Response) : M Response :=
  match response with
  | Some r => ret r
  | None =>
      raise (AttributeError "'NoneType' object has no attribute 'text'")
  end.

(** [str(value)] *)
Definition str_of (v : PyVal) : string :=
  match v with PStr s => s | _ => repr v end.

(** [json.dumps(item.get(k)) if item.get(k) is not None else None] *)
Definition dumps_or_none (k : string) (item : pyrecord) : PyVal :=
  match get_or_none k item with
  | PNone => PNone
  | v => PStr (json_dumps v)
  end.

(** *** Campaigns *)

(** [if k in item and item[k]: item[k] = normalize_datetime(item[k])] *)
Definition normalize_field (k : string) (item : pyrecord) : pyrecord :=
  match get k item with
  | Some v =>
      if truthy v then set k (Normalize.normalize_datetime v) item
      else item
  | None => item
  end.

Definition campaign_tuple (item : pyrecord) : Tuple :=
  [ PStr (str_of (get_or_none "id" item));
    PStr ACCOUNT_ID;
    get_or_none "name" item;
    get_or_none "objective" item;
    get_or_none "status" item;
    get_or_none "buying_type" item;
    get_or_none "special_ad_categories" item;
    get_or_none "start_time" item;
    get_or_none "end_time" item;
    get_or_none "budget_remaining" item;
    get_or_none "daily_budget" item;
    get_or_none "lifetime_budget" item;
    PDateTime now_ist;
    PDateTime now_ist;
    PStr hour_str;
    PDateTime now_ist ].

Definition campaign_item (valid_campaigns : list Tuple) (item : pyrecord)
    : M (list Tuple) :=
  let item := normalize_field "start_time" item in
  let item := normalize_field "end_time" item in
  let errors :=
    Validator.validate_schema fromisoformat item
      Validator.CAMPAIGN_SCHEMA in
  if Validator.has_errors errors
  then log (SchemaValidationFailed "campaign"
              (get_default "id" (PStr "unknown") item) errors) ;;;
       ret valid_campaigns
  else ret (valid_campaigns ++ [campaign_tuple item]).

(** One request, the first page only. *)
Definition fetch_campaigns : M (list Tuple) :=
  let url := BASE_URL +:+ "/act_" +:+ ACCOUNT_ID +:+ "/campaigns" in
  let params :=
    [ ("fields", "id,name,status,objective,buying_type,special_ad_categories,start_time,end_time");
      ("access_token", ACCESS_TOKEN) ] in
  try_except
    (response <- backoff_get url params ;;
     response <- need_response response ;;
     sleep RATE_LIMIT_INTERVAL ;;;
     raise_for_status response ;;;
     valid_campaigns <-
       for_each (json_data response) campaign_item [] ;;
     log (FetchedTotal "campaigns" (length valid_campaigns)) ;;;
     ret valid_campaigns)
    is_http_error
    (fun e => log (FetchFailed "campaigns" e) ;;; ret []).

(** *** Activity history *)

Definition dq : string := String "034"%char EmptyString.
Definition quoted (s : string) : string := dq +:+ s +:+ dq.

(** The [json.dumps] of the event-type filter. *)
Definition ACTIVITY_FILTER : string :=
  "[{" +:+ quoted "field" +:+ ": " +:+ quoted "event_type" +:+ ", "
  +:+ quoted "operator" +:+ ": " +:+ quoted "IN" +:+ ", "
  +:+ quoted "value" +:+ ": [" +:+ quoted "UPDATE" +:+ ", "
  +:+ quoted "CREATE" +:+ "]}]".

Definition activity_tuple (item : pyrecord) : Tuple :=
  [ get_or_none "object_id" item;
    get_or_none "object_name" item;
    get_or_none "object_type" item;
    get_or_none "event_type" item;
    get_or_none "changed_fields" item;
    get_or_none "extra_data" item;
    get_or_none "actor_id" item;
    get_or_none "actor_name" item;
    Normalize.normalize_activity_datetime (get_or_none "event_time" item);
    PStr hour_str;
    PDateTime now_ist ].

(** One request, the first page only. *)
Definition fetch_activity_history (since until : string) : M (list Tuple) :=
  let url := BASE_URL +:+ "/act_" +:+ ACCOUNT_ID +:+ "/activities" in
  let params :=
    [ ("fields", "object_id,object_name,object_type,event_type,changed_fields,extra_data,actor_id,actor_name,event_time");
      ("filtering", ACTIVITY_FILTER);
      ("since", since);
      ("until", until);
      ("access_token", ACCESS_TOKEN) ] in
  try_except
    (response <- backoff_get url params ;;
     response <- need_response response ;;
     sleep RATE_LIMIT_INTERVAL ;;;
     raise_for_status response ;;;
     let valid_activities := map activity_tuple (json_data response) in
     log (FetchedTotal "activities" (length valid_activities)) ;;;
     ret valid_activities)
    any_exception
    (fun e => log (FetchFailed "activity history" e) ;;; ret []).

(** *** Regional insights *)

Definition regionwise_tuple (item : pyrecord) : Tuple :=
  [ get_or_none "ad_id" item;
    get_or_none "impressions" item;
    get_or_none "clicks" item;
    get_or_none "ctr" item;
    get_or_none "date_start" item;
    get_or_none "date_stop" item;
    get_or_none "region" item;
    PStr hour_str;
    PDateTime now_ist ].

(** One request, the first page only. *)
Definition fetch_regionwise_insights : M (list Tuple) :=
  let url := BASE_URL +:+ "/act_" +:+ ACCOUNT_ID +:+ "/insights" in
  let params :=
    [ ("level", "ad");
      ("date_preset", "today");
      ("breakdowns", "region");
      ("fields", "ad_id,impressions,clicks,ctr");
      ("access_token", ACCESS_TOKEN) ] in
  try_except
    (response <- backoff_get url params ;;
     response <- need_response response ;;
     sleep RATE_LIMIT_INTERVAL ;;;
     raise_for_status response ;;;
     let valid_rows := map regionwise_tuple (json_data response) in
     log (FetchedTotal "regionwise insights" (length valid_rows)) ;;;
     ret valid_rows)
    any_exception
    (fun e => log (FetchFailed "regionwise insights" e) ;;; ret []).

(** *** The paginated extractors *)

(** The [while url:] loop that [fetch_adcreatives_batch],
    [fetch_adsets_batch] and [fetch_ads_batch] each spell out: request
    the page through the backoff wrapper, stop on the sentinel, project
    the items, follow [paging.next] with the parameters cleared. *)
Fixpoint fetch_pages (fuel : nat) (project : pyrecord -> Tuple)
    (url : string) (params : Params) (all : list Tuple)
    : M (list Tuple) :=
  match fuel with
  | O => out_of_fuel
  | S fuel' =>
      response <- backoff_get url params ;;
      match response with
      | None => ret all
      | Some response =>
          sleep RATE_LIMIT_INTERVAL ;;;
          raise_for_status response ;;;
          let all := all ++ map project (json_data response) in
          match json_next response with
          | Some next =>
              if String.eqb next "" then ret all
              else fetch_pages fuel' project next [] all
          | None => ret all
          end
      end
  end.

Definition adcreative_tuple (item : pyrecord) : Tuple :=
  [ get_or_none "id" item;
    get_or_none "name" item;
    get_or_none "body" item;
    get_or_none "title" item;
    dumps_or_none "object_story_spec" item;
    get_or_none "call_to_action_type" item;
    PStr hour_str;
    PDateTime now_ist;
    PStr (json_dumps_item item) ].

Definition fetch_adcreatives_batch (fuel : nat) : M (list Tuple) :=
  let url := "https://graph.facebook.com/v18.0/act_" +:+ ACCOUNT_ID
             +:+ "/adcreatives" in
  let params :=
    [ ("fields", "id,name,body,title,object_story_spec,call_to_action_type");
      ("access_token", ACCESS_TOKEN);
      ("limit", "100") ] in
  all_creatives <- fetch_pages fuel adcreative_tuple url params [] ;;
  log (FetchedTotal "adcreatives" (length all_creatives)) ;;;
  ret all_creatives.

Definition ADSET_FIELDS : string :=
    "optimization_goal,updated_time,billing_event,bid_strategy,lifetime" +:+
    "_spend_cap,daily_spend_cap,learning_stage_info,effective_status,li" +:+
    "fetime_min_spend_target,destination_type,bid_adjustments,bid_amoun" +:+
    "t,id,daily_min_spend_target,campaign_id,pacing_type,created_time,a" +:+
    "ttribution_spec,issues_info,lifetime_budget,creative_sequence,adse" +:+
    "t_schedule,end_time,daily_budget,is_dynamic_creative,start_time,ac" +:+
    "count_id,adlabels,budget_remaining,promoted_object,name,bid_constr" +:+
    "aints,targeting{geo_locations,keywords,genders,age_min,age_max,rel" +:+
    "ationship_statuses,countries,locales,device_platforms,effective_de" +:+
    "vice_platforms,publisher_platforms,effective_publisher_platforms,f" +:+
    "acebook_positions,effective_facebook_positions,instagram_positions" +:+
    ",effective_instagram_positions,audience_network_positions,effectiv" +:+
    "e_audience_network_positions,messenger_positions,effective_messeng" +:+
    "er_positions,education_statuses,user_adclusters,excluded_geo_locat" +:+
    "ions,interested_in,interests,behaviors,connections,excluded_connec" +:+
    "tions,friends_of_connections,user_os,user_device,excluded_user_dev" +:+
    "ice,app_install_state,wireless_carrier,site_category,college_years" +:+
    ",work_employers,work_positions,education_majors,life_events,politi" +:+
    "cs,income,home_type,home_value,ethnic_affinity,generation,househol" +:+
    "d_composition,moms,office_type,family_statuses,net_worth,home_owne" +:+
    "rship,industries,education_schools,custom_audiences,excluded_custo" +:+
    "m_audiences,dynamic_audience_ids,product_audience_specs,excluded_p" +:+
    "roduct_audience_specs,flexible_spec,exclusions,excluded_publisher_" +:+
    "categories,excluded_publisher_list_ids,place_page_set_ids,targetin" +:+
    "g_optimization,brand_safety_content_filter_levels,is_whatsapp_dest" +:+
    "ination_ad,instream_video_skippable_excluded,targeting_relaxation_" +:+
    "types},status,rf_prediction_id,time_based_ad_rotation_id_blocks,ti" +:+
    "me_based_ad_rotation_intervals,frequency_control_specs".

Definition adset_tuple (item : pyrecord) : Tuple :=
  [ get_or_none "id" item;
    get_or_none "name" item;
    get_or_none "campaign_id" item;
    get_or_none "account_id" item;
    get_or_none "status" item;
    get_or_none "optimization_goal" item;
    get_or_none "billing_event" item;
    get_or_none "bid_strategy" item;
    get_or_none "bid_amount" item;
    get_or_none "daily_budget" item;
    get_or_none "lifetime_budget" item;
    get_or_none "budget_remaining" item;
    get_or_none "start_time" item;
    get_or_none "end_time" item;
    get_or_none "created_time" item;
    get_or_none "updated_time" item;
    get_or_none "effective_status" item;
    get_or_none "destination_type" item;
    dumps_or_none "learning_stage_info" item;
    dumps_or_none "attribution_spec" item;
    dumps_or_none "promoted_object" item;
    dumps_or_none "targeting" item;
    dumps_or_none "pacing_type" item;
    dumps_or_none "adlabels" item;
    dumps_or_none "bid_adjustments" item;
    dumps_or_none "bid_constraints" item;
    dumps_or_none "adset_schedule" item;
    dumps_or_none "issues_info" item;
    dumps_or_none "creative_sequence" item;
    get_or_none "daily_spend_cap" item;
    get_or_none "lifetime_spend_cap" item;
    get_or_none "daily_min_spend_target" item;
    get_or_none "lifetime_min_spend_target" item;
    get_or_none "is_dynamic_creative" item;
    get_or_none "rf_prediction_id" item;
    dumps_or_none "time_based_ad_rotation_id_blocks" item;
    dumps_or_none "time_based_ad_rotation_intervals" item;
    dumps_or_none "frequency_control_specs" item;
    PStr hour_str;
    PDateTime now_ist;
    PStr (json_dumps_item item) ].

Definition fetch_adsets_batch (fuel : nat) : M (list Tuple) :=
  let url := "https://graph.facebook.com/v20.0/act_" +:+ ACCOUNT_ID
             +:+ "/adsets" in
  let params :=
    [ ("fields", ADSET_FIELDS); ("access_token", ACCESS_TOKEN) ] in
  all_adsets <- fetch_pages fuel adset_tuple url params [] ;;
  log (FetchedTotal "adsets" (length all_adsets)) ;;;
  ret all_adsets.

Definition ADS_FIELDS : string :=
    "ads{id,name,adset_id,targeting{age_min,age_max,genders,geo_locatio" +:+
    "ns,device_platforms,publisher_platforms},insights.date_preset(maxi" +:+
    "mum){impressions,clicks,ctr,spend,actions,action_values,conversion" +:+
    "_rate_ranking,purchase_roas,mobile_app_purchase_roas}}".

Definition ad_tuple (item : pyrecord) : Tuple :=
  [ get_or_none "id" item;
    get_or_none "name" item;
    get_or_none "adset_id" item;
    dumps_or_none "targeting" item;
    dumps_or_none "insights" item;
    PStr hour_str;
    PDateTime now_ist;
    PStr (json_dumps_item item) ].

Definition fetch_ads_batch (fuel : nat) : M (list Tuple) :=
  let url := "https://graph.facebook.com/v18.0/act_" +:+ ACCOUNT_ID in
  let params :=
    [ ("fields", ADS_FIELDS); ("access_token", ACCESS_TOKEN) ] in
  all_ads <- fetch_pages fuel ad_tuple url params [] ;;
  log (FetchedTotal "ads" (length all_ads)) ;;;
  ret all_ads.

(** *** Hourly insights *)

(** The [json.dumps] of the ad-id filter of the insights request. *)
Variable insights_filter : list PyVal -> string.

(** [if k in insight: insight[k] = conv(insight[k]) if insight[k] else
    zero]; [None] when the conversion raises. *)
Definition coerce (k : string) (conv : PyVal -> option PyVal)
    (zero : PyVal) (insight : pyrecord) : option pyrecord :=
  match get k insight with
  | None => Some insight
  | Some v =>
      if truthy v
      then match conv v with
           | Some v' => Some (set k v' insight)
           | None => None
           end
      else Some (set k zero insight)
  end.

Definition to_int (v : PyVal) : option PyVal :=
  PInt <$> py_int int_of_str v.

Definition to_float (v : PyVal) : option PyVal :=
  PFloat <$> py_float float_of_str v.

Definition coerce_insight (insight : pyrecord) : option pyrecord :=
  insight ← coerce "clicks" to_int (PInt 0) insight;
  insight ← coerce "impressions" to_int (PInt 0) insight;
  insight ← coerce "reach" to_int (PInt 0) insight;
  insight ← coerce "spend" to_float (PFloat 0) insight;
  insight ← coerce "ctr" to_float (PFloat 0) insight;
  coerce "cpp" to_float (PFloat 0) insight.

Definition insight_item (processed_insights : list pyrecord)
    (insight : pyrecord) : M (list pyrecord) :=
  match coerce_insight insight with
  | Some insight => ret (processed_insights ++ [insight])
  | None =>
      log (TypeConversionFailed
             (get_default "ad_id" (PStr "unknown") insight)) ;;;
      ret processed_insights
  end.

(** One plain [requests.get], outside the backoff wrapper and without
    the pause after it; the first page only. *)
Definition fetch_ad_insights (ad_ids : list PyVal) : M (list pyrecord) :=
  match ad_ids with
  | [] => ret []
  | _ =>
      let url := BASE_URL +:+ "/act_" +:+ ACCOUNT_ID +:+ "/insights" in
      let params :=
        [ ("access_token", ACCESS_TOKEN);
          ("level", "ad");
          ("filtering", insights_filter ad_ids);
          ("date_preset", "today");
          ("action_breakdowns", "action_type");
          ("fields", "ad_id,adset_id,campaign_id,account_id,date_start,date_stop,clicks,impressions,spend,reach,actions,action_values,outbound_clicks,ctr,cpp,video_p25_watched_actions,video_thruplay_watched_actions") ] in
      try_except
        (response <- http_get requests_get url params ;;
         raise_for_status response ;;;
         processed_insights <-
           for_each (json_data response) insight_item [] ;;
         log (FetchedTotal "insights" (length processed_insights)) ;;;
         ret processed_insights)
        any_exception
        (fun e => log (FetchFailed "ad insights" e) ;;; ret [])
  end.

End Extractors.
End Extract.

(** ** Reconciliation layer ([upsert_*]) and the consistency filter *)

Module Load.
Import Py Eff Sys Warehouse Queries.
Local Open Scope eff_scope.

Section Load.
Context {U : Type}.
(** The warehouse clock, [NOW()]. *)
Variable NOW : PyVal.

Abbreviation M := (Eff.M (World U)).

(** [execute_values(cursor, query, argslist)] on the shared connection;
    a failing statement raises, after the earlier pages took effect. *)
Definition bulk (u : Upsert) (argslist : list Tuple) : M unit :=
  fun s =>
    let d := db (world s) in
    let '(ok, tbl) := execute_values u NOW argslist (rows_of d (table u)) in
    let s' := {| world := {| upstream := upstream (world s);
                             db := <[table u := tbl]> d |};
                 trace := trace s |} in
    if ok then (Returned tt, s')
    else (Raised (DatabaseError (table u)), s').

(** The body shared by [upsert_activity_history],
    [upsert_regionwise_insights], [upsert_adcreatives], [upsert_adsets]
    and [upsert_ads]: nothing for an empty batch; otherwise the bulk
    statement, [conn.commit()], a log line; on failure log and re-raise.
    Nothing is rolled back. *)
Definition upsert_batch (what : string) (u : Upsert) (rows : list Tuple)
    : M unit :=
  match rows with
  | [] => ret tt
  | _ =>
      try_except
        (bulk u rows ;;;
         log (Upserted what (length rows)))
        any_exception
        (fun e => log (UpsertFailed what e) ;;; raise e)
  end.

Definition upsert_activity_history :=
  upsert_batch "activity history" activity_upsert.
Definition upsert_regionwise_insights :=
  upsert_batch "regionwise insights" regionwise_upsert.
Definition upsert_adcreatives := upsert_batch "adcreatives" adcreatives_upsert.
Definition upsert_adsets := upsert_batch "adsets" adsets_upsert.
Definition upsert_ads := upsert_batch "ads" ads_upsert.

(** *** [filter_adsets_with_existing_campaigns] *)

(** [SELECT campaign_id FROM dim_campaign] *)
Definition select_campaign_ids (d : Database) : list PyVal :=
  map (fun r => col r "campaign_id") (rows_of d "dim_campaign").

(** [adset[2]], the campaign id of an ad-set tuple. *)
Definition campaign_id_of (adset : Tuple) : option PyVal := adset !! 2%nat.

(** [x in existing_campaign_ids] for a tuple; a tuple without a third
    component makes the comprehension raise. *)
Definition has_campaign (existing : list PyVal) (adset : Tuple) : bool :=
  match campaign_id_of adset with
  | Some c => bool_decide (c ∈ existing)
  | None => false
  end.

(** A list comprehension [[x for x in l if keep(x)]], as the loop it is. *)
Fixpoint comprehension {X} (keep : X -> bool) (l acc : list X) : list X :=
  match l with
  | [] => acc
  | x :: l' => comprehension keep l' (if keep x then acc ++ [x] else acc)
  end.

Definition filter_adsets_with_existing_campaigns (adsets : list Tuple)
    : M (list Tuple) :=
  match adsets with
  | [] => ret []
  | _ =>
      d <- read_db ;;
      let existing_campaign_ids := select_campaign_ids d in
      if forallb (fun a => bool_decide (is_Some (campaign_id_of a))) adsets
      then
        let filtered :=
          comprehension (has_campaign existing_campaign_ids) adsets [] in
        let missing :=
          comprehension
            (fun a => negb (has_campaign existing_campaign_ids a))
            adsets [] in
        match missing with
        | [] => ret filtered
        | _ =>
            log (FilteredOut (length missing)
                   (omap campaign_id_of missing)) ;;;
            ret filtered
        end
      else raise (OtherException "IndexError")
  end.

(** *** [upsert_hourly_ad_insights] *)

Variable fromisoformat : string -> bool.
Variable int_of_str : string -> option Z.
Variable float_of_str : string -> option Q.
(** [datetime.now(IST)] truncated to the hour, and untruncated, in ISO
    format. *)
Variables (current_hour_ist now_ist : string).

(** The row tuple of one validated insight; [None] when one of the
    [int]/[float] calls raises. *)
Definition hourly_tuple (insight : pyrecord) : option Tuple :=
  clicks ← Extract.py_int int_of_str (get_default "clicks" (PInt 0) insight);
  impressions ←
    Extract.py_int int_of_str (get_default "impressions" (PInt 0) insight);
  spend ←
    Extract.py_float float_of_str (get_default "spend" (PInt 0) insight);
  reach ← Extract.py_int int_of_str (get_default "reach" (PInt 0) insight);
  ctr ← Extract.py_float float_of_str (get_default "ctr" (PInt 0) insight);
  cpp ← Extract.py_float float_of_str (get_default "cpp" (PInt 0) insight);
  Some
    [ PDateTime current_hour_ist;
      get_or_none "ad_id" insight;
      get_or_none "adset_id" insight;
      get_or_none "campaign_id" insight;
      get_or_none "account_id" insight;
      get_or_none "date_start" insight;
      get_or_none "date_stop" insight;
      PInt clicks;
      PInt impressions;
      PFloat spend;
      PInt reach;
      get_default "page_engagement" (PInt 0) insight;
      get_default "post_engagement" (PInt 0) insight;
      get_default "video_view" (PInt 0) insight;
      get_default "landing_page_view" (PInt 0) insight;
      get_default "purchase" (PInt 0) insight;
      get_default "add_to_cart" (PInt 0) insight;
      get_default "link_click" (PInt 0) insight;
      get_default "post_reaction" (PInt 0) insight;
      get_default "outbound_click" (PInt 0) insight;
      get_default "purchase_value" (PFloat 0) insight;
      get_default "view_content_value" (PFloat 0) insight;
      get_default "add_to_cart_value" (PFloat 0) insight;
      PFloat ctr;
      PFloat cpp;
      get_default "video_p25_watched" (PInt 0) insight;
      get_default "video_thruplay_watched" (PInt 0) insight;
      PDateTime now_ist ].

(** The loop body: stamp the hour, validate, project; an insight that
    fails validation or projection is skipped with a warning. *)
Definition hourly_item (values : list Tuple) (insight : pyrecord)
    : M (list Tuple) :=
  let insight := set "snapshot_hour" (PStr current_hour_ist) insight in
  let errors :=
    Validator.validate_schema fromisoformat insight
      Validator.AD_INSIGHTS_HOURLY_SNAPSHOT_SCHEMA in
  if Validator.has_errors errors
  then log (SchemaValidationFailed "insight"
              (get_default "ad_id" (PStr "unknown") insight) errors) ;;;
       ret values
  else match hourly_tuple insight with
       | Some t => ret (values ++ [t])
       | None =>
           log (TypeConversionFailed (get_or_none "ad_id" insight)) ;;;
           ret values
       end.

Definition upsert_hourly_ad_insights (insights : list pyrecord) : M unit :=
  match insights with
  | [] => log (NothingToUpsert "insights")
  | _ =>
      values <- for_each insights hourly_item [] ;;
      try_except
        (match values with
         | [] => log (NothingToUpsert "valid insights")
         | _ =>
             bulk hourly_upsert values ;;;
             log (Upserted "hourly ad insights" (length values))
         end)
        any_exception
        (fun e =>
           log (UpsertFailed "hourly ad insights" e) ;;; raise e)
  end.

End Load.




End Load.

(** ** The orchestrator ([main]) *)

Module Main.
Import Py Eff Sys Warehouse Queries.
Local Open Scope eff_scope.

(** The clock readings of one run, in ISO format: [datetime.now(IST)],
    its truncation to the hour, its date, and the warehouse's [NOW()].
    The run is taken to read the clock at one instant. *)
Record Clock := {
  now_ist : string;
  hour_str : string;
  today_str : string;
  db_now : PyVal
}.

(** What the script takes from its environment and its libraries. *)
Record Env (U : Type) := {
  requests_get : Client U;
  ACCOUNT_ID : string;
  ACCESS_TOKEN : string;
  RATE_LIMIT_INTERVAL : Q;
  fromisoformat : string -> bool;
  json_dumps : PyVal -> string;
  json_dumps_item : pyrecord -> string;
  repr : PyVal -> string;
  int_of_str : string -> option Z;
  float_of_str : string -> option Q;
  insights_filter : list PyVal -> string
}.
Arguments requests_get {U} e.
Arguments ACCOUNT_ID {U} e.
Arguments ACCESS_TOKEN {U} e.
Arguments RATE_LIMIT_INTERVAL {U} e.
Arguments fromisoformat {U} e.
Arguments json_dumps {U} e.
Arguments json_dumps_item {U} e.
Arguments repr {U} e.
Arguments int_of_str {U} e.
Arguments float_of_str {U} e.
Arguments insights_filter {U} e.

Section Main.
Context {U : Type}.
Variable env : Env U.
Variable clock : Clock.
(** Bound on the number of pages followed by each paginated extractor. *)
Variable fuel : nat.

Abbreviation M := (Eff.M (World U)).

(** One [try: ... except Exception as e: logger.error(...)] block of
    [main]: a failure is logged and the step yields its fallback. *)
Definition step {X} (name : string) (body : M X) (fallback : X) : M X :=
  try_except
    (log (StepStarted name) ;;;
     x <- body ;;
     log (StepCompleted name) ;;;
     ret x)
    any_exception
    (fun e => log (StepFailed name e) ;;; ret fallback).

Definition campaign_step : M unit :=
  step "Campaign"
    (campaigns <-
       Extract.fetch_campaigns (requests_get env) (ACCOUNT_ID env)
         (ACCESS_TOKEN env) (RATE_LIMIT_INTERVAL env) (fromisoformat env)
         (repr env) (now_ist clock) (hour_str clock) ;;
     Load.bulk (db_now clock) campaign_upsert campaigns)
    tt.

Definition activity_step : M unit :=
  step "Activity History"
    (activities <-
       Extract.fetch_activity_history (requests_get env) (ACCOUNT_ID env)
         (ACCESS_TOKEN env) (RATE_LIMIT_INTERVAL env) (now_ist clock)
         (hour_str clock) (today_str clock) (today_str clock) ;;
     Load.upsert_activity_history (db_now clock) activities)
    tt.

Definition regionwise_step : M unit :=
  step "Regionwise Insights"
    (regionwise_insights <-
       Extract.fetch_regionwise_insights (requests_get env)
         (ACCOUNT_ID env) (ACCESS_TOKEN env) (RATE_LIMIT_INTERVAL env)
         (now_ist clock) (hour_str clock) ;;
     Load.upsert_regionwise_insights (db_now clock) regionwise_insights)
    tt.

Definition adcreatives_step : M unit :=
  step "AdCreatives"
    (adcreatives <-
       Extract.fetch_adcreatives_batch (requests_get env) (ACCOUNT_ID env)
         (ACCESS_TOKEN env) (RATE_LIMIT_INTERVAL env) (json_dumps env)
         (json_dumps_item env) (now_ist clock) (hour_str clock) fuel ;;
     Load.upsert_adcreatives (db_now clock) adcreatives)
    tt.

(** The part of the ad-set step that follows extraction. *)
Definition reconcile_adsets (adsets : list Tuple) : M unit :=
  adsets <- Load.filter_adsets_with_existing_campaigns adsets ;;
  Load.upsert_adsets (db_now clock) adsets.

Definition adsets_step : M unit :=
  step "AdSets"
    (adsets <-
       Extract.fetch_adsets_batch (requests_get env) (ACCOUNT_ID env)
         (ACCESS_TOKEN env) (RATE_LIMIT_INTERVAL env) (json_dumps env)
         (json_dumps_item env) (now_ist clock) (hour_str clock) fuel ;;
     reconcile_adsets adsets)
    tt.

(** Yields the fetched ad tuples, or [[]] when the step failed. *)
Definition ads_step : M (list Tuple) :=
  step "Ads"
    (ads <-
       Extract.fetch_ads_batch (requests_get env) (ACCOUNT_ID env)
         (ACCESS_TOKEN env) (RATE_LIMIT_INTERVAL env) (json_dumps env)
         (json_dumps_item env) (now_ist clock) (hour_str clock) fuel ;;
     Load.upsert_ads (db_now clock) ads ;;;
     ret ads)
    [].

(** *** The hourly-insight step *)

(** [a[i]] *)
Definition index (a : Tuple) (i : nat) : M PyVal :=
  match a !! i with
  | Some v => ret v
  | None => raise (OtherException "IndexError")
  end.

(** [insight['ad_id']] *)
Definition ad_id_of (insight : pyrecord) : M PyVal :=
  match get "ad_id" insight with
  | Some v => ret v
  | None => raise (OtherException "KeyError")
  end.

(** [[f(x) for x in l]] with an [f] that may raise. *)
Fixpoint map_m {X Y} (f : X -> M Y) (l : list X) : M (list Y) :=
  match l with
  | [] => ret []
  | x :: l' => y <- f x ;; ys <- map_m f l' ;; ret (y :: ys)
  end.

(** [{a[0]: a for a in ads}]: a later ad with the same id replaces the
    earlier one and keeps its place. *)
Fixpoint dict_put (k : PyVal) (a : Tuple) (d : list (PyVal * Tuple))
    : list (PyVal * Tuple) :=
  match d with
  | [] => [(k, a)]
  | (k', a') :: d' =>
      if bool_decide (k = k') then (k', a) :: d'
      else (k', a') :: dict_put k a d'
  end.

Definition ad_id_to_ad (ads : list Tuple) : list (PyVal * Tuple) :=
  fold_left (fun d a => dict_put (default PNone (a !! 0%nat)) a d) ads [].

(** The dictionary literal built for an ad without insight. *)
Definition default_insight (ad : Tuple) : pyrecord :=
  [ ("ad_id", default PNone (ad !! 0%nat));
    ("adset_id", default PNone (ad !! 2%nat));
    ("campaign_id", PNone);
    ("account_id", PNone);
    ("date_start", PStr (today_str clock));
    ("date_stop", PStr (today_str clock));
    ("clicks", PInt 0);
    ("impressions", PInt 0);
    ("spend", PFloat 0);
    ("reach", PInt 0);
    ("page_engagement", PInt 0);
    ("post_engagement", PInt 0);
    ("video_view", PInt 0);
    ("landing_page_view", PInt 0);
    ("purchase", PInt 0);
    ("add_to_cart", PInt 0);
    ("link_click", PInt 0);
    ("post_reaction", PInt 0);
    ("outbound_click", PInt 0);
    ("purchase_value", PFloat 0);
    ("view_content_value", PFloat 0);
    ("add_to_cart_value", PFloat 0);
    ("ctr", PFloat 0);
    ("cpp", PFloat 0);
    ("video_p25_watched", PInt 0);
    ("video_thruplay_watched", PInt 0) ].

(** The ads whose id is in [all_ad_ids - insight_ad_ids]. (The iteration
    order of that set difference is not fixed by Python; the ads' order
    is used here.) *)
Definition missing_ads (ads : list Tuple) (insight_ad_ids : list PyVal)
    : list Tuple :=
  omap (fun '(ad_id, ad) =>
          if bool_decide (ad_id ∈ insight_ad_ids) then None
          else Some ad)
       (ad_id_to_ad ads).

(** The insights handed to the upsert: the fetched ones, followed by a
    default insight for every ad without one. *)
Definition with_defaults (ads : list Tuple) (insight_ad_ids : list PyVal)
    (insights : list pyrecord) : list pyrecord :=
  insights ++ map default_insight (missing_ads ads insight_ad_ids).

Definition hourly_body (ads : list Tuple) : M unit :=
  ad_ids <- map_m (fun a => index a 0) ads ;;
  insights <-
    Extract.fetch_ad_insights (requests_get env) (ACCOUNT_ID env)
      (ACCESS_TOKEN env) (int_of_str env) (float_of_str env)
      (insights_filter env) ad_ids ;;
  insight_ad_ids <- map_m ad_id_of insights ;;
  map_m (fun a => index a 2) (missing_ads ads insight_ad_ids) ;;;
  let insights := with_defaults ads insight_ad_ids insights in
  Load.upsert_hourly_ad_insights (db_now clock) (fromisoformat env)
    (int_of_str env) (float_of_str env) (hour_str clock) (now_ist clock)
    insights.

Definition hourly_step (ads : list Tuple) : M unit :=
  step "Hourly Ad Insights" (hourly_body ads) tt.

Definition main : M unit :=
  campaign_step ;;;
  activity_step ;;;
  regionwise_step ;;;
  adcreatives_step ;;;
  adsets_step ;;;
  ads <- ads_step ;;
  hourly_step ads.

End Main.
End Main.

(** ** Generated columns of [ad_insights_hourly_snapshots] *)

Module Generated.

(** A value of an INTEGER or NUMERIC column. NUMERIC arithmetic is taken
    exact, over the rationals: the rounding of a quotient to the scale the
    warehouse selects is not modelled. *)
Inductive SqlVal :=
| SNull
| SInt (z : Z)
| SNumeric (q : Q).

(** The expressions of the DDL's [GENERATED ALWAYS AS (...)] clauses. *)
Inductive Expr :=
| Col (c : string)
| Lit (z : Z)
| Cast (e : Expr)
| Div (a b : Expr)
| Mul (a b : Expr)
| CaseGt (a b then_ else_ : Expr).

(** The stored metrics the generated columns read, typed as the DDL
    declares them; [None] is NULL. *)
Record Snapshot := {
  clicks : option Z;
  impressions : option Z;
  spend : option Q;
  reach : option Z;
  page_engagement : option Z;
  video_view : option Z;
  landing_page_view : option Z;
  purchase : option Z;
  purchase_value : option Q
}.

Definition int_col (v : option Z) : SqlVal :=
  match v with Some z => SInt z | None => SNull end.

Definition numeric_col (v : option Q) : SqlVal :=
  match v with Some q => SNumeric q | None => SNull end.

Definition column (r : Snapshot) (c : string) : SqlVal :=
  if String.eqb c "clicks" then int_col (clicks r)
  else if String.eqb c "impressions" then int_col (impressions r)
  else if String.eqb c "spend" then numeric_col (spend r)
  else if String.eqb c "reach" then int_col (reach r)
  else if String.eqb c "page_engagement" then int_col (page_engagement r)
  else if String.eqb c "video_view" then int_col (video_view r)
  else if String.eqb c "landing_page_view" then int_col (landing_page_view r)
  else if String.eqb c "purchase" then int_col (purchase r)
  else if String.eqb c "purchase_value" then numeric_col (purchase_value r)
  else SNull.

(** [e::NUMERIC] *)
Definition cast_numeric (v : SqlVal) : SqlVal :=
  match v with
  | SInt z => SNumeric (inject_Z z)
  | _ => v
  end.

Definition as_Q (v : SqlVal) : option Q :=
  match v with
  | SNull => None
  | SInt z => Some (inject_Z z)
  | SNumeric q => Some q
  end.

(** [a / b]: NULL when an operand is NULL, integer division on two
    integers, an error ([None]) on a zero divisor. *)
Definition sql_div (a b : SqlVal) : option SqlVal :=
  match a, b with
  | SNull, _ | _, SNull => Some SNull
  | SInt x, SInt y => if y =? 0 then None else Some (SInt (Z.quot x y))
  | _, _ =>
      match as_Q a, as_Q b with
      | Some x, Some y =>
          if Qeq_bool y 0 then None else Some (SNumeric (x / y)%Q)
      | _, _ => Some SNull
      end
  end.

Definition sql_mul (a b : SqlVal) : SqlVal :=
  match a, b with
  | SNull, _ | _, SNull => SNull
  | SInt x, SInt y => SInt (x * y)
  | _, _ =>
      match as_Q a, as_Q b with
      | Some x, Some y => SNumeric (x * y)%Q
      | _, _ => SNull
      end
  end.

(** [a > b], with NULL read as not true. *)
Definition sql_gt (a b : SqlVal) : bool :=
  match as_Q a, as_Q b with
  | Some x, Some y => negb (Qle_bool x y)
  | _, _ => false
  end.

(** Evaluation on one row; [None] is a run-time error. Only the selected
    branch of a CASE is evaluated. *)
Fixpoint eval (r : Snapshot) (e : Expr) : option SqlVal :=
  match e with
  | Col c => Some (column r c)
  | Lit z => Some (SInt z)
  | Cast e => cast_numeric <$> eval r e
  | Div a b => x ← eval r a; y ← eval r b; sql_div x y
  | Mul a b => x ← eval r a; y ← eval r b; Some (sql_mul x y)
  | CaseGt a b t f =>
      x ← eval r a; y ← eval r b;
      if sql_gt x y then eval r t else eval r f
  end.


(** [CASE WHEN den > 0 THEN num::NUMERIC / den * 100 ELSE 0 END] *)
Definition guarded_pct (num den : Expr) : Expr :=
  CaseGt den (Lit 0) (Mul (Div (Cast num) den) (Lit 100)) (Lit 0).

Definition calc_ctr : Expr := guarded_pct (Col "clicks") (Col "impressions").
Definition conversion_rate : Expr :=
  guarded_pct (Col "purchase") (Col "landing_page_view").

(** The value stored in a generated column, which is declared NUMERIC. *)
Definition generated (r : Snapshot) (e : Expr) : option SqlVal :=
  cast_numeric <$> eval r e.




(** A row that spent nothing but records a purchase value. *)
Definition free_purchase : Snapshot := {|
  clicks := Some 10; impressions := Some 200; spend := Some 0%Q;
  reach := Some 150; page_engagement := Some 40; video_view := Some 10;
  landing_page_view := Some 0; purchase := Some 1;
  purchase_value := Some (25 # 1)%Q
|}.

End Generated.

(** ** A sample environment for running the steps *)

Module Sample.
Import Py Eff Sys Warehouse Queries.

(** Decimal numerals: [int] of a string of digits, [float] of digits with
    an optional fraction. Enough for the numerals the API sends. *)
Fixpoint digits (cs : list ascii) (acc : Z) : option Z :=
  match cs with
  | [] => Some acc
  | c :: cs' =>
      match Ascii.is_nat c with
      | Some d => digits cs' (10 * acc + Z.of_nat d)
      | None => None
      end
  end.

Definition int_of_str (s : string) : option Z :=
  match chars s with
  | [] => None
  | cs => digits cs 0
  end.

Fixpoint split_dot (cs : list ascii) : list ascii * option (list ascii) :=
  match cs with
  | [] => ([], None)
  | c :: cs' =>
      if bool_decide (c = "."%char) then ([], Some cs')
      else let '(a, b) := split_dot cs' in (c :: a, b)
  end.

Definition float_of_str (s : string) : option Q :=
  match split_dot (chars s) with
  | ([], _) => None
  | (whole, None) => inject_Z <$> digits whole 0
  | (whole, Some frac) =>
      w ← digits whole 0;
      f ← digits frac 0;
      Some (Qmake (w * 10 ^ Z.of_nat (length frac) + f)
                  (Z.to_pos (10 ^ Z.of_nat (length frac))))
  end.

Definition ok_response (data : list pyrecord) (next : option string)
    : Response :=
  {| status_code := 200; text := ""; json_data := data; json_next := next;
     error_code := None |}.

Definition env {U : Type} (client : Client U) : Main.Env U :=
  {| Main.requests_get := client;
     Main.ACCOUNT_ID := "1";
     Main.ACCESS_TOKEN := "token";
     Main.RATE_LIMIT_INTERVAL := (1 # 2)%Q;
     Main.fromisoformat := fun _ => true;
     Main.json_dumps := fun _ => "{}";
     Main.json_dumps_item := fun _ => "{}";
     Main.repr := fun _ => "";
     Main.int_of_str := int_of_str;
     Main.float_of_str := float_of_str;
     Main.insights_filter := fun _ => "[]" |}.

Definition clock : Main.Clock :=
  {| Main.now_ist := "2024-05-01T10:05:00+05:30";
     Main.hour_str := "2024-05-01T10:00:00+05:30";
     Main.today_str := "2024-05-01";
     Main.db_now := PDateTime "2024-05-01T10:05:01+05:30" |}.

Definition start {U : Type} (u : U) : St (World U) :=
  {| world := {| upstream := u; db := ∅ |}; trace := [] |}.

(** *** Three ads, insights for two of them *)

Definition ad (id adset : string) : Tuple :=
  [ PStr id; PStr ("Ad " +:+ id); PStr adset; PNone; PNone;
    PStr "2024-05-01T10:00:00+05:30"; PDateTime "2024-05-01T10:05:00+05:30";
    PStr "{}" ].

Definition three_ads : list Tuple := [ad "a1" "s1"; ad "a2" "s1"; ad "a3" "s2"].

Definition insight (ad_id adset_id clicks impressions spend : string)
    : pyrecord :=
  [ ("ad_id", PStr ad_id); ("adset_id", PStr adset_id);
    ("campaign_id", PStr "c1"); ("account_id", PStr "1");
    ("date_start", PStr "2024-05-01"); ("date_stop", PStr "2024-05-01");
    ("clicks", PStr clicks); ("impressions", PStr impressions);
    ("spend", PStr spend); ("reach", PStr "150") ].

(** The insights endpoint answers with rows for [a1] and [a2] only. *)
Definition two_insights : Client unit :=
  fun url params u =>
    (Returned (ok_response [ insight "a1" "s1" "10" "200" "12.5";
                             insight "a2" "s1" "0" "40" "3" ] None), u).

(** *** An upstream that answers in two pages *)

Definition item (id : string) : pyrecord :=
  [ ("id", PStr id); ("name", PStr ("name of " +:+ id));
    ("status", PStr "ACTIVE"); ("object_id", PStr id); ("ad_id", PStr id);
    ("adset_id", PStr "s1");
    ("campaign_id", PStr "c1"); ("account_id", PStr "1");
    ("date_start", PStr "2024-05-01"); ("date_stop", PStr "2024-05-01") ].

Definition PAGE_2 : string := "https://graph.facebook.com/page2".

(** Every list endpoint holds two items, one per page; the upstream state
    counts the requests it served. *)
Definition two_pages : Client nat :=
  fun url params served =>
    if String.eqb url PAGE_2
    then (Returned (ok_response [item "x2"] None), S served)
    else (Returned (ok_response [item "x1"] (Some PAGE_2)), S served).

(** The rate-limit error, raised by a client that signals HTTP errors by
    raising, as the backoff wrapper expects. *)
Definition rate_limited : Exn :=
  HTTPError (Some {| status_code := 400; text := ""; json_data := [];
                     json_next := None; error_code := Some 80004 |}).

(** Rate-limited on the first request, a single page afterwards. *)
Definition limited_once : Client nat :=
  fun url params served =>
    match served with
    | O => (Raised rate_limited, 1%nat)
    | _ => (Returned (ok_response [item "x1"] None), S served)
    end.

(** The same answer from a client that hands back the error response
    instead of raising. *)
Definition limited_response : Client nat :=
  fun url params served =>
    (Returned {| status_code := 400; text := ""; json_data := [];
                 json_next := None; error_code := Some 80004 |}, S served).

(** The ids of the rows an extractor returned, and the upstream state and
    sleeps it left. *)
Definition summary {X} (id_of : X -> PyVal)
    (r : Outcome (list X) * St (World nat))
    : option (list PyVal) * nat * list Q :=
  (match fst r with Returned rows => Some (map id_of rows) | _ => None end,
   upstream (world (snd r)), sleeps (trace (snd r))).

Definition first_column (t : Tuple) : PyVal := default PNone (t !! 0%nat).

Definition fetch_campaigns_on (client : Client nat) :=
  summary first_column
    (Extract.fetch_campaigns client "1" "token" (1 # 2)%Q (fun _ => true)
       (fun _ => "") "2024-05-01T10:05:00+05:30" "2024-05-01T10:00:00+05:30"
       (start 0%nat)).

Definition fetch_adsets_on (client : Client nat) :=
  summary first_column
    (Extract.fetch_adsets_batch client "1" "token" (1 # 2)%Q (fun _ => "{}")
       (fun _ => "{}") "2024-05-01T10:05:00+05:30"
       "2024-05-01T10:00:00+05:30" 10 (start 0%nat)).

Definition fetch_insights_on (client : Client nat) :=
  summary (get_or_none "ad_id")
    (Extract.fetch_ad_insights client "1" "token" int_of_str float_of_str
       (fun _ => "[]") [PStr "x1"; PStr "x2"] (start 0%nat)).

Definition fetch_activities_on (client : Client nat) :=
  summary first_column
    (Extract.fetch_activity_history client "1" "token" (1 # 2)%Q
       "2024-05-01T10:05:00+05:30" "2024-05-01T10:00:00+05:30"
       "2024-05-01" "2024-05-01" (start 0%nat)).

Definition fetch_regionwise_on (client : Client nat) :=
  summary first_column
    (Extract.fetch_regionwise_insights client "1" "token" (1 # 2)%Q
       "2024-05-01T10:05:00+05:30" "2024-05-01T10:00:00+05:30"
       (start 0%nat)).

Definition campaign_v1 : Tuple :=
  [ PStr "c1"; PStr "act"; PStr "Spring sale"; PNone; PStr "ACTIVE"; PNone;
    PNone; PNone; PNone; PNone; PNone; PNone;
    PDateTime "2024-05-01T10:05:00+05:30";
    PDateTime "2024-05-01T10:05:00+05:30"; PStr "2024-05-01T10:00:00+05:30";
    PDateTime "2024-05-01T10:05:00+05:30" ].

Definition campaign_v2 : Tuple :=
  [ PStr "c1"; PStr "act"; PStr "Spring sale 2"; PNone; PStr "PAUSED"; PNone;
    PNone; PNone; PNone; PNone; PNone; PNone;
    PDateTime "2024-05-01T10:40:00+05:30";
    PDateTime "2024-05-01T10:40:00+05:30"; PStr "2024-05-01T10:00:00+05:30";
    PDateTime "2024-05-01T10:40:00+05:30" ].

Definition campaign_once : Table :=
  upsert_row campaign_upsert PNone (mk_row (columns campaign_upsert) campaign_v1) [].

Definition campaign_twice : Table :=
  upsert_row campaign_upsert PNone (mk_row (columns campaign_upsert) campaign_v2)
    campaign_once.

(** An ad-set tuple with the given id and nothing else of note. *)
Definition bare_adset (id : PyVal) : Tuple :=
  id :: replicate 37 PNone
  ++ [ PStr "2024-05-01T10:00:00+05:30";
       PDateTime "2024-05-01T10:05:00+05:30"; PStr "{}" ].

(** A hundred ad sets with distinct ids, and one more that upstream sent
    without an id. *)
Definition hundred_adsets : list Tuple :=
  map (fun n => bare_adset (PStr (String (ascii_of_nat (32 + n)) EmptyString)))
      (seq 0 100).

Definition hundred_and_one : list Tuple := hundred_adsets ++ [bare_adset PNone].

(** The table left behind by the failed write of the 101 ad sets. *)
Definition partial_adsets : Table :=
  snd (execute_values adsets_upsert PNone hundred_and_one []).

Definition empty_state : St (World unit) :=
  {| world := {| upstream := tt; db := ∅ |}; trace := [] |}.

Definition adset_of (id campaign : string) : Tuple :=
  [PStr id; PStr ("ad set " +:+ id); PStr campaign]
  ++ replicate 35 PNone
  ++ [ PStr "2024-05-01T10:00:00+05:30";
       PDateTime "2024-05-01T10:05:00+05:30"; PStr "{}" ].

Definition three_adsets : list Tuple :=
  [adset_of "s1" "c1"; adset_of "s2" "gone"; adset_of "s3" "c1"].

(** A warehouse that holds the campaign [c1] and nothing else. *)
Definition one_campaign : St (World unit) :=
  {| world :=
       {| upstream := tt;
          db := {[ "dim_campaign" :=
                     [mk_row (columns campaign_upsert)
                        campaign_v1] ]} |};
     trace := [] |}.

End Sample.

(** ** Validity of a record, as a decision *)

Module Valid.
Import Py Validator.

(** The schema entry does not ask for a field the record lacks. *)
Definition required_ok (data : pyrecord) (entry : string * FieldSchema)
    : bool :=
  negb (f_required entry.2 && negb (mem entry.1 data)).

(** The value has the declared type: a string for [string], a list for
    [array]; no other declared type is looked at. *)
Definition type_ok (field_schema : FieldSchema) (value : PyVal) : bool :=
  if String.eqb (f_type field_schema) "string" then is_str value
  else if String.eqb (f_type field_schema) "array" then is_list value
  else true.

(** A string under a [datetime] format parses; no other format is looked
    at. *)
Definition format_ok (fromisoformat : string -> bool)
    (field_schema : FieldSchema) (value : PyVal) : bool :=
  match value, f_format field_schema with
  | PStr s, Some format_type =>
      negb (String.eqb (f_type field_schema) "string"
            && String.eqb format_type "datetime"
            && negb (datetime_parses fromisoformat s))
  | _, _ => true
  end.

(** The field passes: it is unknown to the schema, or null and nullable, or
    date-like under a string type, or of the declared type and format. *)
Definition field_ok (fromisoformat : string -> bool) (schema : Schema)
    (item : string * PyVal) : bool :=
  match get item.1 schema with
  | None => true
  | Some field_schema =>
      (is_none item.2 && f_nullable field_schema)
      || (String.eqb (f_type field_schema) "string" && is_date item.2)
      || (type_ok field_schema item.2
          && format_ok fromisoformat field_schema item.2)
  end.

Definition valid (fromisoformat : string -> bool) (data : pyrecord)
    (schema : Schema) : bool :=
  forallb (required_ok data) schema
  && forallb (field_ok fromisoformat schema) data.

(** The required fields of the schema that the record lacks, in the order
    of the schema. *)
Definition missing_required (data : pyrecord) (schema : Schema)
    : list string :=
  map fst (List.filter (fun entry => negb (required_ok data entry)) schema).

(** The message filed for a missing field. *)
Definition missing_message (field : string) : string :=
  "Missing required field: " +:+ field.

End Valid.

(** ** Time spent waiting *)

Module Waiting.

(** The seconds slept in all, over a list of sleeps. *)
Definition total (ds : list Q) : Q := fold_right Qplus 0%Q ds.

End Waiting.

(** ** A recorded upstream

    An upstream that answers the requests it receives from a list of
    prepared outcomes, in order, whatever the request, and keeps a record
    of the requests it was sent. With nothing left to answer it refuses
    the connection. *)

Module Upstream.
Import Py Eff Sys Warehouse.

Definition Request : Type := string * Params.

Record Tape := {
  pending : Backoff.Script Response;
  seen : list Request
}.

Definition recording : Client Tape :=
  fun url params u =>
    let u' rest := {| pending := rest; seen := seen u ++ [(url, params)] |} in
    match pending u with
    | o :: rest => (o, u' rest)
    | [] => (Raised (OtherException "ConnectionError"), u' [])
    end.

(** The state of a run against the recorded upstream. *)
Definition st (pending : Backoff.Script Response) (seen : list Request)
    (d : Database) (tr : list Event) : St (World Tape) :=
  {| world := {| upstream := {| pending := pending; seen := seen |};
                 db := d |};
     trace := tr |}.

(** [raise_for_status] lets the response through. *)
Definition good_page (r : Response) : bool :=
  negb ((400 <=? status_code r) && (status_code r <? 600)).

(** The [url] the [while url:] loop goes on with after a page, if any: an
    absent or empty [paging.next] ends the loop. *)
Definition next_url (r : Response) : option string :=
  match json_next r with
  | Some next => if String.eqb next "" then None else Some next
  | None => None
  end.

Definition continues (r : Response) : bool :=
  match next_url r with Some _ => true | None => false end.

(** The requests of a loop that starts at [url] with [params] and is
    answered by [pages]: each page is asked for at the address the page
    before it named, with no parameters. *)
Fixpoint followed (url : string) (params : Params) (pages : list Response)
    : list Request :=
  match pages with
  | [] => []
  | r :: rest =>
      (url, params)
      :: match next_url r with
         | Some next => followed next [] rest
         | None => []
         end
  end.

(** Where such a loop stands after [pages], all of which continue. *)
Fixpoint cursor (url : string) (params : Params) (pages : list Response)
    : Request :=
  match pages with
  | [] => (url, params)
  | r :: rest => cursor (default "" (next_url r)) [] rest
  end.

(** The rows of the pages, in order. *)
Definition rows_of_pages (project : pyrecord -> Tuple)
    (pages : list Response) : list Tuple :=
  concat (map (fun r => map project (json_data r)) pages).

(** The first request of each paginated extractor. *)
Definition adcreatives_request (ACCOUNT_ID ACCESS_TOKEN : string) : Request :=
  ("https://graph.facebook.com/v18.0/act_" +:+ ACCOUNT_ID +:+ "/adcreatives",
   [ ("fields", "id,name,body,title,object_story_spec,call_to_action_type");
     ("access_token", ACCESS_TOKEN);
     ("limit", "100") ]).

Definition adsets_request (ACCOUNT_ID ACCESS_TOKEN : string) : Request :=
  ("https://graph.facebook.com/v20.0/act_" +:+ ACCOUNT_ID +:+ "/adsets",
   [ ("fields", Extract.ADSET_FIELDS); ("access_token", ACCESS_TOKEN) ]).

Definition ads_request (ACCOUNT_ID ACCESS_TOKEN : string) : Request :=
  ("https://graph.facebook.com/v18.0/act_" +:+ ACCOUNT_ID,
   [ ("fields", Extract.ADS_FIELDS); ("access_token", ACCESS_TOKEN) ]).

(** The outcome is the rate-limit error. *)
Definition rate_limited (o : Outcome Response) : bool :=
  Backoff.is_rate_limit o.


(** A failed fetch that the extractor swallowed: no rows, one line in the
    log, [requests] requests more than before. *)
Definition swallowed {X} (r : Outcome (list X) * St (World Tape))
    (what : string) (e : Exn) (requests : nat)
    (tail : Backoff.Script Response) (reqs : list Request) (d : Database)
    (tr : list Event) : Prop :=
  r.1 = Returned []
  /\ pending (upstream (world r.2)) = tail
  /\ length (seen (upstream (world r.2))) = (length reqs + requests)%nat
  /\ db (world r.2) = d
  /\ logs (trace r.2) = logs tr ++ [FetchFailed what e].

(** A run that ends with [o] after [requests] requests more, having slept
    [pauses] in all. *)
Definition ends {X} (r : Outcome X * St (World Tape)) (o : Outcome X)
    (requests : nat) (tail : Backoff.Script Response) (reqs : list Request)
    (d : Database) (pauses : list Q) : Prop :=
  r.1 = o
  /\ pending (upstream (world r.2)) = tail
  /\ length (seen (upstream (world r.2))) = (length reqs + requests)%nat
  /\ db (world r.2) = d
  /\ sleeps (trace r.2) = pauses.


(** *** Sample answers *)

Definition page_1 : Response :=
  {| status_code := 200; text := "";
     json_data := [[("id", PStr "x1"); ("campaign_id", PStr "c1")]];
     json_next := Some "https://graph.facebook.com/page2";
     error_code := None |}.

Definition page_2 : Response :=
  {| status_code := 200; text := "";
     json_data := [[("id", PStr "x2"); ("campaign_id", PStr "c1")]];
     json_next := None; error_code := None |}.

Definition server_error : Response :=
  {| status_code := 500; text := ""; json_data := []; json_next := None;
     error_code := None |}.


End Upstream.

(** ** What the campaign and insight extractors let through *)

Module Accepted.
Import Py Eff Sys Warehouse Validator.

(** A campaign item after its two timestamps went through the
    normaliser. *)
Definition normalized (item : pyrecord) : pyrecord :=
  Extract.normalize_field "end_time"
    (Extract.normalize_field "start_time" item).

Section Campaigns.
Variable ACCOUNT_ID : string.
Variable fromisoformat : string -> bool.
Variable repr : PyVal -> string.
Variables (now_ist hour_str : string).

Definition accepted (item : pyrecord) : bool :=
  Valid.valid fromisoformat (normalized item) CAMPAIGN_SCHEMA.

Definition campaign_rows (items : list pyrecord) : list Tuple :=
  map (fun item =>
         Extract.campaign_tuple ACCOUNT_ID repr now_ist hour_str
           (normalized item))
      (List.filter accepted items).

(** The warning logged for an item that is turned down. *)
Definition campaign_warning (item : pyrecord) : Event :=
  Log (SchemaValidationFailed "campaign"
         (get_default "id" (PStr "unknown") (normalized item))
         (validate_schema fromisoformat (normalized item) CAMPAIGN_SCHEMA)).

Definition campaign_warnings (items : list pyrecord) : list Event :=
  map campaign_warning
    (List.filter (fun item => negb (accepted item)) items).
End Campaigns.

Section Insights.
Variable int_of_str : string -> option Z.
Variable float_of_str : string -> option Q.



(** What becomes of a field that is converted with [int]. *)
Definition int_field (insight insight' : pyrecord) (k : string) : Prop :=
  match get k insight with
  | None => get k insight' = None
  | Some v =>
      exists z, get k insight' = Some (PInt z)
                /\ if truthy v then Extract.py_int int_of_str v = Some z else z = 0
  end.

Definition float_field (insight insight' : pyrecord) (k : string) : Prop :=
  match get k insight with
  | None => get k insight' = None
  | Some v =>
      exists q, get k insight' = Some (PFloat q)
                /\ if truthy v then Extract.py_float float_of_str v = Some q
                   else q = 0%Q
  end.

End Insights.

(** The six fields the insight extractor converts, with the kind of number
    each becomes. *)
Definition is_int (v : PyVal) : bool :=
  match v with PInt _ => true | _ => false end.

Definition is_float (v : PyVal) : bool :=
  match v with PFloat _ => true | _ => false end.

Definition INT_FIELDS : list string := ["clicks"; "impressions"; "reach"].
Definition FLOAT_FIELDS : list string := ["spend"; "ctr"; "cpp"].

End Accepted.

(** ** What a computation leaves as it found it *)

Module Frame.
Import Eff Sys Warehouse.

(** The computation takes every state to one that is related to it by
    [I], however it ends. *)
Definition preserves {W X : Type} (I : St W -> St W -> Prop) (m : M W X)
    : Prop :=
  forall s, I s (m s).2.

(** The three log lines of a step of [main]. *)
Definition is_step_event (ev : Event) : bool :=
  match ev with
  | Log (StepStarted _) | Log (StepCompleted _) | Log (StepFailed _ _) => true
  | _ => false
  end.

(** The steps a trace shows as started, in order. *)
Definition started (tr : list Event) : list string :=
  omap (fun ev => match ev with
                  | Log (StepStarted name) => Some name
                  | _ => None
                  end) tr.

(** The steps a trace shows as failed, in order. *)
Definition failed (tr : list Event) : list string :=
  omap (fun ev => match ev with
                  | Log (StepFailed name _) => Some name
                  | _ => None
                  end) tr.

(** The trace has only grown, and by no log line of a step. *)
Definition quiet {W : Type} (s s' : St W) : Prop :=
  exists evs,
    trace s' = trace s ++ evs
    /\ forallb (fun ev => negb (is_step_event ev)) evs = true.

Definition same_db {U : Type} (s s' : St (World U)) : Prop :=
  db (world s') = db (world s).

Definition same_upstream {U : Type} (s s' : St (World U)) : Prop :=
  upstream (world s') = upstream (world s).

(** Every table but [t] holds what it held. *)
Definition same_other_tables {U : Type} (t : string) (s s' : St (World U))
    : Prop :=
  forall t', t' <> t -> db (world s') !! t' = db (world s) !! t'.

(** Only table [t] of the warehouse may have changed, and the upstream was
    not called. *)
Definition writes_only {U : Type} (t : string) (s s' : St (World U))
    : Prop :=
  same_upstream s s' /\ same_other_tables t s s'.

(** The whole world is as it was. *)
Definition same_world {U : Type} (s s' : St (World U)) : Prop :=
  world s' = world s.

Definition same_started {W : Type} (s s' : St W) : Prop :=
  started (trace s') = started (trace s).

(** The computation never raises, and when it returns it has started the
    steps [names], in that order, and no other. *)
Definition runs {W X : Type} (names : list string) (m : M W X) : Prop :=
  forall s,
    (forall e, (m s).1 <> Raised e)
    /\ (forall x, (m s).1 = Returned x ->
                  started (trace (m s).2) = started (trace s) ++ names).

(** The steps of [main], in the order it runs them. *)
Definition STEPS : list string :=
  [ "Campaign"; "Activity History"; "Regionwise Insights"; "AdCreatives";
    "AdSets"; "Ads"; "Hourly Ad Insights" ].

End Frame.

(** ** The whole run and its HTTP trigger ([main], [main_function]) *)

Module FunctionApp.
Import Eff Sys.
Local Open Scope eff_scope.


Section Function.
Context {U : Type}.
Variable env : Main.Env U.
Variable clock : Main.Clock.
Variable fuel : nat.
(** What [setup_database] does on its own connection: connect, set the
    time zone, run the CREATE TABLE statements. Any of it may raise. *)
Variable setup_statements : M (World U) unit.
(** The connection [main] opens for the steps, with its time zone
    statement; it may raise as well. *)
Variable connect : M (World U) unit.
(** [str(e)] *)
Variable describe : Exn -> string.

(** The error is logged and raised again; the connection is closed either
    way. *)
Definition setup_database : M (World U) unit :=
  try_except setup_statements any_exception (fun e => raise e).

(** [main]: the setup runs outside the [try]; a failure to connect is
    logged and swallowed like any other; [Main.main] is the sequence of
    steps on the open connection. *)
Definition main : M (World U) unit :=
  setup_database ;;;
  try_except
    (connect ;;;
     Main.main env clock fuel)
    any_exception
    (fun e => ret tt).

End Function.

End FunctionApp.

(** ** Items behind the rows *)

Module Items.
Import Py Eff Sys Warehouse Validator.


Section Hourly.
Variable fromisoformat : string -> bool.
Variable int_of_str : string -> option Z.
Variable float_of_str : string -> option Q.
Variables (current_hour_ist now_ist : string).

(** An insight with the snapshot hour written into it. *)
Definition stamped (insight : pyrecord) : pyrecord :=
  set "snapshot_hour" (PStr current_hour_ist) insight.

(** The row of an insight, if it validates and projects. *)
Definition hourly_row (insight : pyrecord) : option Tuple :=
  if Valid.valid fromisoformat (stamped insight)
       AD_INSIGHTS_HOURLY_SNAPSHOT_SCHEMA
  then Load.hourly_tuple int_of_str float_of_str current_hour_ist now_ist
         (stamped insight)
  else None.

Definition hourly_rows (insights : list pyrecord) : list Tuple :=
  omap hourly_row insights.

(** The warning logged for an insight that yields no row. *)
Definition hourly_warning (insight : pyrecord) : option Event :=
  if Valid.valid fromisoformat (stamped insight)
       AD_INSIGHTS_HOURLY_SNAPSHOT_SCHEMA
  then match Load.hourly_tuple int_of_str float_of_str current_hour_ist
               now_ist (stamped insight) with
       | Some _ => None
       | None =>
           Some (Log (TypeConversionFailed
                        (get_or_none "ad_id" (stamped insight))))
       end
  else Some (Log (SchemaValidationFailed "insight"
                    (get_default "ad_id" (PStr "unknown") (stamped insight))
                    (validate_schema fromisoformat (stamped insight)
                       AD_INSIGHTS_HOURLY_SNAPSHOT_SCHEMA))).
End Hourly.

End Items.

(** * Properties *)

(** ** Strings and dictionaries *)

Module PyFacts.
Import Py.

Lemma chars_app (a b : string) : chars (a +:+ b) = chars a ++ chars b.
Proof. induction a as [|c a IH]; simpl; [reflexivity | by rewrite IH]. Qed.

Lemma str_chars (s : string) : str (chars s) = s.
Proof. apply string_of_list_ascii_of_string. Qed.

(** A string with [suffix] at its end ends with it. *)
Lemma endswith_app (s suffix : string) : endswith (s +:+ suffix) suffix = true.
Proof.
  unfold endswith. rewrite chars_app, length_app.
  apply andb_true_intro; split.
  - apply Nat.leb_le. lia.
  - apply bool_decide_eq_true.
    replace (length (chars s) + length (chars suffix) - length (chars suffix))%nat
      with (length (chars s)) by lia.
    apply drop_app_length.
Qed.

(** [(s + suffix)[:-len(suffix)]] is [s]. *)
Lemma drop_last_app (s suffix : string) :
  drop_last (length (chars suffix)) (s +:+ suffix) = s.
Proof.
  unfold drop_last. rewrite chars_app, length_app.
  replace (length (chars s) + length (chars suffix) - length (chars suffix))%nat
    with (length (chars s)) by lia.
  rewrite take_app_length. apply str_chars.
Qed.

(** A string whose last character differs from [c] does not end with the
    one-character string [c]. *)
Lemma endswith_last_ne (s : string) (x c : ascii) :
  x <> c ->
  endswith (s +:+ String x EmptyString) (String c EmptyString) = false.
Proof.
  intros Hne. unfold endswith. rewrite chars_app, length_app. simpl.
  apply andb_false_intro2. apply bool_decide_eq_false.
  replace (length (chars s) + 1 - 1)%nat with (length (chars s)) by lia.
  rewrite drop_app_length. congruence.
Qed.

Lemma get_app {V} (k : string) (d1 d2 : dict V) :
  get k (d1 ++ d2) = match get k d1 with Some v => Some v | None => get k d2 end.
Proof.
  induction d1 as [|[k' v] d1 IH]; simpl; [reflexivity|].
  destruct (String.eqb k k'); [reflexivity | exact IH].
Qed.

Lemma get_None_not_key {V} (k : string) (d : dict V) :
  get k d = None <-> k ∉ keys d.
Proof.
  induction d as [|[k' v] d IH]; simpl.
  - split; [intros _; apply not_elem_of_nil | reflexivity].
  - destruct (String.eqb_spec k k') as [->|Hne].
    + split; [discriminate | intros H; exfalso; apply H; left].
    + rewrite IH. rewrite not_elem_of_cons. tauto.
Qed.

End PyFacts.

(** ** Datetime normalisation *)

Module NormalizeFacts.
Import Py Normalize PyFacts.

Lemma normalize_str_Z (s : string) :
  normalize_str (s +:+ "Z") = s +:+ "+00:00".
Proof.
  unfold normalize_str. rewrite endswith_app.
  change (drop_last 1 (s +:+ "Z"))
    with (drop_last (length (chars "Z")) (s +:+ "Z")).
  by rewrite drop_last_app.
Qed.

Lemma digit_not_Z (c : ascii) : is_digit c = true -> c <> "Z"%char.
Proof. intros H ->. discriminate H. Qed.

Lemma digit_not_LF (c : ascii) : is_digit c = true -> c <> LF.
Proof. intros H ->. discriminate H. Qed.

Lemma append_assoc (a b c : string) : (a +:+ b) +:+ c = a +:+ (b +:+ c).
Proof.
  induction a as [|x a IH]; [reflexivity|].
  change (String x ((a +:+ b) +:+ c) = String x (a +:+ (b +:+ c))).
  by rewrite IH.
Qed.

Lemma match_offset_app (base : string) (sg h1 h2 m1 m2 : ascii) :
  single_line base ->
  is_sign sg = true -> is_digit h1 = true -> is_digit h2 = true ->
  is_digit m1 = true -> is_digit m2 = true ->
  match_offset (base +:+ offset sg h1 h2 m1 m2)
  = Some (base, String sg (String h1 (String h2 EmptyString)),
          String m1 (String m2 EmptyString)).
Proof.
  intros Hline Hsg Hh1 Hh2 Hm1 Hm2. unfold match_offset.
  rewrite chars_app. cbn [offset chars list_ascii_of_string].
  fold (chars base).
  replace (chars base ++ [sg; h1; h2; m1; m2])
    with ((chars base ++ [sg; h1; h2; m1]) ++ [m2])
    by (by rewrite <- app_assoc).
  rewrite reverse_snoc.
  rewrite (bool_decide_eq_false_2 _ (digit_not_LF m2 Hm2)).
  rewrite <- app_assoc. cbn [app].
  rewrite length_app. cbn [length].
  replace (length (chars base) + 5 - 5)%nat with (length (chars base)) by lia.
  rewrite drop_app_length, take_app_length.
  rewrite Hsg, Hh1, Hh2, Hm1, Hm2, Hline. cbn [andb].
  by rewrite str_chars.
Qed.

Lemma normalize_str_offset (base : string) (sg h1 h2 m1 m2 : ascii) :
  single_line base ->
  is_sign sg = true -> is_digit h1 = true -> is_digit h2 = true ->
  is_digit m1 = true -> is_digit m2 = true ->
  normalize_str (base +:+ offset sg h1 h2 m1 m2)
  = base +:+ colon_offset sg h1 h2 m1 m2.
Proof.
  intros Hline Hsg Hh1 Hh2 Hm1 Hm2. unfold normalize_str.
  replace (base +:+ offset sg h1 h2 m1 m2)
    with ((base +:+ String sg (String h1 (String h2 (String m1 EmptyString))))
          +:+ String m2 EmptyString) at 1
    by (by rewrite append_assoc).
  rewrite (endswith_last_ne _ m2 "Z"%char (digit_not_Z m2 Hm2)).
  rewrite match_offset_app by assumption.
  reflexivity.
Qed.

(** The two functions are the same function. *)
Lemma normalize_activity_datetime_eq (v : PyVal) :
  normalize_activity_datetime v = normalize_datetime v.
Proof.
  destruct v; try reflexivity. unfold normalize_activity_datetime,
    normalize_datetime, normalize_str.
  destruct (endswith s "Z"); [reflexivity|].
  by destruct (match_offset s) as [[[b h] m]|].
Qed.

(** C8. Both datetime normalisers map a string ending in [Z] to the same
    string with the [Z] replaced by [+00:00], and a (single-line) string
    ending in a no-colon offset [±hhmm] to the same string with the offset
    written [±hh:mm]; in particular ["2024-05-01T10:00:00Z"] becomes
    ["2024-05-01T10:00:00+00:00"] and ["2024-05-01T10:00:00+0530"] becomes
    ["2024-05-01T10:00:00+05:30"]. *)
Theorem normalize_datetime_rules :
  (forall s : string,
      normalize_datetime (PStr (s +:+ "Z")) = PStr (s +:+ "+00:00")
      /\ normalize_activity_datetime (PStr (s +:+ "Z"))
         = PStr (s +:+ "+00:00"))
  /\ (forall (base : string) (sg h1 h2 m1 m2 : ascii),
         single_line base ->
         is_sign sg = true -> is_digit h1 = true -> is_digit h2 = true ->
         is_digit m1 = true -> is_digit m2 = true ->
         normalize_datetime (PStr (base +:+ offset sg h1 h2 m1 m2))
         = PStr (base +:+ colon_offset sg h1 h2 m1 m2)
         /\ normalize_activity_datetime
              (PStr (base +:+ offset sg h1 h2 m1 m2))
            = PStr (base +:+ colon_offset sg h1 h2 m1 m2))
  /\ normalize_datetime (PStr "2024-05-01T10:00:00Z")
     = PStr "2024-05-01T10:00:00+00:00"
  /\ normalize_datetime (PStr "2024-05-01T10:00:00+0530")
     = PStr "2024-05-01T10:00:00+05:30"
  /\ normalize_activity_datetime (PStr "2024-05-01T10:00:00Z")
     = PStr "2024-05-01T10:00:00+00:00"
  /\ normalize_activity_datetime (PStr "2024-05-01T10:00:00+0530")
     = PStr "2024-05-01T10:00:00+05:30".
Proof.
  split; [|split; [|repeat split; vm_compute; reflexivity]].
  - intros s. rewrite normalize_activity_datetime_eq. simpl.
    by rewrite normalize_str_Z.
  - intros base sg h1 h2 m1 m2 Hline Hsg Hh1 Hh2 Hm1 Hm2.
    rewrite normalize_activity_datetime_eq. simpl.
    by rewrite normalize_str_offset.
Qed.

(** The offset rule at a concrete timestamp. *)
Lemma normalize_datetime_rules_witness :
  single_line "2024-05-01T10:00:00"
  /\ is_sign "-" = true /\ is_digit "0" = true /\ is_digit "8" = true
  /\ normalize_datetime
       (PStr ("2024-05-01T10:00:00" +:+ offset "-" "0" "8" "0" "0"))
     = PStr ("2024-05-01T10:00:00" +:+ colon_offset "-" "0" "8" "0" "0").
Proof.
  destruct normalize_datetime_rules as (_ & Hoff & _).
  do 4 (split; [reflexivity|]).
  apply (Hoff "2024-05-01T10:00:00"
           "-"%char "0"%char "8"%char "0"%char "0"%char);
    reflexivity.
Defined.

(** A string that is not a single line is outside the offset rule: the
    pattern's first group cannot span a line feed. *)
Example normalize_str_two_lines :
  let s := String "a" (String LF "+0530") in
  normalize_str s = s.
Proof. vm_compute. reflexivity. Qed.

End NormalizeFacts.

(** ** Schema validator *)

Module ValidatorFacts.
Import Py Validator PyFacts.

Section Facts.
Variable fromisoformat : string -> bool.

(** Membership of another key is not affected by an extra field. *)
Lemma mem_extra (data1 data2 : pyrecord) (f k : string) (v : PyVal) :
  k <> f ->
  mem k (data1 ++ (f, v) :: data2) = mem k (data1 ++ data2).
Proof.
  intros Hne. unfold mem. rewrite !get_app. simpl.
  destruct (String.eqb_spec k f) as [->|_]; [contradiction | reflexivity].
Qed.

(** The pass over the schema does not see a field the schema lacks. *)
Lemma required_pass_extra (schema : Schema) (data1 data2 : pyrecord)
    (f : string) (v : PyVal) (errors : Errors) :
  f ∉ keys schema ->
  fold_left (check_required (data1 ++ (f, v) :: data2)) schema errors
  = fold_left (check_required (data1 ++ data2)) schema errors.
Proof.
  revert errors. induction schema as [|[k fs] schema IH]; intros errors Hf.
  - reflexivity.
  - simpl in Hf. apply not_elem_of_cons in Hf as [Hne Hf].
    cbn [fold_left]. rewrite IH by exact Hf. f_equal.
    unfold check_required. rewrite mem_extra by congruence. reflexivity.
Qed.

(** The pass over the record skips a field the schema lacks. *)
Lemma check_field_extra (schema : Schema) (errors : Errors) (f : string)
    (v : PyVal) :
  get f schema = None -> check_field fromisoformat schema errors (f, v) = errors.
Proof. intros H. unfold check_field. by rewrite H. Qed.

(** C10. A field of the record whose name is not a key of the schema
    contributes nothing to the report, in any category: validating the
    record with the field gives the same report as validating it
    without the field. *)
Theorem validate_schema_ignores_unknown_field (schema : Schema)
    (data1 data2 : pyrecord) (f : string) (v : PyVal) :
  get f schema = None ->
  validate_schema fromisoformat (data1 ++ (f, v) :: data2) schema
  = validate_schema fromisoformat (data1 ++ data2) schema.
Proof.
  intros Hf. unfold validate_schema.
  rewrite required_pass_extra by (by apply get_None_not_key).
  rewrite !fold_left_app. cbn [fold_left].
  by rewrite check_field_extra.
Qed.
End Facts.

(** An unknown field of the wrong looks, next to a valid campaign. *)
Lemma validate_schema_ignores_unknown_field_witness :
  get "budget_remaining" CAMPAIGN_SCHEMA = None
  /\ validate_schema (fun _ => true)
       ([("id", PStr "1"); ("name", PStr "n")]
        ++ ("budget_remaining", PInt 5) :: [("status", PStr "ACTIVE")])
       CAMPAIGN_SCHEMA
     = validate_schema (fun _ => true)
         ([("id", PStr "1"); ("name", PStr "n")]
          ++ [("status", PStr "ACTIVE")])
         CAMPAIGN_SCHEMA.
Proof.
  split; [reflexivity|].
  apply (validate_schema_ignores_unknown_field (fun _ => true)
           CAMPAIGN_SCHEMA [("id", PStr "1"); ("name", PStr "n")]
           [("status", PStr "ACTIVE")] "budget_remaining" (PInt 5)).
  reflexivity.
Defined.

(** Both reports of the witness are empty: the record is valid. *)
Example unknown_field_valid :
  validate_schema (fun _ => true)
    [("id", PStr "1"); ("name", PStr "n"); ("budget_remaining", PInt 5);
     ("status", PStr "ACTIVE")] CAMPAIGN_SCHEMA = [].
Proof. vm_compute. reflexivity. Qed.

(** A known field of the wrong type is reported. *)
Example known_field_reported :
  validate_schema (fun _ => true)
    [("id", PStr "1"); ("name", PInt 5); ("status", PStr "ACTIVE")]
    CAMPAIGN_SCHEMA
  = [("type", ["Field 'name' should be a string, got int"])].
Proof. vm_compute. reflexivity. Qed.

End ValidatorFacts.

(** ** The backoff wrapper *)

Module BackoffFacts.
Import Eff Backoff.

Lemma sleeps_app (t1 t2 : list Event) : sleeps (t1 ++ t2) = sleeps t1 ++ sleeps t2.
Proof. unfold sleeps. apply omap_app. Qed.

Lemma double_nonneg (d : Q) : (0 <= d)%Q -> (0 <= d * 2)%Q.
Proof. intros H. apply Qmult_le_0_compat; [exact H | discriminate]. Qed.

Section Scripted.
Context {A : Type}.


Variable base : Q.
Hypothesis base_nonneg : (0 <= base)%Q.




End Scripted.




(** Two rate-limit answers, then a response: three calls, two sleeps. *)
Example backoff_two_retries :
  api_request_with_backoff (1 # 2) scripted
    {| world := [rate_limit_error; rate_limit_error; Returned 7; Returned 8];
       trace := [] |}
  = (Returned (Some 7),
     {| world := [Returned 8];
        trace := [ Log (RateLimitHit 1 5 (1 # 2)); Sleep (1 # 2);
                   Log (RateLimitHit 2 5 ((1 # 2) * 2)); Sleep ((1 # 2) * 2) ] |}).
Proof. reflexivity. Qed.

End BackoffFacts.

(** ** Generated columns *)

Module GeneratedFacts.
Import Generated.




Section Row.
Variable r : Snapshot.




End Row.








(** The click-through rate of that row is 5 percent, its conversion rate 0
    for want of landing-page views. *)
Example free_purchase_ratios :
  generated free_purchase calc_ctr
  = Some (SNumeric ((10 # 1) / (200 # 1) * (100 # 1))%Q)
  /\ generated free_purchase conversion_rate = Some (SNumeric 0)
  /\ ((10 # 1) / (200 # 1) * (100 # 1) == 5 # 1)%Q.
Proof. repeat split. Qed.

End GeneratedFacts.

(** ** The warehouse statements *)

Module WarehouseFacts.
Import Warehouse.

(** The value of a column after the SET clause ran. *)
Lemma update_row_col (now : PyVal) (excluded : Row) (c : string)
    (sc : list (string * Assign)) :
  forall old : Row,
    col (fold_left (assign now excluded) sc old) c
    = match final_assign sc c with
      | Some (Excluded c') => col excluded c'
      | Some Now => now
      | None => col old c
      end.
Proof.
  induction sc as [|[c' a] sc IH]; intros old; [reflexivity|].
  cbn [fold_left final_assign]. rewrite IH.
  destruct (final_assign sc c) as [a'|]; [reflexivity|].
  unfold col. destruct (String.eqb_spec c c') as [->|Hne].
  - destruct a; cbn [assign]; by rewrite lookup_insert_eq.
  - destruct a; cbn [assign]; by rewrite lookup_insert_ne.
Qed.

Lemma keys_stable_spec (u : Upsert) (c : string) :
  keys_stable u = true -> c ∈ conflict_target u ->
  final_assign (set_clause u) c = None.
Proof.
  unfold keys_stable. rewrite forallb_forall. intros H Hc.
  apply list_elem_of_In in Hc. apply H in Hc.
  by apply bool_decide_eq_true in Hc.
Qed.

(** An update leaves the key of the stored row as it was. *)
Lemma update_row_key (u : Upsert) (now : PyVal) (excluded old : Row) :
  keys_stable u = true ->
  key_of u (update_row u now excluded old) = key_of u old.
Proof.
  intros Hst. unfold key_of. apply map_ext_in. intros c Hc.
  unfold update_row. rewrite update_row_col.
  rewrite (keys_stable_spec u c Hst); [reflexivity|].
  by apply list_elem_of_In.
Qed.


Section OneRow.
Variable u : Upsert.
Variable now : PyVal.
Hypothesis stable : keys_stable u = true.
Variable new : Row.
Hypothesis defined : key_defined (key_of u new) = true.




End OneRow.







End WarehouseFacts.

(** ** Conflict targets and update sets of the seven statements *)

Module UpdateSetFacts.
Import Warehouse Queries WarehouseFacts.

(** The hourly-insight statement does update [created_at]: C3 does not
    hold as stated. *)
Lemma hourly_upsert_rewrites_created_at :
  ~ Forall (fun u => natural_key_excluded u /\ creation_time_write_once u)
      all_upserts.
Proof.
  intros H. rewrite Forall_forall in H.
  destruct (H hourly_upsert) as [_ Hc].
  - apply list_elem_of_In. apply (bool_decide_unpack _). vm_compute. exact I.
  - apply Hc. apply (bool_decide_unpack _). vm_compute. exact I.
Qed.

(** C3, amended. For every entity type's upsert the columns updated on
    conflict exclude the natural-key columns. The campaign statement leaves
    [created_at] out, so a campaign's creation time is write-once, while its
    [updated_at] is overwritten; the hourly-insight statement sets
    [created_at] to the warehouse's current time on every conflict; the
    ad-set statement overwrites [created_time], the upstream creation time,
    like any fetched field. Every other updated column takes the newly
    fetched value. *)
Theorem update_sets_exclude_natural_keys :
  Forall natural_key_excluded all_upserts
  /\ creation_time_write_once campaign_upsert
  /\ Forall takes_fetched_values all_upserts
  /\ final_assign (set_clause hourly_upsert) "created_at" = Some Now
  /\ final_assign (set_clause adsets_upsert) "created_time"
     = Some (Excluded "created_time")
  /\ (forall (now : PyVal) (fetched stored : Row),
         col (update_row campaign_upsert now fetched stored) "created_at"
         = col stored "created_at"
         /\ col (update_row campaign_upsert now fetched stored) "updated_at"
            = col fetched "updated_at"
         /\ col (update_row hourly_upsert now fetched stored) "created_at"
            = now
         /\ col (update_row adsets_upsert now fetched stored) "created_time"
            = col fetched "created_time").
Proof.
  split; [|split; [|split; [|split; [|split]]]].
  - apply (bool_decide_unpack _). vm_compute. exact I.
  - apply (bool_decide_unpack _). vm_compute. exact I.
  - apply (bool_decide_unpack _). vm_compute. exact I.
  - reflexivity.
  - reflexivity.
  - intros now fetched stored. unfold update_row.
    rewrite !update_row_col. repeat split; reflexivity.
Qed.

End UpdateSetFacts.

(** ** Reconciling the same key twice *)

Module ReconcileFacts.
Import Warehouse Queries WarehouseFacts.



Section Generic.
Variable u : Upsert.
Hypothesis stable : keys_stable u = true.



End Generic.

(** *** A campaign fetched twice *)





(** What the table holds after the two runs: one row, renamed and paused,
    created at the time of the first run and updated at the second. *)
Example campaign_twice_row :
  length Sample.campaign_twice = 1%nat
  /\ map (fun r => (col r "campaign_name", col r "status",
                    col r "created_at", col r "updated_at")) Sample.campaign_twice
     = [ (PStr "Spring sale 2", PStr "PAUSED",
          PDateTime "2024-05-01T10:05:00+05:30",
          PDateTime "2024-05-01T10:40:00+05:30") ].
Proof. vm_compute. split; reflexivity. Qed.

End ReconcileFacts.

(** ** Bulk writes: pages, statements and failure *)

Module BulkWriteFacts.
Import Eff Sys Warehouse Queries.

(** A failed bulk write stopped at one page: the pages before it took
    effect, that page and the later ones did not. *)
Lemma run_pages_failed (u : Upsert) (now : PyVal) (pages : list (list Tuple)) :
  forall tbl tbl',
    run_pages u now pages tbl = (false, tbl') ->
    exists done failing rest,
      pages = done ++ failing :: rest
      /\ run_pages u now done tbl = (true, tbl')
      /\ exec_upsert u now failing tbl' = None.
Proof.
  induction pages as [|page pages IH]; intros tbl tbl' H; [discriminate H|].
  cbn [run_pages] in H. destruct (exec_upsert u now page tbl) as [tbl1|] eqn:E.
  - destruct (IH _ _ H) as (done & failing & rest & -> & Hdone & Hfail).
    exists (page :: done), failing, rest. repeat split; try assumption.
    cbn [run_pages]. by rewrite E.
  - injection H as <-. exists [], page, pages. repeat split. exact E.
Qed.

Lemma paginate_fuel_concat (n : nat) :
  (0 < n)%nat ->
  forall fuel l, (length l <= fuel)%nat ->
    concat (paginate_fuel fuel n l) = l.
Proof.
  intros Hn. induction fuel as [|fuel IH]; intros l Hl.
  - destruct l; [reflexivity | cbn in Hl; lia].
  - destruct l as [|x l]; [reflexivity|].
    cbn [paginate_fuel concat]. rewrite IH.
    + apply take_drop.
    + rewrite length_drop. cbn [length] in *. lia.
Qed.

(** No page holds more than [n] tuples. *)
Lemma paginate_fuel_lengths (n : nat) :
  forall fuel l,
    Forall (fun page : list Tuple => (length page <= n)%nat)
      (paginate_fuel fuel n l).
Proof.
  induction fuel as [|fuel IH]; intros l; [constructor|].
  destruct l as [|x l]; [constructor|].
  cbn [paginate_fuel]. constructor; [|apply IH].
  rewrite length_take. lia.
Qed.

(** The pages are the batch, cut in order. *)
Lemma paginate_concat (l : list Tuple) : concat (paginate page_size l) = l.
Proof. apply paginate_fuel_concat; [unfold page_size; lia | lia]. Qed.

(** A batch that fits one page is sent as one statement. *)
Lemma paginate_one_page (l : list Tuple) :
  l <> [] -> (length l <= page_size)%nat -> paginate page_size l = [l].
Proof.
  intros Hne Hlen. unfold paginate. destruct l as [|x l]; [done|].
  cbn [length paginate_fuel]. rewrite take_ge by exact Hlen.
  rewrite drop_ge by exact Hlen. by destruct (length l).
Qed.

Lemma execute_values_one_page (u : Upsert) (now : PyVal) (batch : list Tuple)
    (tbl tbl' : Table) :
  (length batch <= page_size)%nat ->
  execute_values u now batch tbl = (false, tbl') -> tbl' = tbl.
Proof.
  intros Hlen. unfold execute_values. destruct batch as [|t batch].
  - discriminate.
  - rewrite paginate_one_page by done. cbn [run_pages].
    destruct (exec_upsert u now (t :: batch) tbl); [discriminate|].
    by intros [= <-].
Qed.

(** *** A failing step *)

Section Step.
Context {U : Type}.

(** A step whose body raises is marked failed in the log, yields its
    fallback, and lets the run go on. *)
Lemma step_failed {X} (name : string) (body : M (World U) X) (fallback : X)
    (e : Exn) (s s' : St (World U)) :
  body {| world := world s; trace := trace s ++ [Log (StepStarted name)] |}
  = (Raised e, s') ->
  Main.step name body fallback s
  = (Returned fallback,
     {| world := world s';
        trace := trace s' ++ [Log (StepFailed name e)] |}).
Proof.
  intros Hbody. unfold Main.step, try_except, bind, log, emit.
  cbn [world trace]. rewrite Hbody. reflexivity.
Qed.

(** A bulk write that fails raises; what its earlier pages wrote stays in
    the table, and no other table changes. *)
Lemma upsert_batch_failed (now : PyVal) (what : string) (u : Upsert)
    (rows : list Tuple) (s : St (World U)) (tbl' : Table) :
  rows <> [] ->
  execute_values u now rows (rows_of (db (world s)) (table u)) = (false, tbl') ->
  exists s',
    Load.upsert_batch now what u rows s = (Raised (DatabaseError (table u)), s')
    /\ rows_of (db (world s')) (table u) = tbl'
    /\ (forall t, t <> table u ->
          rows_of (db (world s')) t = rows_of (db (world s)) t)
    /\ upstream (world s') = upstream (world s).
Proof.
  intros Hne Hexec. destruct rows as [|t rows]; [done|].
  unfold Load.upsert_batch, try_except, bind, Load.bulk.
  cbn [world trace]. rewrite Hexec. cbn [world trace].
  unfold log, emit, raise, bind. cbn [world trace db upstream].
  eexists. split; [reflexivity|]. cbn [world db upstream].
  repeat split.
  - unfold rows_of. by rewrite lookup_insert_eq.
  - intros t' Ht. unfold rows_of. by rewrite lookup_insert_ne.
Qed.
End Step.

(** *** More ad sets than one page holds *)

Lemma hundred_and_one_outcome :
  fst (execute_values adsets_upsert PNone Sample.hundred_and_one []) = false
  /\ length (snd (execute_values adsets_upsert PNone Sample.hundred_and_one []))
     = 100%nat.
Proof. vm_compute. split; reflexivity. Qed.

(** The ad-set write of 101 tuples fails on its second statement, after the
    first hundred rows became visible: C4 does not hold as stated. *)
Lemma adsets_partial_write :
  ~ Forall all_or_nothing all_upserts.
Proof.
  intros H. rewrite Forall_forall in H.
  assert (Hin : adsets_upsert ∈ all_upserts).
  { apply list_elem_of_In. apply (bool_decide_unpack _). vm_compute. exact I. }
  specialize (H _ Hin PNone Sample.hundred_and_one []).
  destruct hundred_and_one_outcome as [Hok Hlen].
  destruct (execute_values adsets_upsert PNone Sample.hundred_and_one [])
    as [ok tbl']. cbn [fst snd] in Hok, Hlen. subst ok.
  specialize (H tbl' eq_refl). subst tbl'. discriminate Hlen.
Qed.

(** C4, amended. For every entity type the bulk write is sent as
    consecutive statements of at most 100 rows, each taking effect on its
    own as soon as it succeeds. Each statement is all-or-nothing. If one
    fails, the rows of the statements before it stay visible, its own rows
    and those of later statements are not written, nothing is rolled back,
    the failure is raised and the step is marked failed; other tables are
    not touched. A batch of at most 100 rows is therefore all-or-nothing. *)
Theorem bulk_write_per_statement {U : Type} (u : Upsert) (now : PyVal)
    (batch : list Tuple) (s : St (World U)) (tbl' : Table) (what name : string) :
  batch <> [] ->
  execute_values u now batch (rows_of (db (world s)) (table u)) = (false, tbl') ->
  (exists done failing rest,
      paginate page_size batch = done ++ failing :: rest
      /\ concat (done ++ failing :: rest) = batch
      /\ Forall (fun page => (length page <= page_size)%nat)
           (done ++ failing :: rest)
      /\ run_pages u now done (rows_of (db (world s)) (table u)) = (true, tbl')
      /\ exec_upsert u now failing tbl' = None)
  /\ ((length batch <= page_size)%nat ->
      tbl' = rows_of (db (world s)) (table u))
  /\ (exists s1 s2,
        Load.upsert_batch now what u batch
          {| world := world s; trace := trace s ++ [Log (StepStarted name)] |}
        = (Raised (DatabaseError (table u)), s1)
        /\ Main.step name (Load.upsert_batch now what u batch) tt s
           = (Returned tt, s2)
        /\ world s2 = world s1
        /\ Log (StepFailed name (DatabaseError (table u))) ∈ trace s2
        /\ rows_of (db (world s2)) (table u) = tbl'
        /\ forall t, t <> table u ->
             rows_of (db (world s2)) t = rows_of (db (world s)) t).
Proof.
  intros Hne Hexec. split; [|split].
  - destruct (run_pages_failed _ _ _ _ _ Hexec)
      as (done & failing & rest & Hpages & Hdone & Hfail).
    exists done, failing, rest. repeat split; try assumption.
    + rewrite <- Hpages. apply paginate_concat.
    + rewrite <- Hpages. apply paginate_fuel_lengths.
  - intros Hlen. by apply (execute_values_one_page u now batch).
  - destruct (upsert_batch_failed now what u batch
                {| world := world s;
                   trace := trace s ++ [Log (StepStarted name)] |} tbl' Hne Hexec)
      as (s1 & Hup & Hrows & Hother & _).
    exists s1. eexists. split; [exact Hup|]. split.
    + apply (step_failed name _ tt (DatabaseError (table u)) s s1). exact Hup.
    + cbn [world trace]. repeat split; try assumption.
      apply elem_of_app. right. apply list_elem_of_here.
Qed.

Lemma bulk_write_per_statement_witness :
  Sample.hundred_and_one <> []
  /\ execute_values adsets_upsert PNone Sample.hundred_and_one
       (rows_of (db (world Sample.empty_state)) (table adsets_upsert))
     = (false, Sample.partial_adsets)
  /\ length Sample.partial_adsets = 100%nat
  /\ exists done failing rest,
      paginate page_size Sample.hundred_and_one = done ++ failing :: rest
      /\ concat (done ++ failing :: rest) = Sample.hundred_and_one
      /\ Forall (fun page => (length page <= page_size)%nat)
           (done ++ failing :: rest)
      /\ run_pages adsets_upsert PNone done
           (rows_of (db (world Sample.empty_state)) (table adsets_upsert))
         = (true, Sample.partial_adsets)
      /\ exec_upsert adsets_upsert PNone failing Sample.partial_adsets = None.
Proof.
  assert (Hne : Sample.hundred_and_one <> []) by discriminate.
  assert (Hexec : execute_values adsets_upsert PNone Sample.hundred_and_one
                    (rows_of (db (world Sample.empty_state)) (table adsets_upsert))
                  = (false, Sample.partial_adsets)).
  { change (rows_of (db (world Sample.empty_state)) (table adsets_upsert))
      with ([] : Table).
    unfold Sample.partial_adsets. destruct hundred_and_one_outcome as [Hok _].
    destruct (execute_values adsets_upsert PNone Sample.hundred_and_one [])
      as [ok tbl]. cbn [fst snd] in *. by subst ok. }
  split; [exact Hne|]. split; [exact Hexec|].
  split; [exact (proj2 hundred_and_one_outcome)|].
  exact (proj1 (bulk_write_per_statement adsets_upsert PNone Sample.hundred_and_one
                  Sample.empty_state Sample.partial_adsets "adsets" "AdSets" Hne Hexec)).
Defined.

End BulkWriteFacts.

(** ** The consistency filter *)

Module FilterFacts.
Import Eff Sys Warehouse Queries Load WarehouseFacts BulkWriteFacts.




(** *** Rows written by a bulk statement *)

Section Preserved.
Variable u : Upsert.
Variable now : PyVal.
(** A property of rows that every proposed row has, inserted or merged
    into a stored row. *)
Variable Q : Row -> Prop.
Variable good : Tuple -> Prop.
Hypothesis good_insert : forall t, good t -> Q (mk_row (columns u) t).
Hypothesis good_update :
  forall t old, good t -> Q (update_row u now (mk_row (columns u) t) old).




End Preserved.


Section Filter.
Context {U : Type}.




End Filter.

(** *** One orphan among three ad sets *)


(** The ad-set step on that batch persists the two rows with a parent. *)
Example reconcile_three_adsets :
  let '(o, s') := Main.reconcile_adsets Sample.clock Sample.three_adsets Sample.one_campaign in
  o = Returned tt
  /\ map (fun r => (col r "id", col r "campaign_id"))
         (rows_of (db (world s')) "adsets")
     = [(PStr "s1", PStr "c1"); (PStr "s3", PStr "c1")].
Proof. vm_compute. split; reflexivity. Qed.

End FilterFacts.

(** ** The hourly-insight step *)

Module HourlyFacts.
Import Py Eff Sys Warehouse Validator.

Lemma report_has_errors (category msg : string) (errors : Errors) :
  has_errors (report category msg errors) = true.
Proof.
  destruct errors as [|[c msgs] rest]; cbn [report]; [reflexivity|].
  by destruct (String.eqb category c).
Qed.

Section Validate.
Variable fromisoformat : string -> bool.
Variable schema : Schema.

(** Checking one more field never empties the report. *)
Lemma check_field_keeps_errors (errors : Errors) (item : string * PyVal) :
  has_errors errors = true ->
  has_errors (check_field fromisoformat schema errors item) = true.
Proof.
  intros He. destruct item as [f v]. unfold check_field.
  repeat case_match; first [exact He | apply report_has_errors].
Qed.

Lemma fold_check_field_keeps_errors (items : pyrecord) :
  forall errors,
    has_errors errors = true ->
    has_errors (fold_left (check_field fromisoformat schema) items errors)
    = true.
Proof.
  induction items as [|item items IH]; intros errors He; [exact He|].
  cbn [fold_left]. apply IH. by apply check_field_keeps_errors.
Qed.
End Validate.

(** A record that holds [None] in [campaign_id], which the snapshot schema
    declares as a string that is not nullable, is reported. *)
Lemma none_campaign_id_reported (fromisoformat : string -> bool)
    (data1 data2 : pyrecord) (errors : Errors) :
  has_errors
    (fold_left (check_field fromisoformat AD_INSIGHTS_HOURLY_SNAPSHOT_SCHEMA)
       (data1 ++ ("campaign_id", PNone) :: data2) errors) = true.
Proof.
  rewrite fold_left_app.
  generalize (fold_left
                (check_field fromisoformat AD_INSIGHTS_HOURLY_SNAPSHOT_SCHEMA)
                data1 errors) as errors1.
  intros errors1.
  change (has_errors
            (fold_left
               (check_field fromisoformat AD_INSIGHTS_HOURLY_SNAPSHOT_SCHEMA)
               data2
               (report "type"
                  "Field 'campaign_id' should be a string, got NoneType"
                  errors1)) = true).
  apply fold_check_field_keeps_errors. apply report_has_errors.
Qed.

(** Stamping the hour on a default insight appends the key. *)
Lemma default_insight_stamped (clock : Main.Clock) (ad : Tuple)
    (hour : string) :
  set "snapshot_hour" (PStr hour) (Main.default_insight clock ad)
  = [ ("ad_id", default PNone (ad !! 0%nat));
      ("adset_id", default PNone (ad !! 2%nat)) ]
    ++ ("campaign_id", PNone)
    :: drop 3 (Main.default_insight clock ad)
    ++ [("snapshot_hour", PStr hour)].
Proof. vm_compute. reflexivity. Qed.

(** The default insight built for an ad without insight never passes the
    snapshot schema: its [campaign_id] is [None]. *)
Lemma default_insight_invalid (fromisoformat : string -> bool)
    (clock : Main.Clock) (ad : Tuple) (hour : string) :
  has_errors
    (validate_schema fromisoformat
       (set "snapshot_hour" (PStr hour) (Main.default_insight clock ad))
       AD_INSIGHTS_HOURLY_SNAPSHOT_SCHEMA) = true.
Proof.
  rewrite default_insight_stamped. unfold validate_schema.
  apply none_campaign_id_reported.
Qed.

(** C1 (the code departs from it). The default insight that [main] builds
    for an ad without fetched insight is rejected by the upsert's own
    validation and skipped with a warning, so no row is synthesized: with
    three fetched ads and insights for two of them, the step persists two
    snapshot rows, not three. *)
Theorem default_insights_are_dropped :
  (forall (U : Type) (fromisoformat : string -> bool)
          (int_of_str : string -> option Z) (float_of_str : string -> option Q)
          (hour now : string) (clock : Main.Clock) (ad : Tuple)
          (values : list Tuple) (s : St (World U)),
      exists errors,
        has_errors errors = true
        /\ Load.hourly_item fromisoformat int_of_str float_of_str hour now
             values (Main.default_insight clock ad) s
           = (Returned values,
              {| world := world s;
                 trace := trace s
                          ++ [Log (SchemaValidationFailed "insight"
                                     (default PNone (ad !! 0%nat)) errors)] |}))
  /\ (let r := Main.hourly_step (Sample.env Sample.two_insights) Sample.clock
                 Sample.three_ads (Sample.start tt) in
      fst r = Returned tt
      /\ map (fun row => col row "ad_id")
           (rows_of (db (world (snd r))) "ad_insights_hourly_snapshots")
         = [PStr "a1"; PStr "a2"]
      /\ logs (trace (snd r))
         = [ StepStarted "Hourly Ad Insights";
             FetchedTotal "insights" 2;
             SchemaValidationFailed "insight" (PStr "a3")
               [("type",
                 ["Field 'campaign_id' should be a string, got NoneType";
                  "Field 'account_id' should be a string, got NoneType"])];
             Upserted "hourly ad insights" 2;
             StepCompleted "Hourly Ad Insights" ]).
Proof.
  split.
  - intros U fromisoformat int_of_str float_of_str hour now clock ad values s.
    eexists. split; [apply (default_insight_invalid fromisoformat clock ad hour)|].
    unfold Load.hourly_item. cbv zeta.
    rewrite (default_insight_invalid fromisoformat clock ad hour).
    reflexivity.
  - vm_compute. repeat split.
Qed.

End HourlyFacts.

(** ** Pagination in the extractors *)

Module ExtractFacts.
Import Py Eff Sys Warehouse Sample.

(** C7 (the code departs from it). Against an upstream that answers every
    list endpoint in two pages, only the ad-set extractor (and its siblings
    for creatives and ads, which run the same loop) follows the continuation
    reference and returns both rows, with one request per page through the
    backoff wrapper. The campaign, activity-history and regional-insight
    extractors send a single request and return the first page only; so does
    the hourly-insight extractor, whose request does not go through the
    backoff wrapper: a rate-limit error that the ad-set extractor retries
    after the delay makes it give up at once with no rows. *)
Theorem extractors_first_page_only :
  fetch_adsets_on two_pages
  = (Some [PStr "x1"; PStr "x2"], 2%nat, [1 # 2; 1 # 2]%Q)
  /\ fetch_campaigns_on two_pages = (Some [PStr "x1"], 1%nat, [(1 # 2)%Q])
  /\ fetch_activities_on two_pages = (Some [PStr "x1"], 1%nat, [(1 # 2)%Q])
  /\ fetch_regionwise_on two_pages = (Some [PStr "x1"], 1%nat, [(1 # 2)%Q])
  /\ fetch_insights_on two_pages = (Some [PStr "x1"], 1%nat, [])
  /\ fetch_adsets_on limited_once
     = (Some [PStr "x1"], 2%nat, [1 # 2; 1 # 2]%Q)
  /\ fetch_insights_on limited_once = (Some [], 1%nat, []).
Proof. vm_compute. repeat split. Qed.

(** The three paginated extractors share the loop; each follows both
    pages. *)
Example paginated_extractors_follow_next :
  summary first_column
    (Extract.fetch_adcreatives_batch two_pages "1" "token" (1 # 2)%Q
       (fun _ => "{}") (fun _ => "{}") "2024-05-01T10:05:00+05:30"
       "2024-05-01T10:00:00+05:30" 10 (start 0%nat))
  = (Some [PStr "x1"; PStr "x2"], 2%nat, [1 # 2; 1 # 2]%Q)
  /\ summary first_column
       (Extract.fetch_ads_batch two_pages "1" "token" (1 # 2)%Q
          (fun _ => "{}") (fun _ => "{}") "2024-05-01T10:05:00+05:30"
          "2024-05-01T10:00:00+05:30" 10 (start 0%nat))
     = (Some [PStr "x1"; PStr "x2"], 2%nat, [1 # 2; 1 # 2]%Q).
Proof. vm_compute. split; reflexivity. Qed.

(** The wrapper retries what its request function raises. A client that
    hands back the rate-limit response as a value is not retried: the
    wrapper returns that response after one request, and the extractor
    raises from [raise_for_status] once the pause has passed. *)
Example returned_error_response_not_retried :
  fetch_adsets_on limited_response = (None, 1%nat, [(1 # 2)%Q]).
Proof. vm_compute. reflexivity. Qed.

End ExtractFacts.

(** ** The validator as a decision procedure *)

Module ValidFacts.
Import Py Validator Valid HourlyFacts.

Section Facts.
Variable fromisoformat : string -> bool.

Lemma check_required_ok (data : pyrecord) (errors : Errors)
    (entry : string * FieldSchema) :
  required_ok data entry = true -> check_required data errors entry = errors.
Proof.
  destruct entry as [f fs]. unfold required_ok, check_required. cbn [fst snd].
  by destruct (f_required fs && negb (mem f data)).
Qed.

Lemma check_required_bad (data : pyrecord) (errors : Errors)
    (entry : string * FieldSchema) :
  required_ok data entry = false ->
  check_required data errors entry
  = report "required" ("Missing required field: " +:+ entry.1) errors.
Proof.
  destruct entry as [f fs]. unfold required_ok, check_required. cbn [fst snd].
  by destruct (f_required fs && negb (mem f data)).
Qed.

Lemma check_field_ok (schema : Schema) (errors : Errors)
    (item : string * PyVal) :
  field_ok fromisoformat schema item = true ->
  check_field fromisoformat schema errors item = errors.
Proof.
  destruct item as [f v]. unfold field_ok, check_field, type_ok, format_ok.
  cbn [fst snd]. destruct (get f schema) as [fs|]; [|reflexivity].
  destruct (is_none v && f_nullable fs); [reflexivity|].
  destruct (String.eqb (f_type fs) "string") eqn:Hs; cbn [andb orb].
  - destruct (is_date v) eqn:Hd; [reflexivity|]. cbn [orb].
    destruct v; cbn [is_str negb andb]; try discriminate.
    destruct (f_format fs) as [fmt|]; [|reflexivity].
    destruct (String.eqb fmt "datetime" && negb (datetime_parses fromisoformat s));
      [discriminate | reflexivity].
  - destruct (String.eqb (f_type fs) "array" && negb (is_list v)) eqn:Ha.
    + apply andb_true_iff in Ha as [Ha Hl]. rewrite Ha.
      apply negb_true_iff in Hl. rewrite Hl. discriminate.
    + intros _. by destruct v, (f_format fs).
Qed.

Lemma check_field_bad (schema : Schema) (errors : Errors)
    (item : string * PyVal) :
  field_ok fromisoformat schema item = false ->
  has_errors (check_field fromisoformat schema errors item) = true.
Proof.
  destruct item as [f v]. unfold field_ok, check_field, type_ok, format_ok.
  cbn [fst snd]. destruct (get f schema) as [fs|]; [|discriminate].
  destruct (is_none v && f_nullable fs); [discriminate|].
  destruct (String.eqb (f_type fs) "string") eqn:Hs; cbn [andb orb].
  - destruct (is_date v) eqn:Hd; [discriminate|]. cbn [orb].
    destruct v; cbn [is_str negb andb]; intros H;
      repeat case_match; try discriminate; apply report_has_errors.
  - destruct (String.eqb (f_type fs) "array") eqn:Ha; cbn [andb].
    + destruct (is_list v) eqn:Hl; cbn [negb].
      * destruct v, (f_format fs); discriminate.
      * intros _. destruct v, (f_format fs); apply report_has_errors.
    + destruct v, (f_format fs); discriminate.
Qed.

(** A pass whose steps either leave the report alone or add to it. *)
Lemma fold_report {X} (step : Errors -> X -> Errors) (ok : X -> bool)
    (l : list X) :
  (forall e x, ok x = true -> step e x = e) ->
  (forall e x, ok x = false -> has_errors (step e x) = true) ->
  (forall e x, has_errors e = true -> has_errors (step e x) = true) ->
  forall e,
    (forallb ok l = true -> fold_left step l e = e)
    /\ (forallb ok l = false -> has_errors (fold_left step l e) = true)
    /\ (has_errors e = true -> has_errors (fold_left step l e) = true).
Proof.
  intros Hok Hbad Hkeep. induction l as [|x l IH]; intros e.
  - cbn. repeat split; [discriminate | done].
  - cbn [forallb fold_left]. destruct (IH (step e x)) as (IH1 & IH2 & IH3).
    repeat split.
    + intros H. apply andb_true_iff in H as [Hx Hl].
      rewrite IH1 by exact Hl. by apply Hok.
    + intros H. destruct (ok x) eqn:Hx; cbn [andb] in H.
      * by apply IH2.
      * apply IH3. by apply Hbad.
    + intros He. apply IH3. by apply Hkeep.
Qed.

Lemma check_required_keeps (data : pyrecord) (errors : Errors)
    (entry : string * FieldSchema) :
  has_errors errors = true ->
  has_errors (check_required data errors entry) = true.
Proof.
  intros He. destruct entry as [f fs]. unfold check_required.
  destruct (_ && _); [apply report_has_errors | exact He].
Qed.

Lemma has_errors_false (errors : Errors) :
  has_errors errors = false <-> errors = [].
Proof. destruct errors; cbn; split; congruence. Qed.

Lemma report_empty_iff (data : pyrecord) (schema : Schema) :
  validate_schema fromisoformat data schema = []
  <-> valid fromisoformat data schema = true.
Proof.
  unfold validate_schema, valid. cbv zeta.
  destruct (fold_report (check_required data) (required_ok data) schema
              (check_required_ok data) 
              (fun e x H => eq_ind_r (fun t => has_errors t = true)
                              (report_has_errors _ _ _)
                              (check_required_bad data e x H))
              (check_required_keeps data) []) as (R1 & R2 & _).
  set (e0 := fold_left (check_required data) schema []) in *.
  destruct (fold_report (check_field fromisoformat schema)
              (field_ok fromisoformat schema) data
              (check_field_ok schema) (check_field_bad schema)
              (check_field_keeps_errors fromisoformat schema) e0)
    as (F1 & F2 & F3).
  rewrite <- has_errors_false. split.
  - intros H. destruct (forallb (required_ok data) schema) eqn:Hr.
    + destruct (forallb (field_ok fromisoformat schema) data) eqn:Hf;
        [reflexivity|]. rewrite F2 in H by reflexivity. discriminate H.
    + rewrite F3 in H by (by apply R2). discriminate H.
  - intros H. apply andb_true_iff in H as [Hr Hf].
    rewrite F1 by exact Hf. subst e0. by rewrite R1.
Qed.

Lemma has_errors_valid (data : pyrecord) (schema : Schema) :
  has_errors (validate_schema fromisoformat data schema)
  = negb (valid fromisoformat data schema).
Proof.
  destruct (valid fromisoformat data schema) eqn:Hv.
  - apply report_empty_iff in Hv. by rewrite Hv.
  - destruct (has_errors _) eqn:He; [reflexivity|].
    apply has_errors_false, report_empty_iff in He. congruence.
Qed.
End Facts.

(** X1. The validator's report is empty exactly when the record has every
    required field of the schema and each of its fields passes: unknown to
    the schema, or null and nullable, or date-like under a string type, or
    of the declared type ([string], [array]; other types are not checked)
    and, for a string under the [datetime] format, parseable. *)
Theorem validate_schema_empty_iff_valid (fromisoformat : string -> bool)
    (data : pyrecord) (schema : Schema) :
  validate_schema fromisoformat data schema = []
  <-> valid fromisoformat data schema = true.
Proof. apply report_empty_iff. Qed.

End ValidFacts.

(** ** The categories of the report *)

Module ReportFacts.
Import Py Validator Valid.

(** Reading a category after a message was filed. *)
Lemma get_report (k category msg : string) (errors : Errors) :
  get k (report category msg errors)
  = if String.eqb k category
    then Some (default [] (get k errors) ++ [msg])
    else get k errors.
Proof.
  induction errors as [|[c msgs] rest IH]; cbn [report get].
  - by destruct (String.eqb k category).
  - destruct (String.eqb_spec category c) as [->|Hcc]; cbn [get].
    + by destruct (String.eqb k c).
    + destruct (String.eqb_spec k c) as [->|Hkc].
      * destruct (String.eqb_spec c category) as [->|_]; [done | reflexivity].
      * exact IH.
Qed.

(** What the first pass adds to the [required] category. *)
Lemma required_pass (data : pyrecord) (schema : Schema) :
  forall errors,
    get "required" (fold_left (check_required data) schema errors)
    = match missing_required data schema with
      | [] => get "required" errors
      | missing =>
          Some (default [] (get "required" errors)
                ++ map missing_message missing)
      end.
Proof.
  unfold missing_required.
  induction schema as [|[f fs] schema IH]; intros errors; [reflexivity|].
  cbn [fold_left List.filter]. rewrite IH.
  destruct (required_ok data (f, fs)) eqn:Hok.
  - rewrite ValidFacts.check_required_ok by exact Hok. reflexivity.
  - rewrite ValidFacts.check_required_bad by exact Hok. cbn [negb map fst].
    rewrite get_report. cbn [String.eqb Ascii.eqb Bool.eqb default].
    destruct (map fst (List.filter _ schema)) as [|m ms]; cbn [map default].
    + reflexivity.
    + unfold id. by rewrite <- app_assoc.
Qed.

(** The second pass files under [type] and [format] only. *)
Lemma check_field_required (fromisoformat : string -> bool) (schema : Schema)
    (errors : Errors) (item : string * PyVal) :
  get "required" (check_field fromisoformat schema errors item)
  = get "required" errors.
Proof.
  destruct item as [f v]. unfold check_field.
  repeat case_match; rewrite ?get_report; reflexivity.
Qed.

(** X2. Whatever else is wrong with the record, the [required] category of
    the report lists exactly the required fields of the schema that the
    record lacks, once each and in the order of the schema; the category is
    absent when no required field is missing. *)
Theorem validate_schema_required_category (fromisoformat : string -> bool)
    (data : pyrecord) (schema : Schema) :
  get "required" (validate_schema fromisoformat data schema)
  = match missing_required data schema with
    | [] => None
    | missing => Some (map missing_message missing)
    end.
Proof.
  unfold validate_schema. cbv zeta.
  generalize (required_pass data schema []). cbn [get default app].
  generalize (fold_left (check_required data) schema []) as e0.
  intros e0 <-. induction data as [|item data IH] in e0 |- *; [reflexivity|].
  cbn [fold_left]. rewrite IH. apply check_field_required.
Qed.

(** A record without [id] and [status], and with a name of the wrong type. *)
Example campaign_missing_two :
  validate_schema (fun _ => true) [("name", PInt 5)] CAMPAIGN_SCHEMA
  = [ ("required", [ "Missing required field: id";
                     "Missing required field: status" ]);
      ("type", ["Field 'name' should be a string, got int"]) ].
Proof. vm_compute. reflexivity. Qed.

End ReportFacts.

(** ** Normalising twice *)

Module NormalizeTwiceFacts.
Import Py Normalize PyFacts NormalizeFacts.

Lemma chars_str (l : list ascii) : chars (str l) = l.
Proof. apply list_ascii_of_string_of_list_ascii. Qed.

Lemma of_chars (s : string) (l : list ascii) : chars s = l -> s = str l.
Proof. intros <-. by rewrite str_chars. Qed.

Lemma sign_not_digit (c : ascii) : is_digit c = true -> is_sign c = false.
Proof.
  intros Hd. unfold is_sign.
  destruct (bool_decide_reflect (c = "+"%char)) as [->|_]; [discriminate Hd|].
  destruct (bool_decide_reflect (c = "-"%char)) as [->|_]; [discriminate Hd|].
  reflexivity.
Qed.

(** A string whose last character is neither [Z] nor a line feed, and whose
    fifth character from the end is not a sign, is left as it is. *)
Lemma normalize_str_fixed (x : list ascii) (a b c d e : ascii) :
  is_sign a = false -> e <> LF -> e <> "Z"%char ->
  normalize_str (str (x ++ [a; b; c; d; e])) = str (x ++ [a; b; c; d; e]).
Proof.
  intros Ha HLF HZ. unfold normalize_str.
  assert (endswith (str (x ++ [a; b; c; d; e])) "Z" = false) as ->.
  { unfold endswith. rewrite chars_str, length_app. cbn [chars
      list_ascii_of_string length].
    replace (length x + 5 - 1)%nat with (length (x ++ [a; b; c; d]))
      by (rewrite length_app; cbn [length]; lia).
    replace (x ++ [a; b; c; d; e]) with ((x ++ [a; b; c; d]) ++ [e])
      by (by rewrite <- app_assoc).
    rewrite drop_app_length.
    rewrite bool_decide_eq_false_2 by congruence.
    apply andb_false_r. }
  assert (match_offset (str (x ++ [a; b; c; d; e])) = None) as ->;
    [|reflexivity].
  unfold match_offset. rewrite chars_str.
  replace (x ++ [a; b; c; d; e]) with ((x ++ [a; b; c; d]) ++ [e])
    by (by rewrite <- app_assoc).
  rewrite reverse_snoc, (bool_decide_eq_false_2 _ HLF).
  rewrite <- app_assoc. cbn [app]. rewrite length_app. cbn [length].
  replace (length x + 5 - 5)%nat with (length x) by lia.
  rewrite drop_app_length. by rewrite Ha.
Qed.

(** What a successful match returns. *)
Lemma match_offset_Some (s base hour minute : string) :
  match_offset s = Some (base, hour, minute) ->
  exists sg h1 h2 m1 m2,
    hour = str [sg; h1; h2] /\ minute = str [m1; m2]
    /\ is_digit h1 = true /\ is_digit m2 = true.
Proof.
  unfold match_offset.
  set (cs' := match reverse (chars s) with
              | [] => chars s
              | c :: r => if bool_decide (c = LF) then reverse r else chars s
              end).
  destruct (drop (length cs' - 5) cs') as [|sg [|h1 [|h2 [|m1 [|m2 [|? ?]]]]]];
    try discriminate.
  destruct (is_sign sg && is_digit h1 && is_digit h2 && is_digit m1
            && is_digit m2 && forallb is_dot (take (length cs' - 5) cs'))
    eqn:Hg; [|discriminate].
  intros [= <- <- <-].
  repeat (apply andb_prop in Hg as [Hg ?]).
  by exists sg, h1, h2, m1, m2.
Qed.

Lemma normalize_str_idempotent (s : string) :
  normalize_str (normalize_str s) = normalize_str s.
Proof.
  unfold normalize_str at 2 3.
  destruct (endswith s "Z") eqn:HZ.
  - rewrite (of_chars (drop_last 1 s +:+ "+00:00")
               ((chars (drop_last 1 s) ++ ["+"%char])
                ++ ["0"; "0"; ":"; "0"; "0"]%char)).
    + by apply normalize_str_fixed.
    + rewrite chars_app, <- app_assoc. reflexivity.
  - destruct (match_offset s) as [[[base hour] minute]|] eqn:Hm.
    + destruct (match_offset_Some _ _ _ _ Hm)
        as (sg & h1 & h2 & m1 & m2 & -> & -> & Hh1 & Hm2).
      rewrite (of_chars (base +:+ str [sg; h1; h2] +:+ ":" +:+ str [m1; m2])
                 ((chars base ++ [sg]) ++ [h1; h2; ":"%char; m1; m2])).
      * apply normalize_str_fixed.
        -- by apply sign_not_digit.
        -- by apply digit_not_LF.
        -- by apply digit_not_Z.
      * rewrite !chars_app, <- app_assoc. reflexivity.
    + unfold normalize_str. by rewrite HZ, Hm.
Qed.

(** X3. Both datetime normalisers are idempotent: a value that went through
    one of them is left unchanged by a second pass through either, whatever
    the value, so a record that is fetched and normalised again is not
    rewritten further. *)
Theorem normalize_datetime_idempotent (v : PyVal) :
  normalize_datetime (normalize_datetime v) = normalize_datetime v
  /\ normalize_activity_datetime (normalize_datetime v) = normalize_datetime v
  /\ normalize_datetime (normalize_activity_datetime v)
     = normalize_activity_datetime v
  /\ normalize_activity_datetime (normalize_activity_datetime v)
     = normalize_activity_datetime v.
Proof.
  rewrite !normalize_activity_datetime_eq.
  assert (normalize_datetime (normalize_datetime v) = normalize_datetime v)
    as H; [|by rewrite H].
  destruct v; try reflexivity.
  cbn [normalize_datetime]. by rewrite normalize_str_idempotent.
Qed.

End NormalizeTwiceFacts.

(** ** The validator on normalised timestamps *)

Module NormalizedFormatFacts.
Import Py Normalize Validator PyFacts NormalizeFacts NormalizeTwiceFacts.

Lemma endswith_chars (s suffix : string) :
  endswith s suffix = true ->
  chars s
  = take (length (chars s) - length (chars suffix)) (chars s) ++ chars suffix.
Proof.
  unfold endswith. intros [_ H%bool_decide_eq_true]%andb_prop.
  rewrite <- H at 2. by rewrite take_drop.
Qed.

Lemma not_endswith_Z (x : list ascii) (e : ascii) :
  e <> "Z"%char -> endswith (str (x ++ [e])) "Z" = false.
Proof.
  intros HZ. unfold endswith. rewrite chars_str, length_app.
  cbn [chars list_ascii_of_string length].
  replace (length x + 1 - 1)%nat with (length x) by lia.
  rewrite drop_app_length.
  rewrite bool_decide_eq_false_2 by congruence.
  apply andb_false_r.
Qed.

Lemma not_endswith_plus0000 (x : list ascii) (a b c d e : ascii) :
  is_sign a = false -> endswith (str (x ++ [a; b; c; d; e])) "+0000" = false.
Proof.
  intros Ha. unfold endswith. rewrite chars_str, length_app.
  cbn [chars list_ascii_of_string length].
  replace (length x + 5 - 5)%nat with (length x) by lia.
  rewrite drop_app_length.
  rewrite bool_decide_eq_false_2; [apply andb_false_r|].
  intros [= -> _ _ _ _]. discriminate Ha.
Qed.

(** The validator's own rewriting finds nothing to do on such a string. *)
Lemma datetime_parses_fixed (fromisoformat : string -> bool)
    (x : list ascii) (a b c d e : ascii) :
  is_sign a = false -> e <> "Z"%char ->
  datetime_parses fromisoformat (str (x ++ [a; b; c; d; e]))
  = fromisoformat (str (x ++ [a; b; c; d; e])).
Proof.
  intros Ha HZ.
  assert (endswith (str (x ++ [a; b; c; d; e])) "Z" = false) as H1.
  { replace (x ++ [a; b; c; d; e]) with ((x ++ [a; b; c; d]) ++ [e])
      by (by rewrite <- app_assoc).
    by apply not_endswith_Z. }
  unfold datetime_parses. cbv zeta. rewrite H1. cbv iota.
  by rewrite not_endswith_plus0000.
Qed.

(** A single-line string ending in [+0000] matches the offset pattern. *)
Lemma plus0000_matches (s : string) :
  single_line s -> endswith s "+0000" = true -> match_offset s <> None.
Proof.
  intros Hline Hend.
  pose proof (endswith_chars _ _ Hend) as Hs.
  set (base := take (length (chars s) - length (chars "+0000")) (chars s))
    in Hs.
  clearbody base.
  assert (s = str base +:+ offset "+" "0" "0" "0" "0") as Heq.
  { rewrite <- (str_chars s), Hs. symmetry. apply of_chars.
    by rewrite chars_app, !chars_str. }
  rewrite Heq, match_offset_app; try reflexivity; [discriminate|].
  unfold single_line in *. rewrite chars_str.
  rewrite Hs, forallb_app in Hline. by apply andb_prop in Hline as [? _].
Qed.

(** X4. On a single-line timestamp that went through the normaliser, the
    validator's format check is the verdict of [fromisoformat] on that very
    string: the validator's own rewriting of a final [Z] or [+0000] no
    longer applies, so the string that is checked is the string that is
    stored. *)
Theorem datetime_parses_normalized (fromisoformat : string -> bool)
    (s : string) :
  single_line s ->
  datetime_parses fromisoformat (normalize_str s)
  = fromisoformat (normalize_str s).
Proof.
  intros Hline. unfold normalize_str.
  destruct (endswith s "Z") eqn:HZ.
  - rewrite (of_chars (drop_last 1 s +:+ "+00:00")
               ((chars (drop_last 1 s) ++ ["+"%char])
                ++ ["0"; "0"; ":"; "0"; "0"]%char)).
    + by apply datetime_parses_fixed.
    + rewrite chars_app, <- app_assoc. reflexivity.
  - destruct (match_offset s) as [[[base hour] minute]|] eqn:Hm.
    + destruct (match_offset_Some _ _ _ _ Hm)
        as (sg & h1 & h2 & m1 & m2 & -> & -> & Hh1 & Hm2).
      rewrite (of_chars (base +:+ str [sg; h1; h2] +:+ ":" +:+ str [m1; m2])
                 ((chars base ++ [sg]) ++ [h1; h2; ":"%char; m1; m2])).
      * apply datetime_parses_fixed.
        -- by apply sign_not_digit.
        -- by apply digit_not_Z.
      * rewrite !chars_app, <- app_assoc. reflexivity.
    + unfold datetime_parses. rewrite HZ.
      destruct (endswith s "+0000") eqn:H0; [|reflexivity].
      by destruct (plus0000_matches s Hline H0).
Qed.

Lemma datetime_parses_normalized_witness :
  single_line "2024-05-01T10:00:00+0530"
  /\ datetime_parses (fun s => String.eqb s "2024-05-01T10:00:00+05:30")
       (normalize_str "2024-05-01T10:00:00+0530")
     = (fun s => String.eqb s "2024-05-01T10:00:00+05:30")
         (normalize_str "2024-05-01T10:00:00+0530").
Proof.
  split; [reflexivity|].
  apply (datetime_parses_normalized
           (fun s => String.eqb s "2024-05-01T10:00:00+05:30")
           "2024-05-01T10:00:00+0530").
  reflexivity.
Defined.

End NormalizedFormatFacts.

(** ** The cost of one wrapped call *)

Module BackoffBoundFacts.
Import Eff Backoff BackoffFacts Waiting.

(** The delays so far and the first one add up to the next delay. *)
Lemma total_delays (k : nat) :
  forall d : Q, (total (delays k d) + d == doubled k d)%Q.
Proof.
  induction k as [|k IH]; intros d; cbn [delays doubled total fold_right].
  - ring.
  - fold (total (delays k (d * 2))). rewrite <- IH. ring.
Qed.

Lemma doubled_mono (k : nat) :
  forall d d' : Q, (d <= d')%Q -> (doubled k d <= doubled k d')%Q.
Proof.
  induction k as [|k IH]; intros d d' H; cbn [doubled]; [exact H|].
  apply IH. apply Qmult_le_compat_r; [exact H | discriminate].
Qed.

Lemma doubled_S (k : nat) (d : Q) :
  (0 <= d)%Q -> (doubled k d <= doubled (S k) d)%Q.
Proof.
  intros H. cbn [doubled]. apply doubled_mono.
  assert (d * 2 == d + d)%Q as -> by ring.
  rewrite <- (Qplus_0_r d) at 1. by apply Qplus_le_r.
Qed.

Lemma doubled_le (k n : nat) (d : Q) :
  (0 <= d)%Q -> (k <= n)%nat -> (doubled k d <= doubled n d)%Q.
Proof.
  intros Hd Hkn. induction Hkn as [|n Hkn IH]; [apply Qle_refl|].
  eapply Qle_trans; [exact IH | by apply doubled_S].
Qed.

Lemma total_delays_le (k : nat) (d : Q) :
  (0 <= d)%Q -> (k <= 5)%nat -> (total (delays k d) <= 31 * d)%Q.
Proof.
  intros Hd Hk.
  assert (total (delays k d) == doubled k d - d)%Q as ->
    by (rewrite <- total_delays; ring).
  assert (31 * d == doubled 5 d - d)%Q as ->
    by (cbn [doubled]; ring).
  apply Qplus_le_l. by apply doubled_le.
Qed.

(** One run of the loop on any script: the calls it makes, and the sleeps
    it adds. *)
Lemma retry_loop_bounded {A : Type} (n : nat) :
  forall (attempt : nat) (d : Q) (tr : list Event) (script : Script A)
         (o : Outcome (option A)) (s' : St (Script A)),
    (0 <= d)%Q ->
    retry_loop n attempt d scripted {| world := script; trace := tr |}
    = (o, s') ->
    exists (calls : Script A) (k : nat),
      script = calls ++ world s'
      /\ (length calls <= n)%nat
      /\ (k <= length calls)%nat
      /\ sleeps (trace s') = sleeps tr ++ delays k d.
Proof.
  induction n as [|n IH]; intros attempt d tr script o s' Hd Hrun.
  - injection Hrun as <- <-. exists [], 0%nat. cbn [world trace].
    rewrite sleeps_app. cbn. by rewrite !app_nil_r.
  - cbn [retry_loop] in Hrun. unfold scripted at 1 in Hrun.
    cbn [world trace] in Hrun.
    destruct script as [|first script].
    { injection Hrun as <- <-. exists [], 0%nat. cbn.
      rewrite app_nil_r. repeat split; lia. }
    assert (Hstop : forall o' : Outcome (option A),
               (o', {| world := script; trace := tr |}) = (o, s') ->
               exists (calls : Script A) (k : nat),
                 first :: script = calls ++ world s'
                 /\ (length calls <= S n)%nat /\ (k <= length calls)%nat
                 /\ sleeps (trace s') = sleeps tr ++ delays k d).
    { intros o' [= <- <-]. exists [first], 0%nat. cbn. rewrite app_nil_r.
      repeat split; lia. }
    destruct first as [r|e|]; [by eapply Hstop | | by eapply Hstop].
    destruct e as [response| | | |]; try (by eapply Hstop).
    destruct (bool_decide (code_of response = Some RATE_LIMIT_CODE));
      [|by eapply Hstop].
    unfold bind, log, sleep, emit in Hrun. cbn [world trace] in Hrun.
    pose proof Hd as Hd'. apply Qle_bool_iff in Hd'. rewrite Hd' in Hrun.
    cbn [world trace] in Hrun.
    destruct (IH _ _ _ _ _ _ (double_nonneg d Hd) Hrun)
      as (calls & k & Hcalls & Hlen & Hk & Hsl).
    exists (Raised (HTTPError response) :: calls), (S k). repeat split.
    + cbn [app]. by rewrite <- Hcalls.
    + cbn [length]. lia.
    + cbn [length]. lia.
    + rewrite Hsl, !sleeps_app. cbn [delays]. cbn. by rewrite <- !app_assoc.
Qed.

(** X5. Whatever the upstream answers, one call through the backoff wrapper
    makes at most five requests, sleeps at most once per request made, with
    the doubling delays from the configured interval on, and so never waits
    more than 31 times the interval in all. *)
Theorem api_request_with_backoff_bounded {A : Type} (base : Q)
    (script : Script A) :
  (0 <= base)%Q ->
  exists (calls : Script A) (k : nat),
    let s' := (api_request_with_backoff base scripted
                 {| world := script; trace := [] |}).2 in
    script = calls ++ world s'
    /\ (k <= length calls <= 5)%nat
    /\ sleeps (trace s') = delays k base
    /\ (total (sleeps (trace s')) <= 31 * base)%Q.
Proof.
  intros Hbase. unfold api_request_with_backoff.
  destruct (retry_loop max_retries 0 base scripted
              {| world := script; trace := [] |}) as [o s'] eqn:Hrun.
  destruct (retry_loop_bounded max_retries 0 base [] script o s' Hbase Hrun)
    as (calls & k & Hcalls & Hlen & Hk & Hsl).
  exists calls, k. cbv zeta. cbn [snd sleeps omap app] in *.
  unfold max_retries in Hlen.
  repeat split; try assumption.
  rewrite Hsl. apply total_delays_le; [exact Hbase | lia].
Qed.

Lemma api_request_with_backoff_bounded_witness :
  (0 <= 1 # 2)%Q
  /\ exists (calls : Script Z) (k : nat),
      let s' := (api_request_with_backoff (1 # 2) scripted
                   {| world := replicate 7 rate_limit_error;
                      trace := [] |}).2 in
      replicate 7 rate_limit_error = calls ++ world s'
      /\ (k <= length calls <= 5)%nat
      /\ sleeps (trace s') = delays k (1 # 2)
      /\ (total (sleeps (trace s')) <= 31 * (1 # 2))%Q.
Proof.
  split; [discriminate|].
  apply (api_request_with_backoff_bounded (1 # 2)
           (replicate 7 rate_limit_error)).
  discriminate.
Defined.

End BackoffBoundFacts.

(** ** The paginated extractors, page by page *)

Module PaginationFacts.
Import Py Eff Sys Warehouse Backoff Extract Upstream BackoffFacts.

Section Pages.
Variable interval : Q.
Hypothesis interval_nonneg : (0 <= interval)%Q.
Variable project : pyrecord -> Tuple.

(** A request that is answered at once goes through the wrapper
    unchanged. *)
Lemma backoff_get_returned (url : string) (params : Params) (r : Response)
    (tail : Script Response) (reqs : list Request) (d : Database)
    (tr : list Event) :
  backoff_get recording interval url params (st (Returned r :: tail) reqs d tr)
  = (Returned (Some r), st tail (reqs ++ [(url, params)]) d tr).
Proof. reflexivity. Qed.

(** One turn of the loop on a page that [raise_for_status] lets through. *)
Lemma fetch_pages_step (fuel : nat) (url : string) (params : Params)
    (all : list Tuple) (r : Response) (tail : Script Response)
    (reqs : list Request) (d : Database) (tr : list Event) :
  good_page r = true ->
  fetch_pages recording interval (S fuel) project url params all
    (st (Returned r :: tail) reqs d tr)
  = match next_url r with
    | Some next =>
        fetch_pages recording interval fuel project next []
          (all ++ map project (json_data r))
          (st tail (reqs ++ [(url, params)]) d (tr ++ [Sleep interval]))
    | None =>
        (Returned (all ++ map project (json_data r)),
         st tail (reqs ++ [(url, params)]) d (tr ++ [Sleep interval]))
    end.
Proof.
  intros Hgood. cbn [fetch_pages]. unfold bind at 1.
  rewrite backoff_get_returned.
  unfold bind, sleep. apply Qle_bool_iff in interval_nonneg as ->.
  unfold emit, st. cbn [world trace upstream db].
  unfold raise_for_status. unfold good_page in Hgood.
  apply negb_true_iff in Hgood. rewrite Hgood. unfold ret at 1.
  unfold next_url.
  destruct (json_next r) as [next|]; [|reflexivity].
  by destruct (String.eqb next "").
Qed.

(** The loop takes a run of continuing pages one by one. *)
Lemma fetch_pages_skips (pages : list Response) :
  forall (fuel : nat) (url : string) (params : Params) (all : list Tuple)
         (tail : Script Response) (reqs : list Request) (d : Database)
         (tr : list Event),
    forallb good_page pages = true ->
    forallb continues pages = true ->
    fetch_pages recording interval (length pages + fuel) project url params
      all (st (map Returned pages ++ tail) reqs d tr)
    = fetch_pages recording interval fuel project
        (cursor url params pages).1 (cursor url params pages).2
        (all ++ rows_of_pages project pages)
        (st tail (reqs ++ followed url params pages) d
           (tr ++ replicate (length pages) (Sleep interval))).
Proof.
  induction pages as [|r pages IH];
    intros fuel url params all tail reqs d tr Hgood Hcont.
  - cbn. by rewrite !app_nil_r.
  - cbn [forallb] in Hgood, Hcont.
    apply andb_prop in Hgood as [Hr Hgood].
    apply andb_prop in Hcont as [Hc Hcont].
    cbn [length Nat.add map app].
    rewrite fetch_pages_step by exact Hr.
    unfold continues in Hc. cbn [cursor followed rows_of_pages map concat].
    destruct (next_url r) as [next|]; [|discriminate Hc].
    rewrite IH by assumption. cbn [default].
    unfold rows_of_pages. rewrite <- !app_assoc.
    cbn [app replicate]. reflexivity.
Qed.

(** Pages that continue, then one that does not: every row is returned. *)
Lemma fetch_pages_complete (pages : list Response) (last : Response)
    (fuel : nat) (url : string) (params : Params) (all : list Tuple)
    (tail : Script Response) (reqs : list Request) (d : Database)
    (tr : list Event) :
  forallb good_page (pages ++ [last]) = true ->
  forallb continues pages = true ->
  next_url last = None ->
  (length (pages ++ [last]) <= fuel)%nat ->
  fetch_pages recording interval fuel project url params all
    (st (map Returned (pages ++ [last]) ++ tail) reqs d tr)
  = (Returned (all ++ rows_of_pages project (pages ++ [last])),
     st tail (reqs ++ followed url params pages
                  ++ [cursor url params pages])
        d (tr ++ replicate (length (pages ++ [last])) (Sleep interval))).
Proof.
  intros Hgood Hcont Hlast Hfuel.
  rewrite forallb_app in Hgood. apply andb_prop in Hgood as [Hgood Hl].
  cbn [forallb] in Hl. rewrite andb_true_r in Hl.
  rewrite length_app in Hfuel |- *. cbn [length] in Hfuel |- *.
  replace fuel with (length pages + S (fuel - length pages - 1))%nat by lia.
  rewrite map_app, <- app_assoc. cbn [map app].
  rewrite fetch_pages_skips by assumption.
  destruct (cursor url params pages) as [u p].
  rewrite fetch_pages_step by exact Hl. rewrite Hlast.
  unfold rows_of_pages. rewrite map_app, concat_app. cbn [map concat].
  rewrite app_nil_r, <- !app_assoc.
  replace (length pages + 1)%nat with (S (length pages)) by lia.
  rewrite replicate_S_end. reflexivity.
Qed.



Lemma followed_snoc (pages : list Response) (last : Response) :
  forall (url : string) (params : Params),
    forallb continues pages = true ->
    followed url params (pages ++ [last])
    = followed url params pages ++ [cursor url params pages].
Proof.
  induction pages as [|r pages IH]; intros url params Hcont.
  - cbn. by destruct (next_url last).
  - cbn [forallb] in Hcont. apply andb_prop in Hcont as [Hc Hcont].
    unfold continues in Hc. cbn [app followed cursor].
    destruct (next_url r) as [next|]; [|discriminate Hc].
    cbn [default]. by rewrite IH.
Qed.


(** Pages that continue, then an error status: the loop raises. *)
Lemma fetch_pages_error (pages : list Response) (bad : Response)
    (fuel : nat) (url : string) (params : Params) (all : list Tuple)
    (tail : Script Response) (reqs : list Request) (d : Database)
    (tr : list Event) :
  forallb good_page pages = true ->
  forallb continues pages = true ->
  good_page bad = false ->
  (length pages < fuel)%nat ->
  fetch_pages recording interval fuel project url params all
    (st (map Returned pages ++ Returned bad :: tail) reqs d tr)
  = (Raised (HTTPError (Some bad)),
     st tail (reqs ++ followed url params pages
                   ++ [cursor url params pages])
        d (tr ++ replicate (S (length pages)) (Sleep interval))).
Proof.
  intros Hgood Hcont Hbad Hfuel.
  replace fuel with (length pages + S (fuel - length pages - 1))%nat by lia.
  rewrite fetch_pages_skips by assumption.
  destruct (cursor url params pages) as [u p]. cbn [fst snd].
  cbn [fetch_pages]. unfold bind at 1. rewrite backoff_get_returned.
  unfold bind, sleep. apply Qle_bool_iff in interval_nonneg as ->.
  unfold emit, st. cbn [world trace upstream db].
  unfold raise_for_status. unfold good_page in Hbad.
  apply negb_false_iff in Hbad. rewrite Hbad. unfold raise.
  rewrite replicate_S_end, <- !app_assoc. reflexivity.
Qed.

End Pages.

(** X6. Against an upstream that answers with pages of which each but the
    last names a continuation, the creative, ad-set and ad extractors
    return the rows of every page, in order; they ask for the first page at
    their own address with their parameters, and for each later page at the
    address the page before it named, with no parameters; they pause once
    per page and leave the warehouse alone. *)
Theorem paginated_extractors_complete (interval : Q) (acct token : string)
    (jd : PyVal -> string) (jdi : pyrecord -> string) (now hour : string)
    (pages : list Response) (last : Response) (fuel : nat)
    (tail : Script Response) (reqs : list Request) (d : Database)
    (tr : list Event) :
  (0 <= interval)%Q ->
  forallb good_page (pages ++ [last]) = true ->
  forallb continues pages = true ->
  next_url last = None ->
  (length (pages ++ [last]) <= fuel)%nat ->
  let s := st (map Returned (pages ++ [last]) ++ tail) reqs d tr in
  let done (what : string) (first : Request) (rows : list Tuple) :=
    (Returned rows,
     st tail (reqs ++ followed first.1 first.2 (pages ++ [last])) d
        (tr ++ replicate (length (pages ++ [last])) (Sleep interval)
            ++ [Log (FetchedTotal what (length rows))])) in
  fetch_adcreatives_batch recording acct token interval jd jdi now hour
    fuel s
  = done "adcreatives" (adcreatives_request acct token)
      (rows_of_pages (adcreative_tuple jd jdi now hour) (pages ++ [last]))
  /\ fetch_adsets_batch recording acct token interval jd jdi now hour fuel s
     = done "adsets" (adsets_request acct token)
         (rows_of_pages (adset_tuple jd jdi now hour) (pages ++ [last]))
  /\ fetch_ads_batch recording acct token interval jd jdi now hour fuel s
     = done "ads" (ads_request acct token)
         (rows_of_pages (ad_tuple jd jdi now hour) (pages ++ [last])).
Proof.
  intros Hint Hgood Hcont Hlast Hfuel s done. subst s done. cbv beta.
  rewrite !followed_snoc by exact Hcont.
  unfold fetch_adcreatives_batch, fetch_adsets_batch, fetch_ads_batch.
  unfold bind at 1 3 5.
  rewrite !fetch_pages_complete by assumption.
  unfold adcreatives_request, adsets_request, ads_request.
  unfold bind, log, emit, ret, st.
  cbn [world trace upstream db app fst snd].
  rewrite <- !app_assoc. repeat split.
Qed.

Lemma paginated_extractors_complete_witness :
  (fetch_adsets_batch recording "1" "token" (1 # 2) (fun _ => "{}")
     (fun _ => "{}") "2024-05-01T10:05:00+05:30" "2024-05-01T10:00:00+05:30"
     10 (st (map Returned ([page_1] ++ [page_2]) ++ []) [] ∅ [])).1
  = Returned
      (rows_of_pages
         (adset_tuple (fun _ => "{}") (fun _ => "{}")
            "2024-05-01T10:05:00+05:30" "2024-05-01T10:00:00+05:30")
         ([page_1] ++ [page_2])).
Proof.
  assert (H := paginated_extractors_complete (1 # 2) "1" "token"
                 (fun _ => "{}") (fun _ => "{}") "2024-05-01T10:05:00+05:30"
                 "2024-05-01T10:00:00+05:30" [page_1] page_2 10 [] [] ∅ []).
  cbv zeta in H.
  rewrite (proj1 (proj2 (H ltac:(discriminate) ltac:(reflexivity)
                           ltac:(reflexivity) ltac:(reflexivity)
                           ltac:(cbn; lia)))).
  reflexivity.
Defined.




(** X8. A page with an error status, in contrast, makes the creative,
    ad-set and ad extractors raise the HTTP error, after the pause: the
    rows of the pages before it are not returned. *)
Theorem paginated_extractors_error_status (interval : Q)
    (acct token : string) (jd : PyVal -> string) (jdi : pyrecord -> string)
    (now hour : string) (pages : list Response) (bad : Response)
    (fuel : nat) (tail : Script Response) (reqs : list Request)
    (d : Database) (tr : list Event) :
  (0 <= interval)%Q ->
  forallb good_page pages = true ->
  forallb continues pages = true ->
  good_page bad = false ->
  (length pages < fuel)%nat ->
  let s := st (map Returned pages ++ Returned bad :: tail) reqs d tr in
  let failed (first : Request) :=
    (Raised (HTTPError (Some bad)) : Outcome (list Tuple),
     st tail (reqs ++ followed first.1 first.2 pages
                   ++ [cursor first.1 first.2 pages])
        d (tr ++ replicate (S (length pages)) (Sleep interval))) in
  fetch_adcreatives_batch recording acct token interval jd jdi now hour
    fuel s
  = failed (adcreatives_request acct token)
  /\ fetch_adsets_batch recording acct token interval jd jdi now hour fuel s
     = failed (adsets_request acct token)
  /\ fetch_ads_batch recording acct token interval jd jdi now hour fuel s
     = failed (ads_request acct token).
Proof.
  intros Hint Hgood Hcont Hbad Hfuel s failed. subst s failed. cbv beta.
  unfold fetch_adcreatives_batch, fetch_adsets_batch, fetch_ads_batch.
  unfold bind at 1 3 5.
  rewrite !fetch_pages_error by assumption.
  repeat split.
Qed.

Lemma paginated_extractors_error_status_witness :
  (fetch_adsets_batch recording "1" "token" (1 # 2) (fun _ => "{}")
     (fun _ => "{}") "2024-05-01T10:05:00+05:30" "2024-05-01T10:00:00+05:30"
     10 (st (map Returned [page_1] ++ Returned server_error :: []) [] ∅ [])).1
  = Raised (HTTPError (Some server_error)).
Proof.
  assert (H := paginated_extractors_error_status (1 # 2) "1" "token"
                 (fun _ => "{}") (fun _ => "{}") "2024-05-01T10:05:00+05:30"
                 "2024-05-01T10:00:00+05:30" [page_1] server_error 10 [] []
                 ∅ []).
  cbv zeta in H.
  rewrite (proj1 (proj2 (H ltac:(discriminate) ltac:(reflexivity)
                           ltac:(reflexivity) ltac:(reflexivity)
                           ltac:(cbn; lia)))).
  reflexivity.
Defined.

End PaginationFacts.

(** ** The single-request extractors when the request fails *)

Module SingleRequestFacts.
Import Py Eff Sys Warehouse Backoff Extract Upstream BackoffFacts
  PaginationFacts.

Lemma logs_app (t1 t2 : list Event) : logs (t1 ++ t2) = logs t1 ++ logs t2.
Proof. unfold logs. apply omap_app. Qed.

Section Failing.
Variable interval : Q.
Hypothesis interval_nonneg : (0 <= interval)%Q.
Variables (acct token now hour since until : string).
Variable fromisoformat : string -> bool.
Variable repr : PyVal -> string.
Variable int_of_str : string -> option Z.
Variable float_of_str : string -> option Q.
Variable insights_filter : list PyVal -> string.
Variables (tail : Script Response) (reqs : list Request) (d : Database)
  (tr : list Event).

Section ErrorStatus.
Variable bad : Response.
Hypothesis bad_status : good_page bad = false.

Lemma raise_for_status_bad {U} (s : St (World U)) :
  raise_for_status bad s = (Raised (HTTPError (Some bad)), s).
Proof.
  unfold raise_for_status. unfold good_page in bad_status.
  apply negb_false_iff in bad_status. by rewrite bad_status.
Qed.

Lemma fetch_campaigns_error_status :
  swallowed
    (fetch_campaigns recording acct token interval fromisoformat repr now
       hour (st (Returned bad :: tail) reqs d tr))
    "campaigns" (HTTPError (Some bad)) 1 tail reqs d tr.
Proof.
  unfold fetch_campaigns. cbv zeta. unfold try_except, bind at 1.
  rewrite backoff_get_returned.
  unfold bind, need_response, ret, sleep.
  apply Qle_bool_iff in interval_nonneg as ->.
  unfold emit. cbn [st world trace upstream db].
  rewrite raise_for_status_bad. cbn [is_http_error].
  unfold log, emit. cbn [world trace upstream db].
  unfold swallowed. cbn [fst snd world trace upstream db pending seen].
  rewrite length_app, !logs_app. cbn. rewrite !app_nil_r.
  repeat split.
Qed.

Lemma fetch_activity_history_error_status :
  swallowed
    (fetch_activity_history recording acct token interval now hour since
       until (st (Returned bad :: tail) reqs d tr))
    "activity history" (HTTPError (Some bad)) 1 tail reqs d tr.
Proof.
  unfold fetch_activity_history. cbv zeta. unfold try_except, bind at 1.
  rewrite backoff_get_returned.
  unfold bind, need_response, ret, sleep.
  apply Qle_bool_iff in interval_nonneg as ->.
  unfold emit. cbn [st world trace upstream db].
  rewrite raise_for_status_bad. cbn [any_exception].
  unfold log, emit. cbn [world trace upstream db].
  unfold swallowed. cbn [fst snd world trace upstream db pending seen].
  rewrite length_app, !logs_app. cbn. rewrite !app_nil_r.
  repeat split.
Qed.

Lemma fetch_regionwise_insights_error_status :
  swallowed
    (fetch_regionwise_insights recording acct token interval now hour
       (st (Returned bad :: tail) reqs d tr))
    "regionwise insights" (HTTPError (Some bad)) 1 tail reqs d tr.
Proof.
  unfold fetch_regionwise_insights. cbv zeta. unfold try_except, bind at 1.
  rewrite backoff_get_returned.
  unfold bind, need_response, ret, sleep.
  apply Qle_bool_iff in interval_nonneg as ->.
  unfold emit. cbn [st world trace upstream db].
  rewrite raise_for_status_bad. cbn [any_exception].
  unfold log, emit. cbn [world trace upstream db].
  unfold swallowed. cbn [fst snd world trace upstream db pending seen].
  rewrite length_app, !logs_app. cbn. rewrite !app_nil_r.
  repeat split.
Qed.

Lemma fetch_ad_insights_error_status (ad_ids : list PyVal) :
  ad_ids <> [] ->
  swallowed
    (fetch_ad_insights recording acct token int_of_str float_of_str
       insights_filter ad_ids (st (Returned bad :: tail) reqs d tr))
    "ad insights" (HTTPError (Some bad)) 1 tail reqs d tr.
Proof.
  intros Hne. destruct ad_ids as [|a ad_ids]; [done|].
  unfold fetch_ad_insights. cbv zeta. unfold try_except, bind at 1.
  unfold http_get at 1, recording at 1.
  cbn [st world trace upstream db pending seen].
  unfold bind. rewrite raise_for_status_bad. cbn [any_exception].
  unfold log, emit, ret. cbn [world trace upstream db].
  unfold swallowed. cbn [fst snd world trace upstream db pending seen].
  rewrite length_app, !logs_app. cbn. rewrite ?app_nil_r.
  repeat split.
Qed.

End ErrorStatus.

Section Exhausted.
Variable errs : Script Response.
Hypothesis errs_limited : forallb rate_limited errs = true.
Hypothesis errs_five : length errs = 5%nat.




End Exhausted.

End Failing.

(** X9. An answer with an error status (4xx or 5xx) makes none of the four
    single-request extractors fail: the campaign, activity-history,
    regional-insight and hourly-insight extractors each make that one
    request, log the failure and return no rows, as if upstream had
    nothing to report. *)
Theorem single_request_extractors_error_status (interval : Q)
    (acct token now hour since until : string)
    (fromisoformat : string -> bool) (repr : PyVal -> string)
    (int_of_str : string -> option Z) (float_of_str : string -> option Q)
    (insights_filter : list PyVal -> string) (ad_ids : list PyVal)
    (bad : Response) (tail : Script Response) (reqs : list Request)
    (d : Database) (tr : list Event) :
  (0 <= interval)%Q ->
  good_page bad = false ->
  ad_ids <> [] ->
  let s := st (Returned bad :: tail) reqs d tr in
  swallowed
    (fetch_campaigns recording acct token interval fromisoformat repr now
       hour s)
    "campaigns" (HTTPError (Some bad)) 1 tail reqs d tr
  /\ swallowed
       (fetch_activity_history recording acct token interval now hour since
          until s)
       "activity history" (HTTPError (Some bad)) 1 tail reqs d tr
  /\ swallowed
       (fetch_regionwise_insights recording acct token interval now hour s)
       "regionwise insights" (HTTPError (Some bad)) 1 tail reqs d tr
  /\ swallowed
       (fetch_ad_insights recording acct token int_of_str float_of_str
          insights_filter ad_ids s)
       "ad insights" (HTTPError (Some bad)) 1 tail reqs d tr.
Proof.
  intros Hint Hbad Hids s. subst s. split; [|split; [|split]].
  - by apply fetch_campaigns_error_status.
  - by apply fetch_activity_history_error_status.
  - by apply fetch_regionwise_insights_error_status.
  - by apply fetch_ad_insights_error_status.
Qed.

Lemma single_request_extractors_error_status_witness :
  (fetch_campaigns recording "1" "token" (1 # 2) (fun _ => true)
     (fun _ => "") "2024-05-01T10:05:00+05:30" "2024-05-01T10:00:00+05:30"
     (st (Returned server_error :: []) [] ∅ [])).1
  = Returned [].
Proof.
  exact (proj1 (proj1 (single_request_extractors_error_status (1 # 2) "1"
                         "token" "2024-05-01T10:05:00+05:30"
                         "2024-05-01T10:00:00+05:30" "2024-05-01" "2024-05-01"
                         (fun _ => true) (fun _ => "") (fun _ => None)
                         (fun _ => None) (fun _ => "[]") [PStr "a1"]
                         server_error [] [] ∅ []
                         ltac:(discriminate) ltac:(reflexivity)
                         ltac:(discriminate)))).
Defined.


End SingleRequestFacts.

(** ** The rows of a successful single request *)

Module AcceptedFacts.
Import Py Eff Sys Warehouse Validator Backoff Extract Upstream Accepted
  PaginationFacts.

Section Campaigns.
Context {U : Type}.
Variable acct : string.
Variable fromisoformat : string -> bool.
Variable repr : PyVal -> string.
Variables (now hour : string).

(** The loop over the items is a filter: an item is kept when it validates
    after normalisation, and logged otherwise. *)
Lemma for_each_campaign_item (items : list pyrecord) :
  forall (acc : list Tuple) (s : St (World U)),
    for_each items (campaign_item acct fromisoformat repr now hour) acc s
    = (Returned (acc ++ campaign_rows acct fromisoformat repr now hour items),
       {| world := world s;
          trace := trace s ++ campaign_warnings fromisoformat items |}).
Proof.
  induction items as [|item items IH]; intros acc s.
  - cbn. rewrite !app_nil_r. by destruct s.
  - cbn [for_each]. unfold bind at 1, campaign_item at 1. cbv zeta.
    fold (normalized item). rewrite ValidFacts.has_errors_valid.
    unfold campaign_rows, campaign_warnings. cbn [List.filter].
    fold (accepted fromisoformat item).
    destruct (accepted fromisoformat item); cbn [negb map].
    + unfold ret at 1. rewrite IH. unfold campaign_rows, campaign_warnings.
      by rewrite <- app_assoc.
    + unfold bind at 1, log, emit, ret at 1. rewrite IH.
      unfold campaign_rows, campaign_warnings. cbn [world trace].
      by rewrite <- app_assoc.
Qed.
End Campaigns.

Section Insights.
Context {U : Type}.
Variable int_of_str : string -> option Z.
Variable float_of_str : string -> option Q.

End Insights.

Section OnePage.
Variable interval : Q.
Hypothesis interval_nonneg : (0 <= interval)%Q.
Variables (acct token now hour since until : string).
Variable fromisoformat : string -> bool.
Variable repr : PyVal -> string.
Variable int_of_str : string -> option Z.
Variable float_of_str : string -> option Q.
Variable insights_filter : list PyVal -> string.
Variables (tail : Script Response) (reqs : list Request) (d : Database)
  (tr : list Event).
Variable r : Response.
Hypothesis r_good : good_page r = true.

Lemma raise_for_status_good {U} (s : St (World U)) :
  raise_for_status r s = (Returned tt, s).
Proof.
  unfold raise_for_status. unfold good_page in r_good.
  apply negb_true_iff in r_good. by rewrite r_good.
Qed.

Lemma fetch_campaigns_page :
  fetch_campaigns recording acct token interval fromisoformat repr now hour
    (st (Returned r :: tail) reqs d tr)
  = (Returned (campaign_rows acct fromisoformat repr now hour (json_data r)),
     st tail
        (reqs ++ [(BASE_URL +:+ "/act_" +:+ acct +:+ "/campaigns",
                   [("fields", "id,name,status,objective,buying_type,special_ad_categories,start_time,end_time");
                    ("access_token", token)])])
        d
        (tr ++ Sleep interval
            :: campaign_warnings fromisoformat (json_data r)
            ++ [Log (FetchedTotal "campaigns"
                       (length (campaign_rows acct fromisoformat repr now
                                  hour (json_data r))))])).
Proof.
  unfold fetch_campaigns. cbv zeta. unfold try_except, bind at 1.
  rewrite backoff_get_returned.
  unfold bind at 1, need_response, ret at 1.
  unfold bind at 1, sleep.
  apply Qle_bool_iff in interval_nonneg as ->.
  unfold emit at 1. cbn [st world trace upstream db].
  unfold bind at 1. rewrite raise_for_status_good.
  unfold bind at 1. rewrite for_each_campaign_item.
  unfold bind, log, emit, ret. cbn [app world trace].
  by rewrite <- !app_assoc.
Qed.

Lemma fetch_activity_history_page :
  ends
    (fetch_activity_history recording acct token interval now hour since
       until (st (Returned r :: tail) reqs d tr))
    (Returned (map (activity_tuple now hour) (json_data r)))
    1 tail reqs d (sleeps tr ++ [interval]).
Proof.
  unfold fetch_activity_history. cbv zeta. unfold try_except, bind at 1.
  rewrite backoff_get_returned.
  unfold bind at 1, need_response, ret at 1.
  unfold bind at 1, sleep.
  apply Qle_bool_iff in interval_nonneg as ->.
  unfold emit at 1. cbn [st world trace upstream db].
  unfold bind at 1. rewrite raise_for_status_good.
  unfold bind, log, emit, ret, ends.
  cbn [fst snd world trace upstream db pending seen].
  rewrite length_app, !BackoffFacts.sleeps_app. cbn. rewrite app_nil_r.
  repeat split.
Qed.

Lemma fetch_regionwise_insights_page :
  ends
    (fetch_regionwise_insights recording acct token interval now hour
       (st (Returned r :: tail) reqs d tr))
    (Returned (map (regionwise_tuple now hour) (json_data r)))
    1 tail reqs d (sleeps tr ++ [interval]).
Proof.
  unfold fetch_regionwise_insights. cbv zeta. unfold try_except, bind at 1.
  rewrite backoff_get_returned.
  unfold bind at 1, need_response, ret at 1.
  unfold bind at 1, sleep.
  apply Qle_bool_iff in interval_nonneg as ->.
  unfold emit at 1. cbn [st world trace upstream db].
  unfold bind at 1. rewrite raise_for_status_good.
  unfold bind, log, emit, ret, ends.
  cbn [fst snd world trace upstream db pending seen].
  rewrite length_app, !BackoffFacts.sleeps_app. cbn. rewrite app_nil_r.
  repeat split.
Qed.

End OnePage.

(** X11. On a page that passes the status check, the campaign extractor
    returns the rows of exactly those items that validate against the
    campaign schema once their two timestamps are normalised, in the order
    of the page, and logs one warning for each of the others; the
    activity-history and regional-insight extractors validate nothing and
    turn every item of the page into a row. Each makes one request and
    pauses once. *)
Theorem single_request_extractors_rows (interval : Q)
    (acct token now hour since until : string)
    (fromisoformat : string -> bool) (repr : PyVal -> string)
    (r : Response) (tail : Script Response) (reqs : list Request)
    (d : Database) (tr : list Event) :
  (0 <= interval)%Q ->
  good_page r = true ->
  let s := st (Returned r :: tail) reqs d tr in
  let campaigns :=
    fetch_campaigns recording acct token interval fromisoformat repr now
      hour s in
  let rows := campaign_rows acct fromisoformat repr now hour (json_data r) in
  ends campaigns (Returned rows) 1 tail reqs d (sleeps tr ++ [interval])
  /\ logs (trace campaigns.2)
     = logs tr ++ logs (campaign_warnings fromisoformat (json_data r))
              ++ [FetchedTotal "campaigns" (length rows)]
  /\ ends
       (fetch_activity_history recording acct token interval now hour since
          until s)
       (Returned (map (activity_tuple now hour) (json_data r)))
       1 tail reqs d (sleeps tr ++ [interval])
  /\ ends
       (fetch_regionwise_insights recording acct token interval now hour s)
       (Returned (map (regionwise_tuple now hour) (json_data r)))
       1 tail reqs d (sleeps tr ++ [interval]).
Proof.
  intros Hint Hgood s campaigns rows. subst s campaigns rows.
  rewrite fetch_campaigns_page by assumption.
  split; [|split; [|split]].
  - unfold ends, st. cbn [fst snd world trace upstream db pending seen].
    rewrite length_app. repeat split.
    rewrite BackoffFacts.sleeps_app. f_equal.
    change (Sleep interval :: ?l) with ([Sleep interval] ++ l).
    rewrite !BackoffFacts.sleeps_app. cbn [sleeps omap].
    unfold campaign_warnings, campaign_warning.
    induction (List.filter _ (json_data r)) as [|x l IH]; [reflexivity|].
    exact IH.
  - unfold st. cbn [snd trace].
    change (Sleep interval :: ?l) with ([Sleep interval] ++ l).
    by rewrite !SingleRequestFacts.logs_app.
  - by apply fetch_activity_history_page.
  - by apply fetch_regionwise_insights_page.
Qed.

Lemma single_request_extractors_rows_witness :
  (fetch_campaigns recording "1" "token" (1 # 2) (fun _ => true)
     (fun _ => "") "2024-05-01T10:05:00+05:30" "2024-05-01T10:00:00+05:30"
     (st (Returned page_2 :: []) [] ∅ [])).1
  = Returned
      (campaign_rows "1" (fun _ => true) (fun _ => "")
         "2024-05-01T10:05:00+05:30" "2024-05-01T10:00:00+05:30"
         (json_data page_2)).
Proof.
  exact (proj1 (proj1 (single_request_extractors_rows (1 # 2) "1" "token"
                         "2024-05-01T10:05:00+05:30"
                         "2024-05-01T10:00:00+05:30" "2024-05-01" "2024-05-01"
                         (fun _ => true) (fun _ => "") page_2 [] [] ∅ []
                         ltac:(discriminate) ltac:(reflexivity)))).
Defined.



End AcceptedFacts.

(** ** Converting the numeric fields of an insight *)

Module CoerceFacts.
Import Py Extract Accepted.

Section Dict.
Context {V : Type}.

Lemma get_set_eq (k : string) (v : V) (d : dict V) :
  get k (set k v d) = Some v.
Proof.
  induction d as [|[k' v'] d IH]; cbn [set get].
  - by rewrite String.eqb_refl.
  - destruct (String.eqb k k') eqn:E; cbn [get]; rewrite E; [done | exact IH].
Qed.

Lemma get_set_ne (k k' : string) (v : V) (d : dict V) :
  k' <> k -> get k' (set k v d) = get k' d.
Proof.
  intros Hne. induction d as [|[k0 v0] d IH]; cbn [set get].
  - by apply String.eqb_neq in Hne as ->.
  - destruct (String.eqb_spec k k0) as [->|Hk]; cbn [get].
    + by apply String.eqb_neq in Hne as ->.
    + by rewrite IH.
Qed.

(** Assigning to a key the dict has keeps the keys and their order. *)
Lemma keys_set (k : string) (v v0 : V) (d : dict V) :
  get k d = Some v0 -> keys (set k v d) = keys d.
Proof.
  unfold keys. induction d as [|[k' v'] d IH]; cbn [set get map fst].
  - discriminate.
  - destruct (String.eqb k k'); cbn [map fst]; [done|].
    intros H. by rewrite IH.
Qed.
End Dict.

(** One conversion: the keys stay, the other fields stay, and the field
    itself, if the insight has it, holds the converted value, or the zero
    when the value is falsy. *)
Lemma coerce_spec (k : string) (conv : PyVal -> option PyVal) (zero : PyVal)
    (insight insight' : pyrecord) :
  coerce k conv zero insight = Some insight' ->
  keys insight' = keys insight
  /\ (forall k', k' <> k -> get k' insight' = get k' insight)
  /\ match get k insight with
     | None => get k insight' = None
     | Some v =>
         if truthy v
         then exists v', conv v = Some v' /\ get k insight' = Some v'
         else get k insight' = Some zero
     end.
Proof.
  unfold coerce. destruct (get k insight) as [v|] eqn:Hk.
  - destruct (truthy v).
    + destruct (conv v) as [v'|]; [|discriminate]. intros [= <-].
      repeat split.
      * by eapply keys_set.
      * intros k' Hne. by apply get_set_ne.
      * exists v'. split; [done | apply get_set_eq].
    + intros [= <-]. repeat split.
      * by eapply keys_set.
      * intros k' Hne. by apply get_set_ne.
      * apply get_set_eq.
  - intros [= <-]. by rewrite Hk.
Qed.

Section Conversions.
Variable int_of_str : string -> option Z.
Variable float_of_str : string -> option Q.

Lemma to_int_spec (k : string) (insight insight' : pyrecord) :
  coerce k (to_int int_of_str) (PInt 0) insight = Some insight' ->
  int_field int_of_str insight insight' k.
Proof.
  intros H. apply coerce_spec in H as (_ & _ & H). unfold int_field.
  destruct (get k insight) as [v|]; [|exact H].
  destruct (truthy v).
  - destruct H as (v' & Hconv & Hget). unfold to_int in Hconv.
    destruct (py_int int_of_str v) as [z|]; [|discriminate].
    injection Hconv as <-. by exists z.
  - by exists 0.
Qed.

Lemma to_float_spec (k : string) (insight insight' : pyrecord) :
  coerce k (to_float float_of_str) (PFloat 0) insight = Some insight' ->
  float_field float_of_str insight insight' k.
Proof.
  intros H. apply coerce_spec in H as (_ & _ & H). unfold float_field.
  destruct (get k insight) as [v|]; [|exact H].
  destruct (truthy v).
  - destruct H as (v' & Hconv & Hget). unfold to_float in Hconv.
    destruct (py_float float_of_str v) as [q|]; [|discriminate].
    injection Hconv as <-. by exists q.
  - by exists 0%Q.
Qed.

(** A field is converted once: steps on other keys pass it on. *)
Lemma int_field_frame (a b b' : pyrecord) (k : string) :
  get k a = get k b -> int_field int_of_str b b' k ->
  forall c, get k c = get k b' -> int_field int_of_str a c k.
Proof. unfold int_field. intros -> H c ->. exact H. Qed.

Lemma float_field_frame (a b b' : pyrecord) (k : string) :
  get k a = get k b -> float_field float_of_str b b' k ->
  forall c, get k c = get k b' -> float_field float_of_str a c k.
Proof. unfold float_field. intros -> H c ->. exact H. Qed.

Lemma coerce_insight_spec (insight insight' : pyrecord) :
  coerce_insight int_of_str float_of_str insight = Some insight' ->
  keys insight' = keys insight
  /\ Forall (int_field int_of_str insight insight') INT_FIELDS
  /\ Forall (float_field float_of_str insight insight') FLOAT_FIELDS
  /\ (forall k, k ∉ INT_FIELDS ++ FLOAT_FIELDS ->
                get k insight' = get k insight).
Proof.
  unfold coerce_insight. intros H.
  destruct (coerce "clicks" _ _ insight) as [i1|] eqn:E1; [|discriminate].
  cbn [mbind option_bind] in H.
  destruct (coerce "impressions" _ _ i1) as [i2|] eqn:E2; [|discriminate].
  cbn [mbind option_bind] in H.
  destruct (coerce "reach" _ _ i2) as [i3|] eqn:E3; [|discriminate].
  cbn [mbind option_bind] in H.
  destruct (coerce "spend" _ _ i3) as [i4|] eqn:E4; [|discriminate].
  cbn [mbind option_bind] in H.
  destruct (coerce "ctr" _ _ i4) as [i5|] eqn:E5; [|discriminate].
  cbn [mbind option_bind] in H. rename H into E6.
  pose proof (to_int_spec _ _ _ E1) as T1.
  pose proof (to_int_spec _ _ _ E2) as T2.
  pose proof (to_int_spec _ _ _ E3) as T3.
  pose proof (to_float_spec _ _ _ E4) as T4.
  pose proof (to_float_spec _ _ _ E5) as T5.
  pose proof (to_float_spec _ _ _ E6) as T6.
  apply coerce_spec in E1 as (K1 & O1 & _).
  apply coerce_spec in E2 as (K2 & O2 & _).
  apply coerce_spec in E3 as (K3 & O3 & _).
  apply coerce_spec in E4 as (K4 & O4 & _).
  apply coerce_spec in E5 as (K5 & O5 & _).
  apply coerce_spec in E6 as (K6 & O6 & _).
  split; [congruence|]. split; [|split].
  - repeat apply List.Forall_cons; [ | | | apply List.Forall_nil].
    + apply (int_field_frame _ insight i1); [done | exact T1 |].
      rewrite O6, O5, O4, O3, O2 by discriminate. reflexivity.
    + apply (int_field_frame _ i1 i2); [by rewrite O1 | exact T2 |].
      rewrite O6, O5, O4, O3 by discriminate. reflexivity.
    + apply (int_field_frame _ i2 i3);
        [by rewrite O2, O1 by discriminate | exact T3 |].
      rewrite O6, O5, O4 by discriminate. reflexivity.
  - repeat apply List.Forall_cons; [ | | | apply List.Forall_nil].
    + apply (float_field_frame _ i3 i4);
        [by rewrite O3, O2, O1 by discriminate | exact T4 |].
      rewrite O6, O5 by discriminate. reflexivity.
    + apply (float_field_frame _ i4 i5);
        [by rewrite O4, O3, O2, O1 by discriminate | exact T5 |].
      rewrite O6 by discriminate. reflexivity.
    + apply (float_field_frame _ i5 insight');
        [by rewrite O5, O4, O3, O2, O1 by discriminate | exact T6 | done].
  - intros k Hk. unfold INT_FIELDS, FLOAT_FIELDS in Hk. cbn [app] in Hk.
    rewrite !not_elem_of_cons in Hk.
    destruct Hk as (? & ? & ? & ? & ? & ? & _).
    rewrite O6, O5, O4, O3, O2, O1 by assumption. reflexivity.
Qed.
End Conversions.

(** X13. When the conversion of an insight succeeds, the result has the
    fields of the insight, in the same order; [clicks], [impressions] and
    [reach], where present, hold an integer, and [spend], [ctr] and [cpp] a
    float: the converted value, or zero when the value was falsy (empty,
    zero or null); every other field is unchanged. *)
Theorem coerce_insight_conversions (int_of_str : string -> option Z)
    (float_of_str : string -> option Q) (insight insight' : pyrecord) :
  coerce_insight int_of_str float_of_str insight = Some insight' ->
  keys insight' = keys insight
  /\ Forall (int_field int_of_str insight insight') INT_FIELDS
  /\ Forall (float_field float_of_str insight insight') FLOAT_FIELDS
  /\ (forall k, k ∉ INT_FIELDS ++ FLOAT_FIELDS ->
                get k insight' = get k insight).
Proof. apply coerce_insight_spec. Qed.

Lemma coerce_insight_conversions_witness :
  keys (default [] (coerce_insight Sample.int_of_str Sample.float_of_str
                      (Sample.insight "a1" "s1" "10" "" "12.5")))
  = keys (Sample.insight "a1" "s1" "10" "" "12.5").
Proof.
  exact (proj1 (coerce_insight_conversions Sample.int_of_str
                  Sample.float_of_str
                  (Sample.insight "a1" "s1" "10" "" "12.5")
                  (default [] (coerce_insight Sample.int_of_str
                                 Sample.float_of_str
                                 (Sample.insight "a1" "s1" "10" "" "12.5")))
                  ltac:(reflexivity))).
Defined.

End CoerceFacts.

(** ** Frame properties *)

Module FrameFacts.
Import Py Eff Sys Warehouse Queries Backoff Extract Load Frame.

Section Generic.
Context {W : Type}.
Variable I : St W -> St W -> Prop.
Hypothesis I_refl : forall s, I s s.
Hypothesis I_trans : forall s1 s2 s3, I s1 s2 -> I s2 s3 -> I s1 s3.

Lemma preserves_ret {X} (x : X) : preserves I (ret x).
Proof. intros s. apply I_refl. Qed.

Lemma preserves_raise {X} (e : Exn) : preserves I (raise e : M W X).
Proof. intros s. apply I_refl. Qed.

Lemma preserves_out_of_fuel {X} : preserves I (out_of_fuel : M W X).
Proof. intros s. apply I_refl. Qed.

Lemma preserves_bind {X Y} (m : M W X) (k : X -> M W Y) :
  preserves I m -> (forall x, preserves I (k x)) -> preserves I (bind m k).
Proof.
  intros Hm Hk s. unfold bind. specialize (Hm s).
  destruct (m s) as [[x|e|] s1]; cbn [snd] in *; [|exact Hm|exact Hm].
  eapply I_trans; [exact Hm | apply Hk].
Qed.

Lemma preserves_try_except {X} (m : M W X) (handled : Exn -> bool)
    (handler : Exn -> M W X) :
  preserves I m -> (forall e, preserves I (handler e)) ->
  preserves I (try_except m handled handler).
Proof.
  intros Hm Hh s. unfold try_except. specialize (Hm s).
  destruct (m s) as [[x|e|] s1]; cbn [snd] in *; [exact Hm| |exact Hm].
  destruct (handled e); [|exact Hm].
  eapply I_trans; [exact Hm | apply Hh].
Qed.

Lemma preserves_for_each {X S} (l : list X) (body : S -> X -> M W S) :
  (forall acc x, preserves I (body acc x)) ->
  forall acc, preserves I (for_each l body acc).
Proof.
  intros Hbody. induction l as [|x l IH]; intros acc; cbn [for_each].
  - apply preserves_ret.
  - apply preserves_bind; [apply Hbody | exact IH].
Qed.

Lemma preserves_if {X} (b : bool) (m1 m2 : M W X) :
  preserves I m1 -> preserves I m2 -> preserves I (if b then m1 else m2).
Proof. by destruct b. Qed.

(** What the computation appends to the trace is harmless. *)
Hypothesis emit_ok :
  forall ev, is_step_event ev = false -> preserves I (emit ev).

Lemma preserves_sleep (seconds : Q) : preserves I (sleep seconds).
Proof.
  unfold sleep. apply preserves_if; [by apply emit_ok | apply preserves_raise].
Qed.

Lemma preserves_retry_loop {A} (request_func : M W A) (n : nat) :
  preserves I request_func ->
  forall attempt delay, preserves I (retry_loop n attempt delay request_func).
Proof.
  intros Hreq. induction n as [|n IH]; intros attempt delay; cbn [retry_loop].
  - apply preserves_bind; [by apply emit_ok | intros _; apply preserves_ret].
  - intros s. specialize (Hreq s).
    destruct (request_func s) as [[r|e|] s1]; cbn [snd] in *;
      [exact Hreq | | exact Hreq].
    destruct e as [response| | | |]; try exact Hreq.
    destruct (bool_decide _); [|exact Hreq].
    eapply I_trans; [exact Hreq|].
    apply preserves_bind; [by apply emit_ok|]. intros _.
    apply preserves_bind; [apply preserves_sleep|]. intros _. apply IH.
Qed.
End Generic.

Section World.
Context {U : Type}.
Variable I : St (World U) -> St (World U) -> Prop.
Hypothesis I_refl : forall s, I s s.
Hypothesis I_trans : forall s1 s2 s3, I s1 s2 -> I s2 s3 -> I s1 s3.
Hypothesis emit_ok :
  forall ev, is_step_event ev = false -> preserves I (emit ev).

(** One step on the shape of the computation. *)
Ltac frame_step :=
  lazymatch goal with
  | |- preserves _ (ret _) => apply (preserves_ret I I_refl)
  | |- preserves _ (raise _) => apply (preserves_raise I I_refl)
  | |- preserves _ out_of_fuel => apply (preserves_out_of_fuel I I_refl)
  | |- preserves _ (sleep _) => apply (preserves_sleep I I_refl emit_ok)
  | |- preserves _ (emit _) => apply emit_ok; reflexivity
  | |- preserves _ (log _) => unfold log
  | |- preserves _ (Eff.bind _ _) =>
      apply (preserves_bind I I_trans); [|intros ?]
  | |- preserves _ (try_except _ _ _) =>
      apply (preserves_try_except I I_trans); [|intros ?]
  | |- preserves _ (for_each _ _ _) =>
      apply (preserves_for_each I I_refl I_trans); intros ? ?
  | |- preserves _ (if _ then _ else _) => apply (preserves_if I)
  end.

Ltac frame := repeat frame_step.

Lemma preserves_read_db : preserves I read_db.
Proof. intros s. apply I_refl. Qed.

Lemma preserves_map_m {X Y} (f : X -> M (World U) Y) (l : list X) :
  (forall x, preserves I (f x)) -> preserves I (Main.map_m f l).
Proof.
  intros Hf. induction l as [|x l IH]; cbn [Main.map_m]; frame;
    [apply Hf | exact IH].
Qed.

Lemma preserves_filter_adsets (adsets : list Tuple) :
  preserves I (filter_adsets_with_existing_campaigns adsets).
Proof.
  unfold filter_adsets_with_existing_campaigns.
  destruct adsets as [|a adsets]; frame; [apply preserves_read_db|].
  destruct (comprehension _ _ _); frame.
Qed.

Section Client.
Variable client : Client U.
Hypothesis get_ok : forall url params, preserves I (http_get client url params).

Lemma preserves_raise_for_status (r : Response) :
  preserves I (raise_for_status r).
Proof. unfold raise_for_status. frame. Qed.

Lemma preserves_backoff_get (interval : Q) (url : string) (params : Params) :
  preserves I (backoff_get client interval url params).
Proof.
  unfold backoff_get, api_request_with_backoff.
  apply (preserves_retry_loop I I_refl I_trans emit_ok). apply get_ok.
Qed.

Lemma preserves_need_response (response : option Response) :
  preserves I (need_response response).
Proof. unfold need_response. destruct response; frame. Qed.

Lemma preserves_fetch_pages (interval : Q) (project : pyrecord -> Tuple)
    (fuel : nat) :
  forall url params all,
    preserves I (fetch_pages client interval fuel project url params all).
Proof.
  induction fuel as [|fuel IH]; intros url params all; cbn [fetch_pages];
    frame.
  - apply preserves_backoff_get.
  - match goal with |- preserves I (match ?x with _ => _ end) =>
      destruct x as [r|] end; frame.
    + apply preserves_raise_for_status.
    + destruct (json_next r) as [next|]; frame. apply IH.
Qed.

Variables (acct token now hour since until : string).
Variable interval : Q.
Variable fromisoformat : string -> bool.
Variable repr : PyVal -> string.
Variable jd : PyVal -> string.
Variable jdi : pyrecord -> string.
Variable int_of_str : string -> option Z.
Variable float_of_str : string -> option Q.
Variable insights_filter : list PyVal -> string.

Lemma preserves_fetch_campaigns :
  preserves I
    (fetch_campaigns client acct token interval fromisoformat repr now hour).
Proof.
  unfold fetch_campaigns. cbv zeta. frame.
  - apply preserves_backoff_get.
  - apply preserves_need_response.
  - apply preserves_raise_for_status.
  - unfold campaign_item. cbv zeta. frame.
Qed.

Lemma preserves_fetch_activity_history :
  preserves I
    (fetch_activity_history client acct token interval now hour since until).
Proof.
  unfold fetch_activity_history. cbv zeta. frame.
  - apply preserves_backoff_get.
  - apply preserves_need_response.
  - apply preserves_raise_for_status.
Qed.

Lemma preserves_fetch_regionwise_insights :
  preserves I (fetch_regionwise_insights client acct token interval now hour).
Proof.
  unfold fetch_regionwise_insights. cbv zeta. frame.
  - apply preserves_backoff_get.
  - apply preserves_need_response.
  - apply preserves_raise_for_status.
Qed.

Lemma preserves_fetch_adcreatives_batch (fuel : nat) :
  preserves I
    (fetch_adcreatives_batch client acct token interval jd jdi now hour fuel).
Proof.
  unfold fetch_adcreatives_batch. cbv zeta. frame.
  apply preserves_fetch_pages.
Qed.

Lemma preserves_fetch_adsets_batch (fuel : nat) :
  preserves I
    (fetch_adsets_batch client acct token interval jd jdi now hour fuel).
Proof.
  unfold fetch_adsets_batch. cbv zeta. frame. apply preserves_fetch_pages.
Qed.

Lemma preserves_fetch_ads_batch (fuel : nat) :
  preserves I
    (fetch_ads_batch client acct token interval jd jdi now hour fuel).
Proof.
  unfold fetch_ads_batch. cbv zeta. frame. apply preserves_fetch_pages.
Qed.

Lemma preserves_fetch_ad_insights (ad_ids : list PyVal) :
  preserves I
    (fetch_ad_insights client acct token int_of_str float_of_str
       insights_filter ad_ids).
Proof.
  unfold fetch_ad_insights. destruct ad_ids as [|a ad_ids]; cbv zeta; frame.
  - apply get_ok.
  - apply preserves_raise_for_status.
  - unfold insight_item. destruct (coerce_insight _ _ _); frame.
Qed.
End Client.

Section Writer.
(** The statements the computation may run. *)
Variable allowed : Upsert -> Prop.
Variable NOW : PyVal.
Hypothesis bulk_ok :
  forall u rows, allowed u -> preserves I (bulk NOW u rows).

Lemma preserves_upsert_batch (what : string) (u : Upsert)
    (rows : list Tuple) :
  allowed u -> preserves I (upsert_batch NOW what u rows).
Proof.
  intros Hu. unfold upsert_batch. destruct rows as [|t rows]; frame.
  by apply bulk_ok.
Qed.

Lemma preserves_upsert_hourly_ad_insights (fromisoformat : string -> bool)
    (int_of_str : string -> option Z) (float_of_str : string -> option Q)
    (hour now : string) (insights : list pyrecord) :
  allowed hourly_upsert ->
  preserves I
    (upsert_hourly_ad_insights NOW fromisoformat int_of_str float_of_str
       hour now insights).
Proof.
  intros Hu. unfold upsert_hourly_ad_insights.
  destruct insights as [|i insights]; frame.
  - unfold hourly_item. cbv zeta. frame.
    destruct (hourly_tuple _ _ _ _ _); frame.
  - match goal with |- preserves I (match ?x with _ => _ end) =>
      destruct x end; frame.
    by apply bulk_ok.
Qed.
End Writer.

Section Run.
Variable env : Main.Env U.
Variable clock : Main.Clock.
Variable fuel : nat.
Hypothesis get_ok :
  forall url params,
    preserves I (http_get (Main.requests_get env) url params).
Hypothesis bulk_ok : forall u rows, preserves I (bulk (Main.db_now clock) u rows).

Lemma preserves_index (a : Tuple) (i : nat) : preserves I (Main.index a i).
Proof. unfold Main.index. destruct (a !! i); frame. Qed.

Lemma preserves_ad_id_of (insight : pyrecord) :
  preserves I (Main.ad_id_of insight).
Proof. unfold Main.ad_id_of. destruct (get "ad_id" insight); frame. Qed.

Lemma preserves_reconcile_adsets (adsets : list Tuple) :
  preserves I (Main.reconcile_adsets clock adsets).
Proof.
  unfold Main.reconcile_adsets. frame.
  - apply preserves_filter_adsets.
  - by apply (preserves_upsert_batch (fun _ => True)).
Qed.

Lemma preserves_hourly_body (ads : list Tuple) :
  preserves I (Main.hourly_body env clock ads).
Proof.
  unfold Main.hourly_body. cbv zeta. frame.
  - apply preserves_map_m. intros a. apply preserves_index.
  - by apply preserves_fetch_ad_insights.
  - apply preserves_map_m. apply preserves_ad_id_of.
  - apply preserves_map_m. intros a. apply preserves_index.
  - by apply (preserves_upsert_hourly_ad_insights (fun _ => True)).
Qed.
End Run.
End World.

(** *** The warehouse during extraction *)

Section SameDb.
Context {U : Type}.

Lemma same_db_refl (s : St (World U)) : same_db s s.
Proof. reflexivity. Qed.

Lemma same_db_trans (s1 s2 s3 : St (World U)) :
  same_db s1 s2 -> same_db s2 s3 -> same_db s1 s3.
Proof. unfold same_db. congruence. Qed.

Lemma same_db_emit (ev : Event) :
  is_step_event ev = false -> preserves (W := World U) same_db (emit ev).
Proof. intros _ s. reflexivity. Qed.

Lemma same_db_http_get (client : Client U) (url : string) (params : Params) :
  preserves same_db (http_get client url params).
Proof.
  intros s. unfold http_get, same_db.
  by destruct (client url params (upstream (world s))).
Qed.
End SameDb.

(** X14. No extractor writes to the warehouse: whatever the upstream
    answers and however the extractor ends, the tables are as they were
    before the call. *)
Theorem extractors_leave_warehouse {U : Type} (client : Client U)
    (acct token now hour since until : string) (interval : Q)
    (fromisoformat : string -> bool) (repr jd : PyVal -> string)
    (jdi : pyrecord -> string) (int_of_str : string -> option Z)
    (float_of_str : string -> option Q)
    (insights_filter : list PyVal -> string) (fuel : nat)
    (ad_ids : list PyVal) (s : St (World U)) :
  same_db s
    (fetch_campaigns client acct token interval fromisoformat repr now hour
       s).2
  /\ same_db s
       (fetch_activity_history client acct token interval now hour since
          until s).2
  /\ same_db s
       (fetch_regionwise_insights client acct token interval now hour s).2
  /\ same_db s
       (fetch_adcreatives_batch client acct token interval jd jdi now hour
          fuel s).2
  /\ same_db s
       (fetch_adsets_batch client acct token interval jd jdi now hour fuel
          s).2
  /\ same_db s
       (fetch_ads_batch client acct token interval jd jdi now hour fuel s).2
  /\ same_db s
       (fetch_ad_insights client acct token int_of_str float_of_str
          insights_filter ad_ids s).2.
Proof.
  repeat split.
  - apply (preserves_fetch_campaigns same_db same_db_refl same_db_trans
             same_db_emit client (same_db_http_get client)).
  - apply (preserves_fetch_activity_history same_db same_db_refl
             same_db_trans same_db_emit client (same_db_http_get client)).
  - apply (preserves_fetch_regionwise_insights same_db same_db_refl
             same_db_trans same_db_emit client (same_db_http_get client)).
  - apply (preserves_fetch_adcreatives_batch same_db same_db_refl
             same_db_trans same_db_emit client (same_db_http_get client)).
  - apply (preserves_fetch_adsets_batch same_db same_db_refl
             same_db_trans same_db_emit client (same_db_http_get client)).
  - apply (preserves_fetch_ads_batch same_db same_db_refl
             same_db_trans same_db_emit client (same_db_http_get client)).
  - apply (preserves_fetch_ad_insights same_db same_db_refl
             same_db_trans same_db_emit client (same_db_http_get client)).
Qed.

(** *** The tables a loader leaves alone *)

Section WritesOnly.
Context {U : Type}.
Variable t : string.

Lemma writes_only_refl (s : St (World U)) : writes_only t s s.
Proof. by split. Qed.

Lemma writes_only_trans (s1 s2 s3 : St (World U)) :
  writes_only t s1 s2 -> writes_only t s2 s3 -> writes_only t s1 s3.
Proof.
  unfold writes_only, same_upstream, same_other_tables.
  intros [U1 T1] [U2 T2]. split; [congruence|].
  intros t' Ht. by rewrite T2, T1.
Qed.

Lemma writes_only_emit (ev : Event) :
  is_step_event ev = false ->
  preserves (W := World U) (writes_only t) (emit ev).
Proof. intros _ s. by split. Qed.

Lemma writes_only_bulk (NOW : PyVal) (u : Upsert) (rows : list Tuple) :
  table u = t -> preserves (W := World U) (writes_only t) (bulk NOW u rows).
Proof.
  intros <- s. unfold bulk. cbv zeta.
  destruct (execute_values u NOW rows _) as [ok tbl].
  assert (writes_only (table u) s
            {| world := {| upstream := upstream (world s);
                           db := <[table u := tbl]> (db (world s)) |};
               trace := trace s |}) as H.
  { split; [reflexivity|]. intros t' Ht. cbn [world db].
    by rewrite lookup_insert_ne. }
  by destruct ok.
Qed.
End WritesOnly.

Section SameWorld.
Context {U : Type}.

Lemma same_world_refl (s : St (World U)) : same_world s s.
Proof. reflexivity. Qed.

Lemma same_world_trans (s1 s2 s3 : St (World U)) :
  same_world s1 s2 -> same_world s2 s3 -> same_world s1 s3.
Proof. unfold same_world. congruence. Qed.

Lemma same_world_emit (ev : Event) :
  is_step_event ev = false -> preserves (W := World U) same_world (emit ev).
Proof. intros _ s. reflexivity. Qed.
End SameWorld.

(** X15. A loader writes to its own table only, and never calls the
    upstream: after any of the six bulk loaders, whether it succeeded or
    raised, every other table holds what it held. The consistency filter
    reads the warehouse and changes nothing at all. *)
Theorem loaders_write_own_table {U : Type} (NOW : PyVal)
    (fromisoformat : string -> bool) (int_of_str : string -> option Z)
    (float_of_str : string -> option Q) (hour now : string)
    (rows : list Tuple) (insights : list pyrecord) (s : St (World U)) :
  writes_only "ad_account_activity_history" s
    (upsert_activity_history NOW rows s).2
  /\ writes_only "ad_insights_regionwise" s
       (upsert_regionwise_insights NOW rows s).2
  /\ writes_only "ad_creatives" s (upsert_adcreatives NOW rows s).2
  /\ writes_only "adsets" s (upsert_adsets NOW rows s).2
  /\ writes_only "ads" s (upsert_ads NOW rows s).2
  /\ writes_only "ad_insights_hourly_snapshots" s
       (upsert_hourly_ad_insights NOW fromisoformat int_of_str float_of_str
          hour now insights s).2
  /\ same_world s (filter_adsets_with_existing_campaigns rows s).2.
Proof.
  split; [|split; [|split; [|split; [|split; [|split]]]]].
  - apply (preserves_upsert_batch _ (writes_only_refl _)
             (writes_only_trans _) (writes_only_emit _)
             (fun u => table u = "ad_account_activity_history") NOW
             (writes_only_bulk _ NOW)); reflexivity.
  - apply (preserves_upsert_batch _ (writes_only_refl _)
             (writes_only_trans _) (writes_only_emit _)
             (fun u => table u = "ad_insights_regionwise") NOW
             (writes_only_bulk _ NOW)); reflexivity.
  - apply (preserves_upsert_batch _ (writes_only_refl _)
             (writes_only_trans _) (writes_only_emit _)
             (fun u => table u = "ad_creatives") NOW
             (writes_only_bulk _ NOW)); reflexivity.
  - apply (preserves_upsert_batch _ (writes_only_refl _)
             (writes_only_trans _) (writes_only_emit _)
             (fun u => table u = "adsets") NOW
             (writes_only_bulk _ NOW)); reflexivity.
  - apply (preserves_upsert_batch _ (writes_only_refl _)
             (writes_only_trans _) (writes_only_emit _)
             (fun u => table u = "ads") NOW
             (writes_only_bulk _ NOW)); reflexivity.
  - apply (preserves_upsert_hourly_ad_insights _ (writes_only_refl _)
             (writes_only_trans _) (writes_only_emit _)
             (fun u => table u = "ad_insights_hourly_snapshots") NOW
             (writes_only_bulk _ NOW)); reflexivity.
  - apply (preserves_filter_adsets same_world same_world_refl
             same_world_trans same_world_emit).
Qed.

End FrameFacts.

(** ** The orchestrator never gives up *)

Module MainFacts.
Import Py Eff Sys Warehouse Queries Load Frame FrameFacts.

Lemma started_app (t1 t2 : list Event) :
  started (t1 ++ t2) = started t1 ++ started t2.
Proof. unfold started. apply omap_app. Qed.

Section SameStarted.
Context {U : Type}.

Lemma same_started_refl (s : St (World U)) : same_started s s.
Proof. reflexivity. Qed.

Lemma same_started_trans (s1 s2 s3 : St (World U)) :
  same_started s1 s2 -> same_started s2 s3 -> same_started s1 s3.
Proof. unfold same_started. congruence. Qed.

Lemma same_started_emit (ev : Event) :
  is_step_event ev = false ->
  preserves (W := World U) same_started (emit ev).
Proof.
  intros Hev s. unfold same_started, emit. cbn [snd trace].
  rewrite started_app. destruct ev as [d|[]]; try discriminate Hev;
    cbn; apply app_nil_r.
Qed.

Lemma same_started_http_get (client : Client U) (url : string)
    (params : Params) :
  preserves same_started (http_get client url params).
Proof.
  intros s. unfold http_get, same_started.
  by destruct (client url params (upstream (world s))).
Qed.

Lemma same_started_bulk (NOW : PyVal) (u : Upsert) (rows : list Tuple) :
  preserves (W := World U) same_started (bulk NOW u rows).
Proof.
  intros s. unfold bulk, same_started. cbv zeta.
  destruct (execute_values u NOW rows _) as [[] tbl]; reflexivity.
Qed.

(** A step whose body starts no step of its own. *)
Lemma runs_step {X} (name : string) (body : M (World U) X) (fallback : X) :
  preserves same_started body -> runs [name] (Main.step name body fallback).
Proof.
  intros Hbody s. unfold Main.step, try_except, bind, log, emit, ret.
  cbn [world trace].
  specialize (Hbody {| world := world s;
                       trace := trace s ++ [Log (StepStarted name)] |}).
  unfold same_started in Hbody. cbn [trace] in Hbody.
  rewrite started_app in Hbody.
  destruct (body _) as [[x|e|] s1]; cbn [fst snd any_exception trace] in *.
  - split; [discriminate|]. intros _ _. rewrite started_app, Hbody.
    cbn. by rewrite app_nil_r.
  - split; [discriminate|]. intros _ _. rewrite started_app, Hbody.
    cbn. by rewrite app_nil_r.
  - split; discriminate.
Qed.

Lemma runs_bind {X Y} (n1 n2 : list string) (m : M (World U) X)
    (k : X -> M (World U) Y) :
  runs n1 m -> (forall x, runs n2 (k x)) -> runs (n1 ++ n2) (bind m k).
Proof.
  intros Hm Hk s. unfold bind. destruct (Hm s) as [Hm1 Hm2].
  destruct (m s) as [[x|e|] s1]; cbn [fst snd] in *.
  - destruct (Hk x s1) as [Hk1 Hk2]. split; [exact Hk1|].
    intros y Hy. rewrite (Hk2 y Hy), (Hm2 x eq_refl). by rewrite app_assoc.
  - by destruct (Hm1 e).
  - split; discriminate.
Qed.
End SameStarted.

Section Main.
Context {U : Type}.
Variable env : Main.Env U.
Variable clock : Main.Clock.
Variable fuel : nat.

Lemma main_runs : runs STEPS (Main.main env clock fuel).
Proof.
  pose proof (same_started_http_get (Main.requests_get env)) as get_ok.
  pose proof (same_started_bulk (U := U) (Main.db_now clock)) as bulk_ok.
  unfold Main.main, STEPS.
  change [ "Campaign"; "Activity History"; "Regionwise Insights";
           "AdCreatives"; "AdSets"; "Ads"; "Hourly Ad Insights" ]
    with (["Campaign"] ++ ["Activity History"] ++ ["Regionwise Insights"]
          ++ ["AdCreatives"] ++ ["AdSets"] ++ ["Ads"]
          ++ ["Hourly Ad Insights"]).
  repeat (apply runs_bind; [|intros ?]); apply runs_step.
  - apply (preserves_bind _ same_started_trans); [|intros campaigns].
    + apply (preserves_fetch_campaigns same_started same_started_refl
               same_started_trans same_started_emit _ get_ok).
    + apply bulk_ok.
  - apply (preserves_bind _ same_started_trans); [|intros rows].
    + apply (preserves_fetch_activity_history same_started same_started_refl
               same_started_trans same_started_emit _ get_ok).
    + apply (preserves_upsert_batch same_started same_started_refl
               same_started_trans same_started_emit (fun _ => True) _
               (fun u rows _ => bulk_ok u rows)); exact Logic.I.
  - apply (preserves_bind _ same_started_trans); [|intros rows].
    + apply (preserves_fetch_regionwise_insights same_started
               same_started_refl same_started_trans same_started_emit _
               get_ok).
    + apply (preserves_upsert_batch same_started same_started_refl
               same_started_trans same_started_emit (fun _ => True) _
               (fun u rows _ => bulk_ok u rows)); exact Logic.I.
  - apply (preserves_bind _ same_started_trans); [|intros rows].
    + apply (preserves_fetch_adcreatives_batch same_started
               same_started_refl same_started_trans same_started_emit _
               get_ok).
    + apply (preserves_upsert_batch same_started same_started_refl
               same_started_trans same_started_emit (fun _ => True) _
               (fun u rows _ => bulk_ok u rows)); exact Logic.I.
  - apply (preserves_bind _ same_started_trans); [|intros rows].
    + apply (preserves_fetch_adsets_batch same_started
               same_started_refl same_started_trans same_started_emit _
               get_ok).
    + apply (preserves_reconcile_adsets same_started same_started_refl
               same_started_trans same_started_emit clock bulk_ok).
  - apply (preserves_bind _ same_started_trans); [|intros rows].
    + apply (preserves_fetch_ads_batch same_started
               same_started_refl same_started_trans same_started_emit _
               get_ok).
    + apply (preserves_bind _ same_started_trans); [|intros _].
      * apply (preserves_upsert_batch same_started same_started_refl
                 same_started_trans same_started_emit (fun _ => True) _
                 (fun u rows _ => bulk_ok u rows)); exact Logic.I.
      * apply (preserves_ret _ same_started_refl).
  - apply (preserves_hourly_body same_started same_started_refl
             same_started_trans same_started_emit env clock get_ok bulk_ok).
Qed.
End Main.

(** X16. The orchestrator never raises, whatever the upstream and the
    warehouse do; and whenever it comes to its end it has started each of
    its seven steps, in order, whether or not the steps before it failed. *)
Theorem main_attempts_every_step {U : Type} (env : Main.Env U)
    (clock : Main.Clock) (fuel : nat) (s : St (World U)) :
  (forall e, (Main.main env clock fuel s).1 <> Raised e)
  /\ ((Main.main env clock fuel s).1 = Returned tt ->
      started (trace (Main.main env clock fuel s).2)
      = started (trace s) ++ STEPS).
Proof.
  destruct (main_runs env clock fuel s) as [H1 H2]. split; [exact H1|].
  apply H2.
Qed.

Lemma main_attempts_every_step_witness :
  started (trace (Main.main (Sample.env Sample.limited_response)
                    Sample.clock 10 (Sample.start 0%nat)).2)
  = STEPS.
Proof.
  apply (proj2 (main_attempts_every_step
                  (Sample.env Sample.limited_response) Sample.clock 10
                  (Sample.start 0%nat))).
  vm_compute. reflexivity.
Defined.

Lemma failed_app (t1 t2 : list Event) :
  failed (t1 ++ t2) = failed t1 ++ failed t2.
Proof. unfold failed. apply omap_app. Qed.

Lemma failed_quiet (evs : list Event) :
  forallb (fun ev => negb (is_step_event ev)) evs = true -> failed evs = [].
Proof.
  induction evs as [|ev evs IH]; [reflexivity|]. cbn [forallb].
  intros [Hev Hevs]%andb_prop. destruct ev as [d|[]]; try discriminate Hev;
    by apply IH.
Qed.

Section Quiet.
Context {U : Type}.

Lemma quiet_refl (s : St (World U)) : quiet s s.
Proof. exists []. by rewrite app_nil_r. Qed.

Lemma quiet_trans (s1 s2 s3 : St (World U)) :
  quiet s1 s2 -> quiet s2 s3 -> quiet s1 s3.
Proof.
  intros (e1 & H1 & Q1) (e2 & H2 & Q2). exists (e1 ++ e2).
  rewrite H2, H1, <- app_assoc, forallb_app, Q1, Q2. by split.
Qed.

Lemma quiet_emit (ev : Event) :
  is_step_event ev = false -> preserves (W := World U) quiet (emit ev).
Proof.
  intros Hev s. exists [ev]. cbn. by rewrite Hev.
Qed.

Lemma quiet_http_get (client : Client U) (url : string) (params : Params) :
  preserves quiet (http_get client url params).
Proof.
  intros s. exists []. unfold http_get.
  destruct (client url params (upstream (world s))). cbn.
  by rewrite app_nil_r.
Qed.

Lemma quiet_bulk (NOW : PyVal) (u : Upsert) (rows : list Tuple) :
  preserves (W := World U) quiet (bulk NOW u rows).
Proof.
  intros s. exists []. unfold bulk. cbv zeta.
  destruct (execute_values u NOW rows _) as [[] tbl]; cbn;
    by rewrite app_nil_r.
Qed.

(** With no ads the hourly step asks for nothing and writes nothing. *)
Lemma hourly_step_no_ads (env : Main.Env U) (clock : Main.Clock)
    (s : St (World U)) :
  Main.hourly_step env clock [] s
  = (Returned tt,
     {| world := world s;
        trace := trace s
                 ++ [ Log (StepStarted "Hourly Ad Insights");
                      Log (NothingToUpsert "insights");
                      Log (StepCompleted "Hourly Ad Insights") ] |}).
Proof.
  unfold Main.hourly_step, Main.step, Main.hourly_body, try_except, bind,
    log, emit, ret. cbn. by rewrite <- !app_assoc.
Qed.

Lemma ads_step_failed (env : Main.Env U) (clock : Main.Clock) (fuel : nat)
    (s s1 : St (World U)) (ads : list Tuple) :
  Main.ads_step env clock fuel s = (Returned ads, s1) ->
  failed (trace s1) = failed (trace s) ++ ["Ads"] ->
  ads = [].
Proof.
  unfold Main.ads_step, Main.step, try_except, bind at 1, log at 1, emit at 1.
  unfold bind at 1.
  match goal with |- context [Eff.bind ?m ?k ?s0] =>
    assert (quiet s0 (Eff.bind m k s0).2) as (evs & Htr & Hq);
      [|destruct (Eff.bind m k s0) as [[x|e|] s2]]
  end.
  - apply (preserves_bind _ quiet_trans); [|intros rows].
    + apply (preserves_fetch_ads_batch quiet quiet_refl quiet_trans
               quiet_emit _ (quiet_http_get _)).
    + apply (preserves_bind _ quiet_trans); [|intros _].
      * apply (preserves_upsert_batch quiet quiet_refl quiet_trans quiet_emit
                 (fun _ => True) _ (fun u rows _ => quiet_bulk _ u rows)).
        exact Logic.I.
      * apply (preserves_ret _ quiet_refl).
  - unfold bind, log, emit, ret. cbn [fst snd trace] in *.
    intros [= <- <-] Hf. exfalso. cbn [trace] in Hf.
    rewrite Htr, !failed_app, (failed_quiet evs Hq) in Hf.
    cbn in Hf. rewrite !app_nil_r in Hf.
    apply (f_equal length) in Hf. rewrite length_app in Hf. cbn in Hf. lia.
  - cbn [any_exception]. unfold bind, log, emit, ret. by intros [= <- _].
  - discriminate.
Qed.
End Quiet.

(** X18. When the ad step fails, in the extraction or in the write, [main]
    goes on with no ads at all: the hourly-insight step that follows makes
    no request to the upstream and writes nothing, and is logged as
    completed. *)
Theorem failed_ads_step_skips_hourly_insights {U : Type} (env : Main.Env U)
    (clock : Main.Clock) (fuel : nat) (s s1 : St (World U))
    (ads : list Tuple) :
  Main.ads_step env clock fuel s = (Returned ads, s1) ->
  failed (trace s1) = failed (trace s) ++ ["Ads"] ->
  ads = []
  /\ Main.hourly_step env clock ads s1
     = (Returned tt,
        {| world := world s1;
           trace := trace s1
                    ++ [ Log (StepStarted "Hourly Ad Insights");
                         Log (NothingToUpsert "insights");
                         Log (StepCompleted "Hourly Ad Insights") ] |}).
Proof.
  intros Hstep Hfailed.
  pose proof (ads_step_failed env clock fuel s s1 ads Hstep Hfailed) as ->.
  split; [reflexivity | apply hourly_step_no_ads].
Qed.

Lemma failed_ads_step_skips_hourly_insights_witness :
  (Main.ads_step (Sample.env Sample.limited_response) Sample.clock 10
     (Sample.start 0%nat)).1 = Returned []
  /\ (Main.hourly_step (Sample.env Sample.limited_response) Sample.clock []
        (Main.ads_step (Sample.env Sample.limited_response) Sample.clock 10
           (Sample.start 0%nat)).2).1 = Returned tt.
Proof.
  split; [reflexivity|].
  rewrite (proj2 (failed_ads_step_skips_hourly_insights
                    (Sample.env Sample.limited_response) Sample.clock 10
                    (Sample.start 0%nat)
                    (Main.ads_step (Sample.env Sample.limited_response)
                       Sample.clock 10 (Sample.start 0%nat)).2
                    [] ltac:(reflexivity) ltac:(reflexivity))).
  reflexivity.
Defined.

End MainFacts.

(** ** What the HTTP trigger reports *)

Module FunctionAppFacts.
Import Eff Sys Frame FunctionApp MainFacts.

Section Function.
Context {U : Type}.
Variable env : Main.Env U.
Variable clock : Main.Clock.
Variable fuel : nat.
Variables setup_statements connect : M (World U) unit.
Variable describe : Exn -> string.


End Function.



End FunctionAppFacts.

(** ** The key of the row an item becomes *)

Module KeyFacts.
Import Py Eff Warehouse Queries Extract.

Section Keys.
Variables (acct now hour : string).
Variable repr jd : PyVal -> string.
Variable jdi : pyrecord -> string.
Variable item : pyrecord.

Lemma campaign_key :
  length (campaign_tuple acct repr now hour item)
  = length (columns campaign_upsert)
  /\ key_of campaign_upsert
       (mk_row (columns campaign_upsert)
          (campaign_tuple acct repr now hour item))
     = [PStr (str_of repr (get_or_none "id" item))].
Proof. split; [reflexivity|]. vm_compute. reflexivity. Qed.

Lemma activity_key :
  length (activity_tuple now hour item) = length (columns activity_upsert)
  /\ key_of activity_upsert
       (mk_row (columns activity_upsert) (activity_tuple now hour item))
     = [ get_or_none "object_id" item; get_or_none "event_type" item;
         Normalize.normalize_activity_datetime
           (get_or_none "event_time" item);
         PStr hour ].
Proof. split; reflexivity. Qed.

Lemma regionwise_key :
  length (regionwise_tuple now hour item) = length (columns regionwise_upsert)
  /\ key_of regionwise_upsert
       (mk_row (columns regionwise_upsert) (regionwise_tuple now hour item))
     = [ get_or_none "ad_id" item; get_or_none "date_start" item;
         get_or_none "date_stop" item; get_or_none "region" item;
         PStr hour ].
Proof. split; reflexivity. Qed.

Lemma adcreative_key :
  length (adcreative_tuple jd jdi now hour item)
  = length (columns adcreatives_upsert)
  /\ key_of adcreatives_upsert
       (mk_row (columns adcreatives_upsert)
          (adcreative_tuple jd jdi now hour item))
     = [get_or_none "id" item; PStr hour].
Proof. split; reflexivity. Qed.

Lemma adset_key :
  length (adset_tuple jd jdi now hour item) = length (columns adsets_upsert)
  /\ key_of adsets_upsert
       (mk_row (columns adsets_upsert) (adset_tuple jd jdi now hour item))
     = [get_or_none "id" item; PStr hour].
Proof. split; reflexivity. Qed.

Lemma ad_key :
  length (ad_tuple jd jdi now hour item) = length (columns ads_upsert)
  /\ key_of ads_upsert
       (mk_row (columns ads_upsert) (ad_tuple jd jdi now hour item))
     = [get_or_none "id" item; PStr hour].
Proof. split; reflexivity. Qed.
End Keys.

Lemma hourly_key (int_of_str : string -> option Z)
    (float_of_str : string -> option Q) (hour now : string)
    (insight : pyrecord) (t : Tuple) :
  Load.hourly_tuple int_of_str float_of_str hour now insight = Some t ->
  length t = length (columns hourly_upsert)
  /\ key_of hourly_upsert (mk_row (columns hourly_upsert) t)
     = [ PDateTime hour; get_or_none "ad_id" insight;
         get_or_none "date_start" insight; get_or_none "date_stop" insight ].
Proof.
  unfold Load.hourly_tuple. intros H.
  repeat match type of H with
         | (mbind _ ?x = Some _) =>
             destruct x; [cbn [mbind option_bind] in H | discriminate H]
         end.
  injection H as <-. split; reflexivity.
Qed.

(** X19. The row built from an upstream item has one value for each column
    of its statement, and its conflict key is read off the item as follows:
    a campaign is keyed by its id alone; a creative, an ad set and an ad by
    their id and the hour of the run; an activity by object, event type,
    normalised event time and hour; a regional insight by ad, dates, region
    and hour; and an hourly insight by the snapshot hour, the ad and the
    dates. So a run in the same hour rewrites the rows of the run before
    it, and a run in a later hour adds new ones, except for campaigns. *)
Theorem rows_keyed_by_object_and_hour (acct now hour : string)
    (repr jd : PyVal -> string) (jdi : pyrecord -> string)
    (int_of_str : string -> option Z) (float_of_str : string -> option Q)
    (item : pyrecord) :
  let keyed (u : Upsert) (t : Tuple) (key : list PyVal) :=
    length t = length (columns u)
    /\ key_of u (mk_row (columns u) t) = key in
  keyed campaign_upsert (campaign_tuple acct repr now hour item)
    [PStr (str_of repr (get_or_none "id" item))]
  /\ keyed activity_upsert (activity_tuple now hour item)
       [ get_or_none "object_id" item; get_or_none "event_type" item;
         Normalize.normalize_activity_datetime
           (get_or_none "event_time" item);
         PStr hour ]
  /\ keyed regionwise_upsert (regionwise_tuple now hour item)
       [ get_or_none "ad_id" item; get_or_none "date_start" item;
         get_or_none "date_stop" item; get_or_none "region" item;
         PStr hour ]
  /\ keyed adcreatives_upsert (adcreative_tuple jd jdi now hour item)
       [get_or_none "id" item; PStr hour]
  /\ keyed adsets_upsert (adset_tuple jd jdi now hour item)
       [get_or_none "id" item; PStr hour]
  /\ keyed ads_upsert (ad_tuple jd jdi now hour item)
       [get_or_none "id" item; PStr hour]
  /\ (forall t,
         Load.hourly_tuple int_of_str float_of_str hour now item = Some t ->
         keyed hourly_upsert t
           [ PDateTime hour; get_or_none "ad_id" item;
             get_or_none "date_start" item; get_or_none "date_stop" item ]).
Proof.
  intros keyed. subst keyed. cbv beta.
  split; [apply campaign_key|]. split; [apply activity_key|].
  split; [apply regionwise_key|]. split; [apply adcreative_key|].
  split; [apply adset_key|]. split; [apply ad_key|].
  intros t. apply hourly_key.
Qed.

Lemma rows_keyed_by_object_and_hour_witness :
  key_of hourly_upsert
    (mk_row (columns hourly_upsert)
       (default []
          (Load.hourly_tuple Sample.int_of_str Sample.float_of_str
             "2024-05-01T10:00:00+05:30" "2024-05-01T10:05:00+05:30"
             (Sample.insight "a1" "s1" "10" "200" "12.5"))))
  = [ PDateTime "2024-05-01T10:00:00+05:30"; PStr "a1"; PStr "2024-05-01";
      PStr "2024-05-01" ].
Proof.
  exact (proj2 (proj2 (proj2 (proj2 (proj2 (proj2 (proj2
           (rows_keyed_by_object_and_hour "1" "2024-05-01T10:05:00+05:30"
              "2024-05-01T10:00:00+05:30" (fun _ => "") (fun _ => "{}")
              (fun _ => "{}") Sample.int_of_str Sample.float_of_str
              (Sample.insight "a1" "s1" "10" "200" "12.5")))))))
           _ ltac:(reflexivity))).
Defined.

End KeyFacts.

(** ** A bulk write deletes nothing *)

Module KeepsRowsFacts.
Import Warehouse Queries WarehouseFacts BulkWriteFacts.

Section Stable.
Variable u : Upsert.
Variable now : PyVal.
Hypothesis stable : keys_stable u = true.

(** One proposed row: the stored keys stay where they are, and the key of
    the proposed row is among the keys afterwards, at the end if it is
    new. *)
Lemma upsert_row_keys (new : Row) (tbl : Table) :
  exists extra,
    map (key_of u) (upsert_row u now new tbl) = map (key_of u) tbl ++ extra
    /\ (length extra <= 1)%nat
    /\ key_of u new ∈ map (key_of u) (upsert_row u now new tbl).
Proof.
  induction tbl as [|old tbl IH]; cbn [upsert_row map].
  - exists [key_of u new]. repeat split; [cbn; lia | apply list_elem_of_here].
  - destruct (conflicts u new old) eqn:Hc; cbn [map].
    + exists []. rewrite app_nil_r, update_row_key by exact stable.
      split; [reflexivity|]. split; [cbn; lia|].
      unfold conflicts in Hc. apply andb_prop in Hc as [_ Hk].
      apply bool_decide_eq_true in Hk. rewrite Hk. apply list_elem_of_here.
    + destruct IH as (extra & Heq & Hlen & Hin). exists extra.
      split; [by rewrite Heq|]. split; [exact Hlen|].
      by apply list_elem_of_further.
Qed.

Lemma fold_upsert_row_keys (rows : list Row) :
  forall tbl,
    exists extra,
      map (key_of u) (fold_left (fun tbl r => upsert_row u now r tbl) rows tbl)
      = map (key_of u) tbl ++ extra
      /\ (length extra <= length rows)%nat
      /\ forall r, r ∈ rows ->
           key_of u r
           ∈ map (key_of u)
               (fold_left (fun tbl r => upsert_row u now r tbl) rows tbl).
Proof.
  induction rows as [|r rows IH]; intros tbl; cbn [fold_left].
  - exists []. rewrite app_nil_r. repeat split; [cbn; lia|].
    intros r Hr. by apply not_elem_of_nil in Hr.
  - destruct (upsert_row_keys r tbl) as (e1 & H1 & L1 & I1).
    destruct (IH (upsert_row u now r tbl)) as (e2 & H2 & L2 & I2).
    exists (e1 ++ e2). split; [by rewrite H2, H1, <- app_assoc|].
    split; [rewrite length_app; cbn [length]; lia|].
    intros r' [->|Hr']%elem_of_cons; [|by apply I2].
    rewrite H2. apply elem_of_app. by left.
Qed.

Lemma exec_upsert_keys (page : list Tuple) (tbl tbl' : Table) :
  exec_upsert u now page tbl = Some tbl' ->
  exists extra,
    map (key_of u) tbl' = map (key_of u) tbl ++ extra
    /\ (length extra <= length page)%nat
    /\ forall t, t ∈ page ->
         key_of u (mk_row (columns u) t) ∈ map (key_of u) tbl'.
Proof.
  unfold exec_upsert. destruct (_ && _ && _); [|discriminate].
  intros [= <-].
  destruct (fold_upsert_row_keys (map (mk_row (columns u)) page) tbl)
    as (extra & Heq & Hlen & Hin).
  exists extra. rewrite length_map in Hlen. repeat split; try assumption.
  intros t Ht. apply Hin. by apply list_elem_of_fmap_2.
Qed.

Lemma run_pages_keys (pages : list (list Tuple)) :
  forall (tbl tbl' : Table) (ok : bool),
    run_pages u now pages tbl = (ok, tbl') ->
    exists extra,
      map (key_of u) tbl' = map (key_of u) tbl ++ extra
      /\ (length extra <= length (concat pages))%nat
      /\ (ok = true ->
          forall t, t ∈ concat pages ->
            key_of u (mk_row (columns u) t) ∈ map (key_of u) tbl').
Proof.
  induction pages as [|page pages IH]; intros tbl tbl' ok Hrun;
    cbn [run_pages concat] in *.
  - injection Hrun as <- <-. exists []. rewrite app_nil_r.
    repeat split; [cbn; lia|]. intros _ t Ht. by apply not_elem_of_nil in Ht.
  - destruct (exec_upsert u now page tbl) as [tbl1|] eqn:E.
    + destruct (exec_upsert_keys page tbl tbl1 E) as (e1 & H1 & L1 & I1).
      destruct (IH tbl1 tbl' ok Hrun) as (e2 & H2 & L2 & I2).
      exists (e1 ++ e2). split; [by rewrite H2, H1, <- app_assoc|].
      split; [rewrite !length_app; lia|].
      intros Hok t [Ht|Ht]%elem_of_app; [|by apply I2].
      rewrite H2. apply elem_of_app. left. by apply I1.
    + injection Hrun as <- <-. exists []. rewrite app_nil_r.
      repeat split; [cbn; lia | discriminate].
Qed.

Lemma execute_values_keys (batch : list Tuple) (tbl tbl' : Table)
    (ok : bool) :
  execute_values u now batch tbl = (ok, tbl') ->
  exists extra,
    map (key_of u) tbl' = map (key_of u) tbl ++ extra
    /\ (length extra <= length batch)%nat
    /\ (ok = true ->
        forall t, t ∈ batch ->
          key_of u (mk_row (columns u) t) ∈ map (key_of u) tbl').
Proof.
  unfold execute_values. intros Hrun.
  destruct (run_pages_keys _ _ _ _ Hrun) as (extra & Heq & Hlen & Hin).
  rewrite paginate_concat in Hlen, Hin. by exists extra.
Qed.
End Stable.

(** X20. A bulk write whose SET clause leaves the conflict key alone, as
    all seven statements of the script do, never deletes a row and never
    moves one to another key: afterwards the stored rows carry, in order,
    the keys they carried before, followed by at most one new row for each
    tuple of the batch; and when the write succeeded, every tuple of the
    batch has its key in the table. *)
Theorem bulk_write_keeps_rows (u : Upsert) (now : PyVal)
    (batch : list Tuple) (tbl tbl' : Table) (ok : bool) :
  keys_stable u = true ->
  execute_values u now batch tbl = (ok, tbl') ->
  Forall (fun u => keys_stable u = true) all_upserts
  /\ exists extra,
       map (key_of u) tbl' = map (key_of u) tbl ++ extra
       /\ (length extra <= length batch)%nat
       /\ (ok = true ->
           forall t, t ∈ batch ->
             key_of u (mk_row (columns u) t) ∈ map (key_of u) tbl').
Proof.
  intros Hstable Hrun. split.
  - repeat apply List.Forall_cons; try apply List.Forall_nil;
      vm_compute; reflexivity.
  - exact (execute_values_keys u now Hstable batch tbl tbl' ok Hrun).
Qed.

Lemma bulk_write_keeps_rows_witness :
  exists extra,
    map (key_of adsets_upsert)
      (execute_values adsets_upsert PNone [Sample.adset_of "s1" "c1"] []).2
    = map (key_of adsets_upsert) [] ++ extra
    /\ (length extra <= length [Sample.adset_of "s1" "c1"])%nat
    /\ ((execute_values adsets_upsert PNone [Sample.adset_of "s1" "c1"] []).1
        = true ->
        forall t, t ∈ [Sample.adset_of "s1" "c1"] ->
          key_of adsets_upsert (mk_row (columns adsets_upsert) t)
          ∈ map (key_of adsets_upsert)
              (execute_values adsets_upsert PNone
                 [Sample.adset_of "s1" "c1"] []).2).
Proof.
  apply (bulk_write_keeps_rows adsets_upsert PNone
           [Sample.adset_of "s1" "c1"] []).
  - vm_compute. reflexivity.
  - apply surjective_pairing.
Defined.

End KeepsRowsFacts.

(** ** The consistency filter on extracted ad sets *)

Module ComposeFacts.
Import Py Eff Sys Warehouse Queries Extract Load Items FilterFacts.

Section AdSets.
Context {U : Type}.
Variable jd : PyVal -> string.
Variable jdi : pyrecord -> string.
Variables (now hour : string).



End AdSets.


End ComposeFacts.

(** ** What the hourly loader writes *)

Module HourlyLoadFacts.
Import Py Eff Sys Warehouse Queries Validator Load Items.

Section Loader.
Context {U : Type}.
Variable NOW : PyVal.
Variable fromisoformat : string -> bool.
Variable int_of_str : string -> option Z.
Variable float_of_str : string -> option Q.
Variables (hour now : string).

Lemma omap_cons {X Y} (f : X -> option Y) (x : X) (l : list X) :
  omap f (x :: l)
  = match f x with Some y => y :: omap f l | None => omap f l end.
Proof. reflexivity. Qed.

(** The loop over the insights is a filter: an insight yields a row when,
    stamped with the hour, it validates and projects; otherwise it yields a
    warning. *)
Lemma for_each_hourly_item (insights : list pyrecord) :
  forall (acc : list Tuple) (s : St (World U)),
    for_each insights
      (hourly_item fromisoformat int_of_str float_of_str hour now) acc s
    = (Returned
         (acc ++ hourly_rows fromisoformat int_of_str float_of_str hour now
                   insights),
       {| world := world s;
          trace := trace s
                   ++ omap (hourly_warning fromisoformat int_of_str
                              float_of_str hour now) insights |}).
Proof.
  induction insights as [|insight insights IH]; intros acc s.
  - cbn. rewrite !app_nil_r. by destruct s.
  - cbn [for_each]. unfold bind at 1, hourly_item at 1. cbv zeta.
    fold (stamped hour insight). rewrite ValidFacts.has_errors_valid.
    unfold hourly_rows. rewrite !omap_cons.
    unfold hourly_row at 1, hourly_warning at 1.
    destruct (Valid.valid fromisoformat (stamped hour insight)
                AD_INSIGHTS_HOURLY_SNAPSHOT_SCHEMA); cbn [negb].
    + destruct (hourly_tuple int_of_str float_of_str hour now
                  (stamped hour insight)) as [t|].
      * unfold ret at 1. rewrite IH. unfold hourly_rows.
        by rewrite <- app_assoc.
      * unfold bind at 1, log, emit, ret at 1. rewrite IH.
        unfold hourly_rows. cbn [world trace]. by rewrite <- app_assoc.
    + unfold bind at 1, log, emit, ret at 1. rewrite IH.
      unfold hourly_rows. cbn [world trace]. by rewrite <- app_assoc.
Qed.

Lemma upsert_hourly_ad_insights_effect (insights : list pyrecord)
    (s : St (World U)) :
  let r :=
    upsert_hourly_ad_insights NOW fromisoformat int_of_str float_of_str hour
      now insights s in
  let rows :=
    hourly_rows fromisoformat int_of_str float_of_str hour now insights in
  let written :=
    execute_values hourly_upsert NOW rows
      (rows_of (db (world s)) "ad_insights_hourly_snapshots") in
  match rows with
  | [] => r.1 = Returned tt /\ world r.2 = world s
  | _ =>
      r.1 = (if written.1 then Returned tt
             else Raised (DatabaseError "ad_insights_hourly_snapshots"))
      /\ upstream (world r.2) = upstream (world s)
      /\ db (world r.2)
         = <["ad_insights_hourly_snapshots" := written.2]> (db (world s))
  end.
Proof.
  cbv zeta. destruct insights as [|insight insights]; [by split|].
  set (rows := hourly_rows fromisoformat int_of_str float_of_str hour now
                 (insight :: insights)).
  assert (upsert_hourly_ad_insights NOW fromisoformat int_of_str float_of_str
            hour now (insight :: insights) s
          = try_except
              (match rows with
               | [] => log (NothingToUpsert "valid insights")
               | _ =>
                   bulk NOW hourly_upsert rows ;;;
                   log (Upserted "hourly ad insights" (length rows))
               end)%eff
              any_exception
              (fun e =>
                 log (UpsertFailed "hourly ad insights" e) ;;; raise e)%eff
              {| world := world s;
                 trace := trace s
                          ++ omap (hourly_warning fromisoformat int_of_str
                                     float_of_str hour now)
                               (insight :: insights) |}) as ->.
  { unfold upsert_hourly_ad_insights, bind at 1.
    by rewrite for_each_hourly_item. }
  destruct rows as [|t rows].
  - by split.
  - unfold try_except, bind, bulk. cbv zeta. cbn [world db trace].
    change (table hourly_upsert) with "ad_insights_hourly_snapshots".
    destruct (execute_values hourly_upsert NOW (t :: rows) _) as [[] tbl];
      by repeat split.
Qed.
End Loader.

(** X22. The hourly loader stamps every insight with the snapshot hour and
    hands to one bulk write, in the order given, the rows of exactly those
    insights that then validate against the snapshot schema and whose
    numeric fields convert; the others are logged and skipped. With no
    such insight it writes nothing and returns; otherwise it returns when
    the write succeeds and raises the database error when it fails, the
    table holding what the write left in either case. *)
Theorem hourly_loader_writes_valid_insights {U : Type} (NOW : PyVal)
    (fromisoformat : string -> bool) (int_of_str : string -> option Z)
    (float_of_str : string -> option Q) (hour now : string)
    (insights : list pyrecord) (s : St (World U)) :
  let r :=
    upsert_hourly_ad_insights NOW fromisoformat int_of_str float_of_str hour
      now insights s in
  let rows :=
    hourly_rows fromisoformat int_of_str float_of_str hour now insights in
  let written :=
    execute_values hourly_upsert NOW rows
      (rows_of (db (world s)) "ad_insights_hourly_snapshots") in
  match rows with
  | [] => r.1 = Returned tt /\ world r.2 = world s
  | _ =>
      r.1 = (if written.1 then Returned tt
             else Raised (DatabaseError "ad_insights_hourly_snapshots"))
      /\ upstream (world r.2) = upstream (world s)
      /\ db (world r.2)
         = <["ad_insights_hourly_snapshots" := written.2]> (db (world s))
  end.
Proof. apply upsert_hourly_ad_insights_effect. Qed.

End HourlyLoadFacts.

(** ** Validation and the NOT NULL columns *)

Module NotNullFacts.
Import Py Eff Warehouse Queries Validator Valid Extract Load Accepted Items.



Section Rows.
Variables (acct now hour : string).
Variable fromisoformat : string -> bool.
Variable repr jd : PyVal -> string.
Variable jdi : pyrecord -> string.
Variable int_of_str : string -> option Z.
Variable float_of_str : string -> option Q.



End Rows.



End NotNullFacts.

(** ** Default insights *)

Module DefaultsFacts.
Import Py Eff Warehouse Main.

Lemma dict_put_elem (k : PyVal) (a : Tuple) (d : list (PyVal * Tuple)) :
  exists a', (k, a') ∈ dict_put k a d.
Proof.
  induction d as [|[k' a'] d IH]; cbn [dict_put].
  - exists a. apply list_elem_of_here.
  - destruct (bool_decide_reflect (k = k')) as [->|_].
    + exists a. apply list_elem_of_here.
    + destruct IH as (a0 & H). exists a0. by apply list_elem_of_further.
Qed.

Lemma dict_put_keeps (k k0 : PyVal) (a a0 : Tuple)
    (d : list (PyVal * Tuple)) :
  (k0, a0) ∈ d -> exists a', (k0, a') ∈ dict_put k a d.
Proof.
  induction d as [|[k' a'] d IH]; cbn [dict_put].
  - intros H. by apply not_elem_of_nil in H.
  - intros [[= -> ->]|H]%elem_of_cons.
    + destruct (bool_decide (k = k')); eexists; apply list_elem_of_here.
    + destruct (bool_decide (k = k')).
      * exists a0. by apply list_elem_of_further.
      * destruct (IH H) as (a1 & H1). exists a1.
        by apply list_elem_of_further.
Qed.

(** Every entry is filed under the id of its ad. *)
Lemma dict_put_filed (k : PyVal) (a : Tuple) (d : list (PyVal * Tuple)) :
  k = default PNone (a !! 0%nat) ->
  Forall (fun e => e.1 = default PNone (e.2 !! 0%nat)) d ->
  Forall (fun e => e.1 = default PNone (e.2 !! 0%nat)) (dict_put k a d).
Proof.
  intros Hk. induction 1 as [|[k' a'] d He Hd IH]; cbn [dict_put].
  - repeat constructor. exact Hk.
  - destruct (bool_decide_reflect (k = k')) as [<-|_].
    + constructor; [exact Hk | exact Hd].
    + constructor; [exact He | exact IH].
Qed.

Lemma ad_id_to_ad_spec (ads : list Tuple) :
  forall d,
    Forall (fun e => e.1 = default PNone (e.2 !! 0%nat)) d ->
    let d' :=
      fold_left (fun d a => dict_put (default PNone (a !! 0%nat)) a d) ads d in
    Forall (fun e => e.1 = default PNone (e.2 !! 0%nat)) d'
    /\ (forall k a, (k, a) ∈ d -> exists a', (k, a') ∈ d')
    /\ (forall a, a ∈ ads -> exists a', (default PNone (a !! 0%nat), a') ∈ d').
Proof.
  induction ads as [|a ads IH]; intros d Hd; cbn [fold_left].
  - repeat split; [exact Hd | by eauto |].
    intros a Ha. by apply not_elem_of_nil in Ha.
  - destruct (IH (dict_put (default PNone (a !! 0%nat)) a d)
                (dict_put_filed _ _ _ eq_refl Hd)) as (F & K & A).
    repeat split; [exact F | |].
    + intros k a0 H.
      destruct (dict_put_keeps (default PNone (a !! 0%nat)) k a a0 d H)
        as (a1 & H1). by eapply K.
    + intros a0 [->|Ha0]%elem_of_cons; [|by apply A].
      destruct (dict_put_elem (default PNone (a !! 0%nat)) a d)
        as (a1 & H1). by eapply K.
Qed.

Lemma missing_ads_spec (ads : list Tuple) (ids : list PyVal) :
  (forall a, a ∈ ads -> default PNone (a !! 0%nat) ∉ ids ->
     exists a',
       a' ∈ missing_ads ads ids
       /\ default PNone (a' !! 0%nat) = default PNone (a !! 0%nat))
  /\ (forall a',
        a' ∈ missing_ads ads ids -> default PNone (a' !! 0%nat) ∉ ids).
Proof.
  destruct (ad_id_to_ad_spec ads [] (List.Forall_nil _)) as (F & _ & A).
  fold (ad_id_to_ad ads) in F, A. unfold missing_ads. split.
  - intros a Ha Hid. destruct (A a Ha) as (a' & Ha').
    exists a'. split.
    + apply list_elem_of_omap. exists (default PNone (a !! 0%nat), a').
      split; [exact Ha'|].
      by rewrite bool_decide_eq_false_2.
    + rewrite Forall_forall in F. symmetry. exact (F _ Ha').
  - intros a' ([k a0] & Hin & Hsome)%list_elem_of_omap.
    destruct (bool_decide_reflect (k ∈ ids)) as [|Hk]; [discriminate|].
    injection Hsome as ->. rewrite Forall_forall in F.
    pose proof (F _ Hin) as E. cbn [fst snd] in E. by rewrite <- E.
Qed.

(** X24. After [main] has added its default insights, every fetched ad
    whose id is not among the ids of the fetched insights has a default
    insight under its id, with the ad set taken from the ad and no campaign
    or account; and a default insight is added for such ads only. *)
Theorem defaults_cover_ads_without_insight (clock : Clock)
    (ads : list Tuple) (insight_ad_ids : list PyVal)
    (insights : list pyrecord) :
  (forall a, a ∈ ads -> default PNone (a !! 0%nat) ∉ insight_ad_ids ->
     exists i, i ∈ with_defaults clock ads insight_ad_ids insights
               /\ get "ad_id" i = Some (default PNone (a !! 0%nat))
               /\ get "campaign_id" i = Some PNone
               /\ get "account_id" i = Some PNone)
  /\ (forall i, i ∈ with_defaults clock ads insight_ad_ids insights ->
        i ∈ insights
        \/ exists a, i = default_insight clock a
                     /\ default PNone (a !! 0%nat) ∉ insight_ad_ids).
Proof.
  destruct (missing_ads_spec ads insight_ad_ids) as [Hcover Honly].
  unfold with_defaults. split.
  - intros a Ha Hid. destruct (Hcover a Ha Hid) as (a' & Ha' & Hid').
    exists (default_insight clock a'). split; [|split; [|split]].
    + apply elem_of_app. right. by apply list_elem_of_fmap_2.
    + cbn. by rewrite Hid'.
    + reflexivity.
    + reflexivity.
  - intros i [Hi|(a & -> & Ha)%list_elem_of_fmap]%elem_of_app;
      [by left | right].
    exists a. split; [reflexivity | by apply Honly].
Qed.

Lemma defaults_cover_ads_without_insight_witness :
  exists i,
    i ∈ with_defaults Sample.clock Sample.three_ads [PStr "a1"; PStr "a2"] []
    /\ get "ad_id" i = Some (default PNone (Sample.ad "a3" "s2" !! 0%nat))
    /\ get "campaign_id" i = Some PNone
    /\ get "account_id" i = Some PNone.
Proof.
  apply (proj1 (defaults_cover_ads_without_insight Sample.clock
                  Sample.three_ads [PStr "a1"; PStr "a2"] [])).
  - apply (bool_decide_unpack _). vm_compute. exact Logic.I.
  - apply (bool_decide_unpack _). vm_compute. exact Logic.I.
Defined.

End DefaultsFacts.

(** ** No bound on the number of pages *)

Module UnboundedFacts.
Import Py Eff Sys Warehouse Backoff Extract Upstream.

Section Endless.
Context {U : Type}.
Variable client : Client U.
Variable interval : Q.
Hypothesis interval_nonneg : (0 <= interval)%Q.
(** Every answer is a page that names another page. *)
Hypothesis endless :
  forall url params u,
    exists r u',
      client url params u = (Returned r, u')
      /\ good_page r = true /\ continues r = true.
Variable project : pyrecord -> Tuple.

Lemma fetch_pages_endless (fuel : nat) :
  forall url params all s,
    (fetch_pages client interval fuel project url params all s).1 = OutOfFuel.
Proof.
  induction fuel as [|fuel IH]; intros url params all s; [reflexivity|].
  cbn [fetch_pages]. unfold bind at 1, backoff_get, api_request_with_backoff.
  cbn [retry_loop max_retries]. unfold http_get at 1.
  destruct (endless url params (upstream (world s)))
    as (r & u' & -> & Hgood & Hcont).
  unfold bind, sleep. pose proof interval_nonneg as Hq.
  apply Qle_bool_iff in Hq. rewrite Hq.
  unfold emit. cbn [world trace upstream db].
  unfold raise_for_status. unfold good_page in Hgood.
  apply negb_true_iff in Hgood. rewrite Hgood. unfold ret at 1.
  unfold continues, next_url in Hcont.
  destruct (json_next r) as [next|]; [|discriminate Hcont].
  destruct (String.eqb next ""); [discriminate Hcont|]. apply IH.
Qed.
End Endless.

(** X25. The paginated extractors put no bound on the number of pages:
    against an upstream whose every answer is a page that names a next
    page, the creative, ad-set and ad extractors do not come to an end,
    whatever number of pages they are allowed. *)
Theorem paginated_extractors_unbounded {U : Type} (client : Client U)
    (interval : Q) (acct token : string) (jd : PyVal -> string)
    (jdi : pyrecord -> string) (now hour : string) (fuel : nat)
    (s : St (World U)) :
  (0 <= interval)%Q ->
  (forall url params u,
      exists r u',
        client url params u = (Returned r, u')
        /\ good_page r = true /\ continues r = true) ->
  (fetch_adcreatives_batch client acct token interval jd jdi now hour fuel
     s).1 = OutOfFuel
  /\ (fetch_adsets_batch client acct token interval jd jdi now hour fuel
        s).1 = OutOfFuel
  /\ (fetch_ads_batch client acct token interval jd jdi now hour fuel
        s).1 = OutOfFuel.
Proof.
  intros Hint Hendless.
  unfold fetch_adcreatives_batch, fetch_adsets_batch, fetch_ads_batch.
  cbv zeta. unfold bind.
  repeat split;
    match goal with
    | |- context [fetch_pages ?c ?i ?f ?p ?u ?ps ?a ?s0] =>
        pose proof (fetch_pages_endless c i Hint Hendless p f u ps a s0) as H;
        destruct (fetch_pages c i f p u ps a s0) as [[x|e|] s1];
        cbn [fst] in *; try discriminate H; reflexivity
    end.
Qed.

Lemma paginated_extractors_unbounded_witness :
  (fetch_adsets_batch (fun _ _ (u : unit) => (Returned page_1, u)) "1"
     "token" (1 # 2) (fun _ => "{}") (fun _ => "{}")
     "2024-05-01T10:05:00+05:30" "2024-05-01T10:00:00+05:30" 3
     (Sample.start tt)).1
  = OutOfFuel.
Proof.
  refine (proj1 (proj2 (paginated_extractors_unbounded
                          (fun _ _ (u : unit) => (Returned page_1, u))
                          (1 # 2) "1" "token" (fun _ => "{}") (fun _ => "{}")
                          "2024-05-01T10:05:00+05:30"
                          "2024-05-01T10:00:00+05:30" 3 (Sample.start tt)
                          ltac:(discriminate) _))).
  intros url params u. exists page_1, u. repeat split.
Defined.

End UnboundedFacts.
